(** * Scrapy Spider Manager plugins: proxy rotation, file API, log analyzer,
      settings advisor

    A shallow embedding of the four pieces of the plugin collection that carry
    logic of their own:

    - [ProxyRotator]    : [ProxyRotatorMiddleware] of [plugins/proxy_rotator_plugin.py]
    - [FileApi]         : [list_or_get_file] of [plugins/file_api_plugin.py]
    - [LogAnalyzer]     : [Plugin._analyze_log_file] of [plugins/log_analyzer_plugin.py]
    - [SettingsAdvisor] : [Plugin._analyze_settings] of [plugins/settings_advisor_plugin.py]

    Conventions.  Python [str] values are [string]s (the text is taken to be
    ASCII); a [dict] is a [gmap]; clock readings ([time.time()]) are integers
    in one fixed clock resolution; a Python exception that leaves a function is
    a [Raise] result.  What the Python standard library or a third-party
    package computes (the urlparse test, json.loads, ast.parse, ...) is an
    argument of the model, never an assumption about it. *)

From Stdlib Require Import ZArith QArith String Ascii List Lia DecimalString.
From stdpp Require Import base option list strings gmap sorting.

Set Warnings "-register-all".
Local Open Scope string_scope.
Local Open Scope list_scope.

(** ** Exceptions and results *)

Inductive exn :=
| AttributeError
| IndexError
| TypeError
| ValueError
| ReError
| WrappedException (msg : string).

Inductive result (A : Type) :=
| Ok (a : A)
| Raise (e : exn).
Arguments Ok {A} a.
Arguments Raise {A} e.

(** Sequencing: an exception ends the computation. *)
Global Instance result_bind : MBind result := fun A B k r =>
  match r with
  | Ok a => k a
  | Raise e => Raise e
  end.

(** ** Python string methods *)

Module PyStr.

(** [str.isspace] on one ASCII character: TAB..CR, FS..US and the space. *)
Definition isspace (c : ascii) : bool :=
  let n := nat_of_ascii c in
  (Nat.leb 9 n && Nat.leb n 13) || (Nat.leb 28 n && Nat.leb n 32).

Definition isdigit (c : ascii) : bool :=
  let n := nat_of_ascii c in
  Nat.leb 48 n && Nat.leb n 57.

Fixpoint lstrip_with (f : ascii -> bool) (s : string) : string :=
  match s with
  | String c s' => if f c then lstrip_with f s' else s
  | EmptyString => EmptyString
  end.

(** Stripping at the right end: the tail is stripped first, and a character
    is dropped when nothing is left after it. *)
Fixpoint rstrip_with (f : ascii -> bool) (s : string) : string :=
  match s with
  | String c s' =>
      match rstrip_with f s' with
      | EmptyString => if f c then EmptyString else String c EmptyString
      | r => String c r
      end
  | EmptyString => EmptyString
  end.

Definition strip_with (f : ascii -> bool) (s : string) : string :=
  rstrip_with f (lstrip_with f s).

(** [s.strip()] *)
Definition strip (s : string) : string := strip_with isspace s.

Fixpoint mem_char (chars : string) (c : ascii) : bool :=
  match chars with
  | String d chars' => Ascii.eqb c d || mem_char chars' c
  | EmptyString => false
  end.

(** [s.strip(chars)] and [s.lstrip(chars)] *)
Definition strip_chars (chars s : string) : string := strip_with (mem_char chars) s.
Definition lstrip_chars (chars s : string) : string := lstrip_with (mem_char chars) s.

(** [s.startswith(p)] *)
Definition startswith (p s : string) : bool := String.prefix p s.

(** [sub in s] *)
Fixpoint contains (sub s : string) : bool :=
  String.prefix sub s ||
  match s with
  | String _ s' => contains sub s'
  | EmptyString => false
  end.

(** Truth value of a string: the empty string is false. *)
Definition truthy (s : string) : bool :=
  match s with
  | EmptyString => false
  | String _ _ => true
  end.

Definition truthy_opt (o : option string) : bool :=
  match o with
  | Some s => truthy s
  | None => false
  end.

(** [s.split(sep)] for a non-empty separator: pieces between the
    non-overlapping occurrences of [sep], found left to right.  [skip] counts
    the characters of a separator still to be passed over, [cur] is the piece
    being read, reversed. *)
Fixpoint split_go (sep : string) (skip : nat) (cur : string) (s : string) : list string :=
  match s with
  | EmptyString => [String.rev cur]
  | String c s' =>
      match skip with
      | S k => split_go sep k cur s'
      | O =>
          if String.prefix sep s
          then String.rev cur :: split_go sep (String.length sep - 1) EmptyString s'
          else split_go sep 0 (String c cur) s'
      end
  end.

Definition split (sep s : string) : list string := split_go sep 0 EmptyString s.

(** [str(n)] for a natural number and for an integer. *)
Definition of_nat (n : nat) : string := NilEmpty.string_of_uint (Nat.to_uint n).
Definition of_int (z : Z) : string := NilEmpty.string_of_int (Z.to_int z).

(** [sep.join(l)] *)
Fixpoint join (sep : string) (l : list string) : string :=
  match l with
  | [] => EmptyString
  | [x] => x
  | x :: l' => x +:+ sep +:+ join sep l'
  end.

End PyStr.

(** ** The proxy rotation middleware *)

Module ProxyRotator.

Inductive level := DEBUG | INFO | WARNING | ERROR.

(** The attributes of a [ProxyRotatorMiddleware] instance.  [log] collects
    what the instance sends to the module logger. *)
Record middleware := Middleware {
  enabled : bool;
  mode : string;
  fail_codes : gset Z;
  fail_timeout : Z;
  proxy_source_type : string;
  proxy_list_setting : list string;
  proxy_file_setting : option string;
  proxy_url_setting : option string;
  url_refresh_interval : Z;
  proxies : list string;
  failed_proxies : gmap string Z;
  proxy_index : nat;
  last_refresh_time : Z;
  log : list (level * string);
}.

Definition set_proxies (ps : list string) (m : middleware) : middleware :=
  Middleware (enabled m) (mode m) (fail_codes m) (fail_timeout m)
    (proxy_source_type m) (proxy_list_setting m) (proxy_file_setting m)
    (proxy_url_setting m) (url_refresh_interval m)
    ps (failed_proxies m) (proxy_index m) (last_refresh_time m) (log m).

Definition set_failed_proxies (f : gmap string Z) (m : middleware) : middleware :=
  Middleware (enabled m) (mode m) (fail_codes m) (fail_timeout m)
    (proxy_source_type m) (proxy_list_setting m) (proxy_file_setting m)
    (proxy_url_setting m) (url_refresh_interval m)
    (proxies m) f (proxy_index m) (last_refresh_time m) (log m).

Definition set_proxy_index (i : nat) (m : middleware) : middleware :=
  Middleware (enabled m) (mode m) (fail_codes m) (fail_timeout m)
    (proxy_source_type m) (proxy_list_setting m) (proxy_file_setting m)
    (proxy_url_setting m) (url_refresh_interval m)
    (proxies m) (failed_proxies m) i (last_refresh_time m) (log m).

Definition set_last_refresh_time (t : Z) (m : middleware) : middleware :=
  Middleware (enabled m) (mode m) (fail_codes m) (fail_timeout m)
    (proxy_source_type m) (proxy_list_setting m) (proxy_file_setting m)
    (proxy_url_setting m) (url_refresh_interval m)
    (proxies m) (failed_proxies m) (proxy_index m) t (log m).

(** [logger.<level>(msg)] *)
Definition logmsg (l : level) (msg : string) (m : middleware) : middleware :=
  Middleware (enabled m) (mode m) (fail_codes m) (fail_timeout m)
    (proxy_source_type m) (proxy_list_setting m) (proxy_file_setting m)
    (proxy_url_setting m) (url_refresh_interval m)
    (proxies m) (failed_proxies m) (proxy_index m) (last_refresh_time m)
    (log m ++ [(l, msg)]).

(** What does not change between calls: whether [import requests] succeeded
    (REQUESTS_AVAILABLE) and the test [_load_proxies] makes on
    [urlparse(p)]: scheme http or https and a non-empty netloc, [false] also
    when urlparse raises. *)
Record runtime := Runtime {
  requests_available : bool;
  urlparse_ok : string -> bool;
}.

(** Outcome of [requests.get(...)] followed by [raise_for_status()]: the lines
    of [response.text.splitlines()], or the exception raised. *)
Inductive fetch_outcome :=
| FetchLines (lines : list string)
| FetchRequestException (msg : string)
| FetchOtherException.

(** Outcome of reading the proxy file: [is_file()] false, the lines the file
    iterator yields, or the exception raised by [open] or the read. *)
Inductive file_outcome :=
| NotAFile
| FileLines (lines : list string)
| FileNotFoundRaised (msg : string)
| FileOtherException.

(** What one call observes of the world around the middleware. *)
Record env := Env {
  file_read : file_outcome;
  fetch : fetch_outcome;
  clock_load : Z;        (* time.time() in _load_proxies *)
  clock_refresh : Z;     (* time.time() in _refresh_proxies_if_needed *)
  lock_acquired : bool;  (* refresh_lock.acquire(blocking=False) *)
  clock_clear : Z;       (* time.time() in _clear_expired_failures *)
  choice : nat;          (* the draw behind random.choice *)
  clock_mark : Z;        (* time.time() in _mark_failed *)
}.

(** The same observations with another draw. *)
Definition with_choice (r : nat) (e : env) : env :=
  Env (file_read e) (fetch e) (clock_load e) (clock_refresh e) (lock_acquired e)
    (clock_clear e) r (clock_mark e).

Definition opt_text (o : option string) : string :=
  match o with
  | Some s => s
  | None => "None"
  end.

(** The exceptions the [try] body of [_load_proxies] can end with. *)
Inductive load_exception :=
| RequestException (msg : string)
| FileNotFoundError (msg : string)
| OtherException.

(** The lines kept from a file or a response body. *)
Definition proxy_lines (lines : list string) : list string :=
  map PyStr.strip
    (filter (fun line => PyStr.truthy (PyStr.strip line) && negb (PyStr.startswith "#" line) = true) lines).

(** The part of the [try] body that reads the source: the new proxies, the
    description of the source and the state; or the exception raised, the
    description of the source and the state the exception leaves (what was
    logged before it stays logged). *)
Definition read_source (rt : runtime) (e : env) (m : middleware)
  : (list string * string * middleware) + (load_exception * string * middleware) :=
  if String.eqb (proxy_source_type m) "list" then
    inl (filter (fun p => PyStr.truthy (PyStr.strip p) = true) (proxy_list_setting m),
         "settings list", m)
  else if String.eqb (proxy_source_type m) "file" then
    let source_desc := "file (" +:+ opt_text (proxy_file_setting m) +:+ ")" in
    if PyStr.truthy_opt (proxy_file_setting m) then
      match file_read e with
      | FileLines lines => inl (proxy_lines lines, source_desc, m)
      | NotAFile =>
          inl ([], source_desc,
               logmsg ERROR ("Proxy file not found: " +:+ opt_text (proxy_file_setting m)) m)
      | FileNotFoundRaised msg => inr (FileNotFoundError msg, source_desc, m)
      | FileOtherException => inr (OtherException, source_desc, m)
      end
    else inl ([], source_desc, m)
  else if String.eqb (proxy_source_type m) "url" then
    let source_desc := "URL (" +:+ opt_text (proxy_url_setting m) +:+ ")" in
    if PyStr.truthy_opt (proxy_url_setting m) && requests_available rt then
      let m1 := logmsg INFO ("Fetching proxies from URL: " +:+ opt_text (proxy_url_setting m)) m in
      match fetch e with
      | FetchLines lines =>
          inl (proxy_lines lines, source_desc, set_last_refresh_time (clock_load e) m1)
      | FetchRequestException msg => inr (RequestException msg, source_desc, m1)
      | FetchOtherException => inr (OtherException, source_desc, m1)
      end
    else if negb (requests_available rt) then
      inl ([], source_desc,
           set_last_refresh_time (clock_load e)
             (logmsg ERROR "Cannot fetch proxies from URL: 'requests' library not installed." m))
    else inl ([], source_desc, set_last_refresh_time (clock_load e) m)
  else inl ([], "", m).

(** The validation loop: keeps the proxies passing the urlparse test and logs
    a warning for each of the others. *)
Fixpoint validate (rt : runtime) (new_proxies : list string) (m : middleware)
  : list string * middleware :=
  match new_proxies with
  | [] => ([], m)
  | p :: rest =>
      if urlparse_ok rt p
      then let '(v, m') := validate rt rest m in (p :: v, m')
      else validate rt rest (logmsg WARNING ("Ignoring invalid proxy format: " +:+ p) m)
  end.

(** [_load_proxies].  Only the handler of [requests.RequestException] leaves
    [proxies] alone.  Its [except] clause is evaluated first for whatever the
    body raised, and raises AttributeError when [requests] is [None].  A
    handler works on the state the exception left. *)
Definition load_proxies (rt : runtime) (e : env) (m : middleware) : result middleware :=
  match read_source rt e m with
  | inl (new_proxies, source_desc, m1) =>
      let '(validated, m2) := validate rt new_proxies m1 in
      match validated with
      | _ :: _ =>
          Ok (logmsg INFO ("Loaded " +:+ PyStr.of_nat (length validated) +:+ " proxies from "
                           +:+ source_desc +:+ ".")
                (set_proxy_index 0 (set_proxies validated m2)))
      | [] =>
          Ok (set_proxies []
                (logmsg WARNING ("No valid proxies loaded from " +:+ source_desc
                                 +:+ ". Rotation inactive.") m2))
      end
  | inr (exc, source_desc, m1) =>
      if negb (requests_available rt) then Raise AttributeError
      else
        match exc with
        | RequestException msg =>
            Ok (logmsg ERROR ("Failed to fetch proxies from URL "
                              +:+ opt_text (proxy_url_setting m1) +:+ ": " +:+ msg) m1)
        | FileNotFoundError msg =>
            Ok (set_proxies [] (logmsg ERROR ("Proxy file error: " +:+ msg) m1))
        | OtherException =>
            Ok (set_proxies []
                  (logmsg ERROR ("Error loading proxies from " +:+ source_desc +:+ ":") m1))
        end
  end.

(** [_refresh_proxies_if_needed] *)
Definition refresh_proxies_if_needed (rt : runtime) (e : env) (m : middleware)
  : result middleware :=
  if negb (String.eqb (proxy_source_type m) "url")
     || Z.eqb (url_refresh_interval m) 0
     || negb (requests_available rt)
  then Ok m
  else
    let now := clock_refresh e in
    if bool_decide (url_refresh_interval m < now - last_refresh_time m)%Z then
      if lock_acquired e then
        if bool_decide (url_refresh_interval m < now - last_refresh_time m)%Z then
          load_proxies rt e
            (logmsg INFO "Proxy URL refresh interval elapsed, reloading proxies..." m)
        else Ok (logmsg DEBUG "Proxy refresh already done by another process/thread." m)
      else Ok (logmsg DEBUG "Proxy refresh is locked, likely being done by another process/thread." m)
    else Ok m.

(** The failed proxies whose failure is older than the cooldown at [now]. *)
Definition expired_failures (now : Z) (m : middleware) : list string :=
  (filter (fun pt => (fail_timeout m < now - pt.2)%Z) (map_to_list (failed_proxies m))).*1.

(** [_clear_expired_failures] *)
Definition clear_expired_failures (now : Z) (m : middleware) : middleware :=
  if Z.eqb (fail_timeout m) 0 then m
  else
    match expired_failures now m with
    | [] => m
    | expired =>
        set_failed_proxies (foldr delete (failed_proxies m) expired)
          (logmsg INFO ("Re-enabling " +:+ PyStr.of_nat (length expired)
                        +:+ " proxies after timeout: " +:+ PyStr.join ", " expired) m)
    end.

(** [p] is marked failed and still excluded at [now]: its failure is not
    older than the cooldown; with a cooldown of 0 a failure never expires. *)
Definition cooling (now : Z) (m : middleware) (p : string) : bool :=
  match failed_proxies m !! p with
  | Some t => Z.eqb (fail_timeout m) 0 || negb (bool_decide (fail_timeout m < now - t)%Z)
  | None => false
  end.

(** The entries of [pool] that are not excluded at [now]. *)
Definition eligible (now : Z) (m : middleware) (pool : list string) : list string :=
  filter (fun q => cooling now m q = false) pool.

(** [p not in self.failed_proxies] *)
Definition not_failed (m : middleware) (p : string) : bool :=
  bool_decide (failed_proxies m !! p = None).

Definition available_proxies (m : middleware) : list string :=
  filter (fun p => not_failed m p = true) (proxies m).

(** [random.choice(seq)] under the draw [r]. *)
Definition random_choice (r : nat) (l : list string) : result string :=
  match l !! (r mod length l) with
  | Some p => Ok p
  | None => Raise IndexError
  end.

(** [self.proxies.index(p)]: the first position holding [p]. *)
Definition index_of (p : string) (l : list string) : result nat :=
  match list_find (fun x => x = p) l with
  | Some (i, _) => Ok i
  | None => Raise ValueError
  end.

(** The pool entries in the order the sequential walk visits them. *)
Definition candidates (ps : list string) (start : nat) : list string :=
  omap (fun i => ps !! ((start + i) mod length ps)) (seq 0 (length ps)).

(** The [for] loop of the sequential mode: the first candidate not failed. *)
Definition sequential_walk (m : middleware) : option string :=
  snd <$> list_find (fun c => not_failed m c = true)
            (candidates (proxies m) (proxy_index m mod length (proxies m))).

(** The selection at the end of [_get_proxy], from [available]. *)
Definition select_proxy (e : env) (available : list string) (m : middleware)
  : result (option string * middleware) :=
  if String.eqb (mode m) "sequential" then
    '(selected, m1) ←
      match sequential_walk m with
      | Some c =>
          i ← index_of c (proxies m);
          Ok (Some c, set_proxy_index ((i + 1) mod length (proxies m)) m)
      | None => Ok (None, m)
      end;
    if negb (PyStr.truthy_opt selected) && bool_decide (available <> []) then
      p ← random_choice (choice e) available;
      if PyStr.truthy p then
        i ← index_of p (proxies m1);
        Ok (Some p, set_proxy_index ((i + 1) mod length (proxies m1)) m1)
      else Ok (Some p, m1)
    else Ok (selected, m1)
  else
    match available with
    | [] => Ok (None, m)
    | _ :: _ =>
        p ← random_choice (choice e) available;
        Ok (Some p, m)
    end.

(** [_get_proxy]: the proxy returned ([None] when there is none) and the
    middleware after the call. *)
Definition get_proxy (rt : runtime) (e : env) (m : middleware)
  : result (option string * middleware) :=
  match proxies m with
  | [] => Ok (None, m)
  | _ :: _ =>
      m1 ← refresh_proxies_if_needed rt e m;
      let m2 := clear_expired_failures (clock_clear e) m1 in
      match available_proxies m2 with
      | [] =>
          let m3 :=
            set_failed_proxies ∅
              (logmsg WARNING
                 "All configured proxies have recently failed. Clearing failures and retrying." m2) in
          match proxies m3 with
          | [] => Ok (None, logmsg ERROR "No proxies available after clearing failures." m3)
          | _ :: _ => select_proxy e (proxies m3) m3
          end
      | available => select_proxy e available m2
      end
  end.

(** [_mark_failed] *)
Definition mark_failed (now : Z) (proxy : option string) (m : middleware) : middleware :=
  if PyStr.truthy_opt proxy then
    set_failed_proxies (<[opt_text proxy := now]> (failed_proxies m))
      (logmsg WARNING ("Marking proxy as failed: " +:+ opt_text proxy) m)
  else m.

Record request := Request {
  req_url : string;
  meta : gmap string string;
}.

Record response := Response {
  status : Z;
  resp_url : string;
}.

(** [process_request]: [None] is returned in every case; the request (its
    [meta]) and the middleware after the call. *)
Definition process_request (rt : runtime) (e : env) (req : request) (m : middleware)
  : result (request * middleware) :=
  if negb (enabled m) || bool_decide (proxies m = []) || bool_decide (is_Some (meta req !! "proxy"))
  then Ok (req, m)
  else
    '(proxy, m1) ← get_proxy rt e m;
    if PyStr.truthy_opt proxy then
      Ok (Request (req_url req)
            (<["_proxy_rotator_current" := opt_text proxy]>
               (<["proxy" := opt_text proxy]> (meta req))),
          logmsg DEBUG ("Assigning proxy " +:+ opt_text proxy +:+ " to request " +:+ req_url req) m1)
    else Ok (req, logmsg ERROR "No available proxies to assign." m1).

(** [process_response]: the value returned and the middleware after the call. *)
Definition process_response (e : env) (req : request) (resp : response) (m : middleware)
  : response * middleware :=
  if negb (enabled m) then (resp, m)
  else
    let proxy := meta req !! "_proxy_rotator_current" in
    if bool_decide (status resp ∈ fail_codes m) then
      (resp,
       mark_failed (clock_mark e) proxy
         (logmsg WARNING ("Proxy " +:+ opt_text proxy +:+ " failed for " +:+ resp_url resp
                          +:+ " with status " +:+ PyStr.of_int (status resp)) m))
    else (resp, m).

(** [k] consecutive calls of [_get_proxy], one environment per call: the
    values returned, in order, and the middleware after the last call. *)
Fixpoint get_proxies (rt : runtime) (es : list env) (m : middleware)
  : result (list (option string) * middleware) :=
  match es with
  | [] => Ok ([], m)
  | e :: es' =>
      '(p, m1) ← get_proxy rt e m;
      '(ps, m2) ← get_proxies rt es' m1;
      Ok (p :: ps, m2)
  end.

End ProxyRotator.

(** ** The project file API *)

Module FileApi.

(** The file system the server reads: a tree of directories and files, with
    no symbolic links.  A file whose content is [None] cannot be read
    ([read_text] raises OSError); [Special] is a socket, a device and the like. *)
Inductive fs_node :=
| File (content : option string)
| Dir (entries : list (string * fs_node))
| Special.

(** A [pathlib.Path] on a POSIX system: whether it is anchored at the root, and
    its components. *)
Record path := Path {
  absolute : bool;
  parts : list string;
}.

(** The components of a path string: the pieces between slashes, the empty
    ones and the dots dropped. *)
Definition components (s : string) : list string :=
  filter (fun c => c <> "" /\ c <> ".") (PyStr.split "/" s).

(** [Path(s)] *)
Definition parse (s : string) : path :=
  Path (PyStr.startswith "/" s) (components s).

(** [p / s] and [p.joinpath(s)]: an absolute [s] replaces [p]. *)
Definition joinpath (p : path) (s : string) : path :=
  let q := parse s in
  if absolute q then q else Path (absolute p) (parts p ++ parts q).

(** [str(p)] *)
Definition path_str (p : path) : string :=
  match absolute p, parts p with
  | false, [] => "."
  | false, ps => PyStr.join "/" ps
  | true, ps => "/" +:+ PyStr.join "/" ps
  end.

(** Folding the [..] components of an absolute path, the root its own parent. *)
Definition normalize (cs : list string) : list string :=
  fold_left (fun acc c => if String.eqb c ".." then removelast acc else acc ++ [c]) cs [].

(** [p.resolve()] with working directory [cwd] (given by its components):
    the components of the absolute path. *)
Definition resolve (cwd : list string) (p : path) : list string :=
  normalize (if absolute p then parts p else cwd ++ parts p).

Definition resolved_path (cs : list string) : path := Path true cs.

Fixpoint find_entry (name : string) (entries : list (string * fs_node)) : option fs_node :=
  match entries with
  | [] => None
  | (n, x) :: rest => if String.eqb n name then Some x else find_entry name rest
  end.

(** The node at an absolute path without [..]. *)
Fixpoint lookup (root : fs_node) (cs : list string) : option fs_node :=
  match cs with
  | [] => Some root
  | c :: cs' =>
      match root with
      | Dir entries =>
          match find_entry c entries with
          | Some x => lookup x cs'
          | None => None
          end
      | _ => None
      end
  end.

Definition is_dir_node (o : option fs_node) : bool :=
  match o with
  | Some (Dir _) => true
  | _ => false
  end.

Definition is_file_node (o : option fs_node) : bool :=
  match o with
  | Some (File _) => true
  | _ => false
  end.

(** How the system walks a path: every component is looked up in the
    directory reached so far, [..] steps to its parent. *)
Fixpoint walk (root : fs_node) (cur : list string) (cs : list string) : option (list string) :=
  match cs with
  | [] => Some cur
  | c :: cs' =>
      if is_dir_node (lookup root cur) then
        let next := if String.eqb c ".." then removelast cur else cur ++ [c] in
        match lookup root next with
        | Some _ => walk root next cs'
        | None => None
        end
      else None
  end.

(** [os.stat(p)]: the node [p] names, if any. *)
Definition stat (root : fs_node) (cwd : list string) (p : path) : option fs_node :=
  match walk root [] (if absolute p then parts p else cwd ++ parts p) with
  | Some cs => lookup root cs
  | None => None
  end.

(** [p.name] and [p.suffix] *)
Definition name_of (p : path) : string := List.last (parts p) "".

Fixpoint rev_extension (rev_name : string) : option string :=
  match rev_name with
  | EmptyString => None
  | String c rest =>
      if Ascii.eqb c "." then Some EmptyString
      else option_map (String c) (rev_extension rest)
  end.

Definition suffix (p : path) : string :=
  let name := name_of p in
  match rev_extension (String.rev name) with
  | Some rext =>
      let i := String.length name - 1 - String.length rext in
      if Nat.ltb 0 i && Nat.ltb i (String.length name - 1)
      then "." +:+ String.rev rext
      else ""
  | None => ""
  end.

Definition lower_char (c : ascii) : ascii :=
  let n := nat_of_ascii c in
  if Nat.leb 65 n && Nat.leb n 90 then ascii_of_nat (n + 32) else c.

Fixpoint lower (s : string) : string :=
  match s with
  | EmptyString => EmptyString
  | String c s' => String (lower_char c) (lower s')
  end.

(** [s.replace(a, b)] for single characters. *)
Fixpoint replace_char (a b : ascii) (s : string) : string :=
  match s with
  | EmptyString => EmptyString
  | String c s' => String (if Ascii.eqb c a then b else c) (replace_char a b s')
  end.

Definition backslash : ascii := ascii_of_nat 92.

(** [item.relative_to(base)]: the components of [item] after those of [base];
    ValueError when [base] does not lead to [item]. *)
Fixpoint strip_components (base item : list string) : option (list string) :=
  match base, item with
  | [], rest => Some rest
  | b :: base', i :: item' => if String.eqb b i then strip_components base' item' else None
  | _ :: _, [] => None
  end.

Definition relative_to (item base : path) : result path :=
  if Bool.eqb (absolute item) (absolute base) then
    match strip_components (parts base) (parts item) with
    | Some rest => Ok (Path false rest)
    | None => Raise ValueError
    end
  else Raise ValueError.

Record item := Item {
  item_name : string;
  item_type : string;
  item_path : string;
}.

Inductive http_response :=
| Abort (code : nat)
| JsonListing (api_path : string) (contents : list item)
| FileBody (mimetype : string) (content : string)
| Unhandled (e : exn).

(** The body of the [for] loop over [sorted(full_path.iterdir())]. *)
Fixpoint list_items (base : path) (full : list string) (entries : list (string * fs_node))
  : result (list item) :=
  match entries with
  | [] => Ok []
  | (n, x) :: rest =>
      rel ← relative_to (resolved_path (full ++ [n])) base;
      items ← list_items base full rest;
      Ok (Item n (if is_dir_node (Some x) then "dir" else "file")
               (replace_char backslash "/" (path_str rel)) :: items)
  end.

Definition content_type (full : list string) : string :=
  let sfx := lower (suffix (resolved_path full)) in
  if String.eqb sfx ".json" then "application/json; charset=utf-8"
  else if String.eqb sfx ".py" then "text/x-python; charset=utf-8"
  else if String.eqb sfx ".html" then "text/html; charset=utf-8"
  else "text/plain; charset=utf-8".

(** The choice of the base directory: the module directory inside the project
    directory, or the project directory itself when it holds settings.py. *)
Definition base_project_path (root : fs_node) (cwd : list string)
    (project_dir project_name : string) : option path :=
  let outer := parse project_dir in
  let base := joinpath outer project_name in
  if is_dir_node (stat root cwd base) then Some base
  else if bool_decide (is_Some (stat root cwd (joinpath outer "settings.py"))) then Some outer
  else None.

(** The path the request names: the base joined with the parts of the
    sub-path, then resolved. *)
Definition requested_path (cwd : list string) (base : path) (sub_path : string) : list string :=
  let safe_sub_path_str := PyStr.lstrip_with (fun c => Ascii.eqb c "/" || Ascii.eqb c backslash) sub_path in
  let path_parts :=
    filter (fun part => PyStr.truthy part = true /\ part <> ".") (parts (parse safe_sub_path_str)) in
  resolve cwd (fold_left joinpath path_parts base).

(** [list_or_get_file(project_name, sub_path)].  [projects] maps a project
    name to the directory stored for it.  The path operations of the model
    reject no string, so the handler answering 400 is never entered. *)
Definition list_or_get_file (root : fs_node) (cwd : list string)
    (projects : gmap string string) (project_name sub_path : string) : http_response :=
  match projects !! project_name with
  | None => Abort 404
  | Some project_dir =>
      match base_project_path root cwd project_dir project_name with
      | None => Abort 500
      | Some base =>
          let full_path := requested_path cwd base sub_path in
          if negb (PyStr.startswith (path_str (resolved_path (resolve cwd base)))
                                    (path_str (resolved_path full_path)))
          then Abort 403
          else
            match lookup root full_path with
            | None => Abort 404
            | Some (Dir entries) =>
                match list_items base full_path
                        (merge_sort (fun a b => String.le a.1 b.1) entries) with
                | Ok items =>
                    JsonListing (replace_char backslash "/" (path_str (parse sub_path))) items
                | Raise e => Unhandled e
                end
            | Some (File (Some content)) => FileBody (content_type full_path) content
            | Some (File None) => Abort 500
            | Some Special => Abort 404
            end
      end
  end.

(** Containment as the file system has it: [base] leads to [full]. *)
Definition inside (base full : list string) : Prop := base `prefix_of` full.

End FileApi.

(** ** Python values *)

Module Py.

(** The values the analyzers handle.  A float is the rational it denotes
    (rounding and the non-finite floats are outside the model); [PyOther] is a
    value of any other type (list, dict, tuple, set, bytes, complex, ...). *)
Inductive value :=
| PyNone
| PyBool (b : bool)
| PyInt (z : Z)
| PyFloat (q : Q)
| PyStr (s : string)
| PyOther.

(** The number a value is in arithmetic and comparisons, when it is one. *)
Definition number (v : value) : option Q :=
  match v with
  | PyBool b => Some (if b then 1 else 0)%Q
  | PyInt z => Some (inject_Z z)
  | PyFloat q => Some q
  | _ => None
  end.

Definition Qltb (a b : Q) : bool := negb (Qle_bool b a).

(** [v > k] and [v < k] for a number [k]: TypeError unless [v] is a number. *)
Definition gt (v : value) (k : Q) : result bool :=
  match number v with
  | Some q => Ok (Qltb k q)
  | None => Raise TypeError
  end.

Definition lt (v : value) (k : Q) : result bool :=
  match number v with
  | Some q => Ok (Qltb q k)
  | None => Raise TypeError
  end.

(** [a / b] for a non-zero [b] *)
Definition div (a b : value) : result Q :=
  match number a, number b with
  | Some x, Some y => Ok (x / y)%Q
  | _, _ => Raise TypeError
  end.

(** [v is False], [v is True], [v is None] *)
Definition is_false (v : value) : bool :=
  match v with PyBool false => true | _ => false end.

Definition is_true (v : value) : bool :=
  match v with PyBool true => true | _ => false end.

Definition is_none (v : value) : bool :=
  match v with PyNone => true | _ => false end.

End Py.

(** ** The log analyzer *)

Module LogAnalyzer.

Import Py.

Inductive json_outcome :=
| JsonValue (v : value)
| JsonDecodeError
| JsonOtherError.

(** The library functions the analyzer calls: [json.loads] and [int] on a
    string ([None]: ValueError). *)
Record pylib := PyLib {
  json_loads : string -> json_outcome;
  int_of_str : string -> option Z;
}.

(** [int(v)] *)
Definition py_int (lib : pylib) (v : value) : result Z :=
  match v with
  | PyInt z => Ok z
  | PyBool b => Ok (if b then 1 else 0)%Z
  | PyFloat q => Ok (Z.quot (Qnum q) (Zpos (Qden q)))
  | PyStr s =>
      match int_of_str lib s with
      | Some z => Ok z
      | None => Raise ValueError
      end
  | PyNone | PyOther => Raise TypeError
  end.

(** *** The regular expressions, matched at the start of the text *)

(** [lit] at the start of [s]: the rest. *)
Fixpoint eat (lit s : string) : option string :=
  match lit, s with
  | EmptyString, _ => Some s
  | String a lit', String b s' => if Ascii.eqb a b then eat lit' s' else None
  | String _ _, EmptyString => None
  end.

(** [\d{n}] *)
Fixpoint eat_digits (n : nat) (s : string) : option string :=
  match n, s with
  | O, _ => Some s
  | S n', String c s' => if PyStr.isdigit c then eat_digits n' s' else None
  | S _, EmptyString => None
  end.

(** The longest prefix of characters satisfying [f], and the rest. *)
Fixpoint span (f : ascii -> bool) (s : string) : string * string :=
  match s with
  | String c s' =>
      if f c then let '(a, b) := span f s' in (String c a, b) else (EmptyString, s)
  | EmptyString => (EmptyString, EmptyString)
  end.

Definition newline : ascii := ascii_of_nat 10.

(** The text the final group (any characters) captures: up to the first
    newline. *)
Definition dot_star (s : string) : string :=
  fst (span (fun c => negb (Ascii.eqb c newline)) s).

(** [^\d{4}-\d{2}-\d{2} \d{2}:\d{2}:\d{2} ] *)
Definition eat_timestamp (s : string) : option string :=
  s ← eat_digits 4 s; s ← eat "-" s; s ← eat_digits 2 s; s ← eat "-" s;
  s ← eat_digits 2 s; s ← eat " " s; s ← eat_digits 2 s; s ← eat ":" s;
  s ← eat_digits 2 s; s ← eat ":" s; s ← eat_digits 2 s; eat " " s.

(** REGEX_ERROR.match and REGEX_WARNING.match ([lvl] is ERROR or WARNING):
    group 1.  After the bracket, [\S+\]] followed by a space must be the whole
    run of non-space characters, closed by its last character. *)
Definition match_level (lvl : string) (line : string) : option string :=
  s ← eat_timestamp line;
  s ← eat "[" s;
  let '(tok, rest) := span (fun c => negb (PyStr.isspace c)) s in
  match String.rev tok with
  | String c (String _ _) =>
      if Ascii.eqb c "]" then
        s ← eat (" " +:+ lvl +:+ ": ") rest;
        Some (dot_star s)
      else None
  | _ => None
  end.

(** REGEX_RESPONSE_STATUS.match: group 1. *)
Definition match_response_status (key : string) : option string :=
  s ← eat "'downloader/response_status_count/" key;
  let '(code, rest) := span PyStr.isdigit s in
  if PyStr.truthy code then
    s ← eat "': " rest;
    let '(count, _) := span PyStr.isdigit s in
    if PyStr.truthy count then Some code else None
  else None.

(** *** The pass over the lines *)

Record acc := Acc {
  errors : gmap string Z;
  warnings : gmap string Z;
  raw_stats : gmap string value;
  status_codes : gmap string Z;
  in_stats_dump : bool;
  line_count : nat;
}.

Definition init : acc := Acc ∅ ∅ ∅ ∅ false 0.

(** [d[k] += n] on a [defaultdict(int)] *)
Definition bump (k : string) (n : Z) (d : gmap string Z) : gmap string Z :=
  <[k := (default 0 (d !! k) + n)%Z]> d.

(** Key and value text of a stats line with exactly two parts. *)
Definition stat_key (part : string) : string := PyStr.strip_chars "'" (PyStr.strip part).
Definition stat_value_str (part : string) : string := PyStr.strip_chars "," (PyStr.strip part).

(** A stats line inside the dump: the value is decoded with json.loads,
    JSONDecodeError alone falling back to the text. *)
Definition parse_stat_line (lib : pylib) (line : string) (a : acc) : result acc :=
  match PyStr.split ": " line with
  | [p0; p1] =>
      let key := stat_key p0 in
      let value_str := stat_value_str p1 in
      value ←
        match json_loads lib value_str with
        | JsonValue v => Ok v
        | JsonDecodeError => Ok (PyStr (PyStr.strip_chars "'" value_str))
        | JsonOtherError => Raise ValueError
        end;
      let a1 := Acc (errors a) (warnings a) (<[key := value]> (raw_stats a))
                  (status_codes a) (in_stats_dump a) (line_count a) in
      match match_response_status key with
      | Some code =>
          n ← py_int lib value;
          Ok (Acc (errors a1) (warnings a1) (raw_stats a1)
                (bump code n (status_codes a1)) (in_stats_dump a1) (line_count a1))
      | None => Ok a1
      end
  | _ => Ok a
  end.

(** The line that starts the dump: any failure of json.loads falls back to
    the text. *)
Definition parse_first_stat_line (lib : pylib) (line : string) (a : acc) : acc :=
  let a1 := Acc (errors a) (warnings a) (raw_stats a) (status_codes a) true (line_count a) in
  match PyStr.split ": " line with
  | [p0; p1] =>
      let key := stat_key p0 in
      let value_str := stat_value_str p1 in
      let value :=
        match json_loads lib value_str with
        | JsonValue v => v
        | _ => PyStr (PyStr.strip_chars "'" value_str)
        end in
      Acc (errors a1) (warnings a1) (<[key := value]> (raw_stats a1))
        (status_codes a1) (in_stats_dump a1) (line_count a1)
  | _ => a1
  end.

(** One iteration of [for line in f]. *)
Definition step (lib : pylib) (raw_line : string) (a : acc) : result acc :=
  let a := Acc (errors a) (warnings a) (raw_stats a) (status_codes a)
             (in_stats_dump a) (S (line_count a)) in
  let line := PyStr.strip raw_line in
  if negb (PyStr.truthy line) then Ok a
  else
    match match_level "ERROR" line with
    | Some g =>
        let msg := PyStr.strip g in
        let msg := if PyStr.contains "Traceback (most recent call last)" msg
                   then "Traceback occurred (see log for details)" else msg in
        Ok (Acc (bump msg 1 (errors a)) (warnings a) (raw_stats a) (status_codes a)
              (in_stats_dump a) (line_count a))
    | None =>
        match match_level "WARNING" line with
        | Some g =>
            Ok (Acc (errors a) (bump (PyStr.strip g) 1 (warnings a)) (raw_stats a)
                  (status_codes a) (in_stats_dump a) (line_count a))
        | None =>
            let a1 :=
              if String.eqb line "}"
              then Acc (errors a) (warnings a) (raw_stats a) (status_codes a) false (line_count a)
              else a in
            a2 ← (if in_stats_dump a1 then parse_stat_line lib line a1 else Ok a1);
            if PyStr.contains "'downloader/response_count':" line
            then Ok (parse_first_stat_line lib line a2)
            else Ok a2
        end
    end.

Fixpoint scan (lib : pylib) (lines : list string) (a : acc) : result acc :=
  match lines with
  | [] => Ok a
  | l :: rest => a' ← step lib l a; scan lib rest a'
  end.

(** *** The summary *)

Record summary := Summary {
  error_count : Z;
  warning_count : Z;
  item_scraped_count : value;
  finish_reason : value;
  elapsed_seconds : value;
  total_requests : value;
  total_responses : value;
  avg_req_per_sec : Q;
  avg_item_per_sec : Q;
  http_success_rate : Q;
}.

(** [sum(d.values())] *)
Definition sum_values (d : gmap string Z) : Z :=
  map_fold (fun _ n s => (n + s)%Z) 0%Z d.

(** The sum of the counts whose status code starts with 2. *)
Definition success_codes (d : gmap string Z) : Z :=
  sum_values (filter (fun kv => PyStr.startswith "2" kv.1 = true) d).

Definition summarize (a : acc) : result summary :=
  let item_scraped_count := default (PyInt 0) (raw_stats a !! "item_scraped_count") in
  let elapsed_seconds := default (PyFloat 0) (raw_stats a !! "elapsed_time_seconds") in
  let total_requests := default (PyInt 0) (raw_stats a !! "downloader/request_count") in
  let total_responses := default (PyInt 0) (raw_stats a !! "downloader/response_count") in
  timed ← gt elapsed_seconds 0;
  '(avg_req, avg_item) ←
    (if timed : bool then
       r ← div total_requests elapsed_seconds;
       i ← div item_scraped_count elapsed_seconds;
       Ok (r, i)
     else Ok (0, 0)%Q);
  responded ← gt total_responses 0;
  rate ←
    (if responded : bool then
       q ← div (PyInt (success_codes (status_codes a))) total_responses;
       Ok (q * 100)%Q
     else Ok 0%Q);
  Ok (Summary (sum_values (errors a)) (sum_values (warnings a))
        item_scraped_count
        (default (PyStr "N/A") (raw_stats a !! "finish_reason"))
        elapsed_seconds total_requests total_responses
        avg_req avg_item rate).

Record results := Results {
  res_errors : gmap string Z;
  res_warnings : gmap string Z;
  res_raw_stats : gmap string value;
  res_status_codes : gmap string Z;
  res_summary : summary;
}.

(** What opening and reading the log file gives. *)
Inductive log_file :=
| LogMissing
| LogUnreadable
| LogLines (lines : list string).

(** [_analyze_log_file]: every exception of the pass and of the summary is
    raised again as a plain Exception with a message. *)
Definition analyze_log_file (lib : pylib) (f : log_file) : result results :=
  match f with
  | LogMissing => Raise (WrappedException "Log file not found")
  | LogUnreadable => Raise (WrappedException "Failed to read or parse log file")
  | LogLines lines =>
      match (a ← scan lib lines init; s ← summarize a; Ok (a, s)) with
      | Ok (a, s) =>
          Ok (Results (errors a) (warnings a) (raw_stats a) (status_codes a) s)
      | Raise _ => Raise (WrappedException "Failed to read or parse log file")
      end
  end.

End LogAnalyzer.

(** ** The settings advisor *)

Module SettingsAdvisor.

Import Py.

(** *** The syntax tree *)

(** An assignment target: [Name id] is a [Name] node with that identifier,
    [store] telling whether its context is [Store]. *)
Inductive target :=
| Name (id : string) (store : bool)
| OtherTarget.

(** A node of the tree [ast.parse] returns, as far as the advisor looks at
    it: an [Assign] statement, or any other node with its child nodes in the
    order [ast.iter_child_nodes] yields them.  The children of an [Assign]
    (its targets and its value) are expressions and hold no statement. *)
Inductive node (expr : Type) :=
| Assign (targets : list target) (value : expr) (lineno : nat)
| Node (children : list (node expr)).
Arguments Assign {expr} targets value lineno.
Arguments Node {expr} children.

Definition children {expr} (n : node expr) : list (node expr) :=
  match n with
  | Assign _ _ _ => []
  | Node cs => cs
  end.

Fixpoint size {expr} (n : node expr) : nat :=
  match n with
  | Assign _ _ _ => 1
  | Node cs => S (list_sum (map size cs))
  end.

(** The loop of [ast.walk]: take the first node of the queue, put its
    children at the end, yield it. *)
Fixpoint walk_queue {expr} (fuel : nat) (todo : list (node expr)) : list (node expr) :=
  match fuel, todo with
  | S fuel', n :: rest => n :: walk_queue fuel' (rest ++ children n)
  | _, _ => []
  end.

(** [ast.walk(tree)]: one step per node of the tree. *)
Definition walk {expr} (tree : node expr) : list (node expr) :=
  walk_queue (size tree) [tree].

Inductive parse_outcome (expr : Type) :=
| Parsed (tree : node expr)
| ParseSyntaxError (lineno : option nat) (msg : string) (text : option string)
| ParseOtherError (msg : string).
Arguments Parsed {expr} tree.
Arguments ParseSyntaxError {expr} lineno msg text.
Arguments ParseOtherError {expr} msg.

(** The library functions the advisor calls.  [literal_eval] is [None] when
    ast.literal_eval raises one of the exceptions [_get_node_value] catches;
    [py_format] is the text of a value inside an f-string; [re_search p s] is
    whether [re.search(p, s, re.MULTILINE)] finds a match, [None] when the
    pattern does not compile. *)
Record astlib (expr : Type) := AstLib {
  ast_parse : string -> parse_outcome expr;
  literal_eval : expr -> option value;
  py_format : value -> string;
  re_search : string -> string -> option bool;
}.
Arguments ast_parse {expr} _ _.
Arguments literal_eval {expr} _ _.
Arguments py_format {expr} _ _.
Arguments re_search {expr} _ _ _.

(** What [settings_path.read_text] gives. *)
Inductive read_outcome :=
| ReadText (content : string)
| ReadError (msg : string).

(** *** The result *)

Record entry := Entry {
  message : string;
  details : option string;
  file : string;
  line : option nat;
  url : option string;
}.

Record results := Results {
  warnings : list entry;
  recommendations : list entry;
  info : list entry;
}.

Definition add_warning (x : entry) (r : results) : results :=
  Results (warnings r ++ [x]) (recommendations r) (info r).
Definition add_recommendation (x : entry) (r : results) : results :=
  Results (warnings r) (recommendations r ++ [x]) (info r).
Definition add_info (x : entry) (r : results) : results :=
  Results (warnings r) (recommendations r) (info r ++ [x]).

(** *** The assignments found *)

Definition record_targets {expr} (value : expr) (lineno : nat) (targets : list target)
    (found : gmap string (expr * nat)) : gmap string (expr * nat) :=
  fold_left
    (fun found t =>
       match t with
       | Name id true => <[id := (value, lineno)]> found
       | _ => found
       end)
    targets found.

Definition record_node {expr} (found : gmap string (expr * nat)) (n : node expr)
  : gmap string (expr * nat) :=
  match n with
  | Assign targets value lineno => record_targets value lineno targets found
  | Node _ => found
  end.

(** The dictionary [settings_found] after the loop over [ast.walk(tree)]. *)
Definition settings_found {expr} (nodes : list (node expr)) : gmap string (expr * nat) :=
  fold_left record_node nodes ∅.

(** [_get_node_value] *)
Definition get_node_value {expr} (lib : astlib expr) (e : expr) : value :=
  match literal_eval lib e with
  | Some v => v
  | None => PyNone
  end.

(** *** The patterns searched in the text *)

Definition newline : ascii := ascii_of_nat 10.
Definition double_quote : ascii := ascii_of_nat 34.

(** [lit] at the start of [s]: the rest. *)
Fixpoint eat (lit s : string) : option string :=
  match lit, s with
  | EmptyString, _ => Some s
  | String a lit', String b s' => if Ascii.eqb a b then eat lit' s' else None
  | String _ _, EmptyString => None
  end.

Definition skip_spaces (s : string) : string := PyStr.lstrip_with PyStr.isspace s.

(** A search anchored by [^] under re.MULTILINE: [m] is tried at the start of
    the text and after every newline. *)
Fixpoint search_line_starts (m : string -> bool) (at_line_start : bool) (s : string) : bool :=
  (at_line_start && m s) ||
  match s with
  | String c s' => search_line_starts m (Ascii.eqb c newline) s'
  | EmptyString => false
  end.

(** [^\s*ROBOTSTXT_OBEY\s*=] *)
Definition robots_at (s : string) : bool :=
  match eat "ROBOTSTXT_OBEY" (skip_spaces s) with
  | Some r => match skip_spaces r with String "=" _ => true | _ => false end
  | None => false
  end.

Definition search_robots (content : string) : bool :=
  search_line_starts robots_at true content.

(** [^\s*USER_AGENT\s*=\s*[^#]]: the character after the equals sign exists
    and is no hash (the spaces before it may be given back). *)
Definition custom_ua_at (s : string) : bool :=
  match eat "USER_AGENT" (skip_spaces s) with
  | Some r =>
      match skip_spaces r with
      | String "=" (String c _) => negb (Ascii.eqb c "#")
      | _ => false
      end
  | None => false
  end.

Definition search_custom_ua (content : string) : bool :=
  search_line_starts custom_ua_at true content.

(** The pattern with the project name put in as it is. *)
Definition default_ua_pattern (project_name : string) : string :=
  "^\s*#?\s*USER_AGENT\s*=\s*[\'" +:+ String double_quote "]" +:+ project_name.

(** The pattern read with [project_name] as literal text. *)
Definition default_ua_at (project_name : string) (s : string) : bool :=
  let s1 := skip_spaces s in
  let s2 := match s1 with String "#" r => r | _ => s1 end in
  match eat "USER_AGENT" (skip_spaces s2) with
  | Some r =>
      match skip_spaces r with
      | String "=" r1 =>
          match skip_spaces r1 with
          | String q r2 =>
              (Ascii.eqb q "'" || Ascii.eqb q double_quote) && String.prefix project_name r2
          | EmptyString => false
          end
      | _ => false
      end
  | None => false
  end.

(** No character of [s] is special in a regular expression. *)
Definition regex_literal (s : string) : bool :=
  forallb (fun c => negb (PyStr.mem_char ".^$*+?{}[]\|()" c)) (list_ascii_of_string s).

(** [re.search(default_ua_pattern, content, re.MULTILINE)]: by the reading
    above when the project name is literal text, else as the library has it. *)
Definition search_default_ua {expr} (lib : astlib expr) (project_name content : string)
  : result bool :=
  if regex_literal project_name
  then Ok (search_line_starts (default_ua_at project_name) true content)
  else
    match re_search lib (default_ua_pattern project_name) content with
    | Some b => Ok b
    | None => Raise ReError
    end.

(** *** The checks *)

Definition doc_robots : string :=
  "https://docs.scrapy.org/en/latest/topics/settings.html#robotstxt-obey".
Definition doc_user_agent : string :=
  "https://docs.scrapy.org/en/latest/topics/settings.html#user-agent".
Definition doc_delay : string :=
  "https://docs.scrapy.org/en/latest/topics/settings.html#download-delay".
Definition doc_conc : string :=
  "https://docs.scrapy.org/en/latest/topics/settings.html#concurrent-requests-per-domain".
Definition doc_autothrottle : string :=
  "https://docs.scrapy.org/en/latest/topics/autothrottle.html".
Definition doc_cache : string :=
  "https://docs.scrapy.org/en/latest/topics/downloader-middleware.html#httpcache-middleware-settings".

Definition robots_warning (file : string) (ln : nat) : entry :=
  Entry "`ROBOTSTXT_OBEY` is set to False."
    (Some "Ensure you have permission and understand the implications of ignoring robots.txt.")
    file (Some ln) (Some doc_robots).

Definition robots_set_info (file : string) (ln : nat) : entry :=
  Entry "`ROBOTSTXT_OBEY` is explicitly set (likely True)." None file (Some ln) (Some doc_robots).

Definition robots_unset_info (file : string) : entry :=
  Entry "`ROBOTSTXT_OBEY` is not explicitly set (defaults to True)."
    (Some "Scrapy respects robots.txt by default.") file None (Some doc_robots).

Section Checks.

Context {expr : Type} (lib : astlib expr).
Variable found : gmap string (expr * nat).
Variable content : string.
Variable file : string.
Variable project_name : string.

(** ROBOTSTXT_OBEY *)
Definition check_robots (r : results) : results :=
  match found !! "ROBOTSTXT_OBEY" with
  | Some (e, ln) =>
      if is_false (get_node_value lib e)
      then add_warning (robots_warning file ln) r
      else add_info (robots_set_info file ln) r
  | None =>
      if negb (search_robots content)
      then add_info (robots_unset_info file) r
      else r
  end.

Definition ua_advice : string :=
  "Set a custom User-Agent identifying your bot (e.g., 'MyBot (+http://mywebsite.com)') for politeness.".

Definition ua_default_recommendation (ln : nat) : entry :=
  Entry "Default `USER_AGENT` is likely used." (Some ua_advice) file (Some ln) (Some doc_user_agent).

Definition ua_custom_info (ln : nat) : entry :=
  Entry "Custom `USER_AGENT` seems to be set." None file (Some ln) (Some doc_user_agent).

Definition ua_missing_recommendation : entry :=
  Entry "`USER_AGENT` is likely commented out or missing." (Some ua_advice) file None
    (Some doc_user_agent).

(** USER_AGENT *)
Definition check_user_agent (r : results) : result results :=
  match found !! "USER_AGENT" with
  | Some (e, ln) =>
      match get_node_value lib e with
      | PyStr s =>
          if PyStr.contains project_name s
          then Ok (add_recommendation (ua_default_recommendation ln) r)
          else Ok (add_info (ua_custom_info ln) r)
      | _ => Ok (add_info (ua_custom_info ln) r)
      end
  | None =>
      is_default ← search_default_ua lib project_name content;
      if (is_default : bool) || negb (search_custom_ua content)
      then Ok (add_recommendation ua_missing_recommendation r)
      else Ok r
  end.

(** The value of a setting, or the default when it is not assigned. *)
Definition setting_value (name : string) (dflt : value) : value :=
  match found !! name with
  | Some (e, _) => get_node_value lib e
  | None => dflt
  end.

Definition setting_line (name : string) : option nat :=
  snd <$> found !! name.

Definition autothrottle_enabled : bool :=
  match found !! "AUTOTHROTTLE_ENABLED" with
  | Some (e, _) => is_true (get_node_value lib e)
  | None => false
  end.

Definition low_delay_recommendation (delay_value : value) : entry :=
  Entry "Low/No `DOWNLOAD_DELAY` without AutoThrottle."
    (Some ("Consider setting DOWNLOAD_DELAY >= 0.5 or enabling AUTOTHROTTLE_ENABLED for politeness. Current delay appears to be "
           +:+ (if is_none delay_value then "default (0)" else py_format lib delay_value) +:+ "."))
    file (setting_line "DOWNLOAD_DELAY") (Some doc_delay).

Definition high_concurrency_recommendation (conc_domain_value conc_ip_value : value) : entry :=
  Entry "High concurrency without AutoThrottle."
    (Some ("Consider lowering CONCURRENT_REQUESTS_PER_DOMAIN/IP (currently ~"
           +:+ py_format lib conc_domain_value +:+ "/" +:+ py_format lib conc_ip_value
           +:+ ") or enabling AUTOTHROTTLE_ENABLED to avoid overloading servers."))
    file
    (match setting_line "CONCURRENT_REQUESTS_PER_DOMAIN" with
     | Some ln => Some ln
     | None => setting_line "CONCURRENT_REQUESTS_PER_IP"
     end)
    (Some doc_conc).

Definition autothrottle_info : entry :=
  Entry "`AUTOTHROTTLE_ENABLED` is True."
    (Some "AutoThrottle adjusts delays/concurrency automatically.")
    file (setting_line "AUTOTHROTTLE_ENABLED") (Some doc_autothrottle).

(** DOWNLOAD_DELAY and CONCURRENT_REQUESTS_PER_DOMAIN/IP.  The comparisons
    raise TypeError on a value that is no number. *)
Definition check_throttle (r : results) : result results :=
  let delay_value := setting_value "DOWNLOAD_DELAY" (PyInt 0) in
  let conc_domain_value := setting_value "CONCURRENT_REQUESTS_PER_DOMAIN" (PyInt 16) in
  let conc_ip_value := setting_value "CONCURRENT_REQUESTS_PER_IP" (PyInt 16) in
  if negb autothrottle_enabled then
    low ← (if is_none delay_value then Ok true else lt delay_value (1 # 2));
    let r1 := if (low : bool) then add_recommendation (low_delay_recommendation delay_value) r
              else r in
    high_domain ← gt conc_domain_value 8;
    high ← (if (high_domain : bool) then Ok true else gt conc_ip_value 8);
    if (high : bool)
    then Ok (add_recommendation
               (high_concurrency_recommendation conc_domain_value conc_ip_value) r1)
    else Ok r1
  else Ok (add_info autothrottle_info r).

Definition cache_disabled_recommendation : entry :=
  Entry "HTTP Caching is disabled."
    (Some "Enable `HTTPCACHE_ENABLED = True` during development to speed up repeated crawls by caching requests.")
    file (setting_line "HTTPCACHE_ENABLED") (Some doc_cache).

Definition cache_enabled_info (ln : nat) : entry :=
  Entry "`HTTPCACHE_ENABLED` is True." (Some "Caching requests can speed up development.")
    file (Some ln) (Some doc_cache).

(** HTTPCACHE_ENABLED *)
Definition check_cache (r : results) : results :=
  match found !! "HTTPCACHE_ENABLED" with
  | None => add_recommendation cache_disabled_recommendation r
  | Some (e, ln) =>
      if is_false (get_node_value lib e)
      then add_recommendation cache_disabled_recommendation r
      else add_info (cache_enabled_info ln) r
  end.

Definition playwright_info : entry :=
  Entry "Playwright integration detected."
    (Some "Ensure DOWNLOAD_HANDLERS and TWISTED_REACTOR are set correctly.") file None None.

Definition splash_info : entry :=
  Entry "Splash integration detected."
    (Some "Ensure SPLASH_URL and relevant middlewares are configured.") file None None.

Definition redis_info : entry :=
  Entry "Scrapy-Redis integration detected."
    (Some "Ensure SCHEDULER, DUPEFILTER_CLASS, and Redis connection settings are correct.")
    file None None.

(** The extension markers, looked for in the text. *)
Definition check_extensions (r : results) : results :=
  let r1 := if PyStr.contains "scrapy_playwright" content then add_info playwright_info r else r in
  let r2 := if PyStr.contains "scrapy_splash" content then add_info splash_info r1 else r1 in
  if PyStr.contains "scrapy_redis" content then add_info redis_info r2 else r2.

(** Part 3 of [_analyze_settings]: the checks, in order. *)
Definition perform_checks (r : results) : result results :=
  r2 ← check_user_agent (check_robots r);
  r3 ← check_throttle r2;
  Ok (check_extensions (check_cache r3)).

End Checks.

Definition syntax_ok_info (file : string) : entry :=
  Entry "Syntax check passed." None file None None.

Definition syntax_error_warning (file : string) (lineno : option nat) (msg : string)
    (text : option string) : entry :=
  Entry ("Syntax error (line " +:+ from_option PyStr.of_nat "None" lineno +:+ "): " +:+ msg)
    (Some ("Near: " +:+ from_option id "None" text)) file lineno None.

Definition unreadable_warning (file : string) (msg : string) : entry :=
  Entry "Could not read or parse settings file." (Some ("Error: " +:+ msg)) file None None.

(** [_analyze_settings(settings_path, project_name)]: [read] is what reading
    the file gives, [file] is [str(settings_path)]. *)
Definition analyze_settings {expr} (lib : astlib expr) (read : read_outcome)
    (file project_name : string) : result results :=
  match read with
  | ReadError msg => Ok (Results [unreadable_warning file msg] [] [])
  | ReadText content =>
      match ast_parse lib content with
      | ParseOtherError msg => Ok (Results [unreadable_warning file msg] [] [])
      | ParseSyntaxError lineno msg text =>
          perform_checks lib ∅ content file project_name
            (Results [syntax_error_warning file lineno msg text] [] [])
      | Parsed tree =>
          perform_checks lib (settings_found (walk tree)) content file project_name
            (Results [] [] [syntax_ok_info file])
      end
  end.

(** *** Notions the statements about the advisor use *)

(** [name] is among the targets as a stored [Name]. *)
Definition stores (name : string) (t : target) : bool :=
  match t with
  | Name id store => String.eqb id name && store
  | OtherTarget => false
  end.

Definition assignment_to {expr} (name : string) (n : node expr) : option (expr * nat) :=
  match n with
  | Assign targets value lineno =>
      if existsb (stores name) targets then Some (value, lineno) else None
  | Node _ => None
  end.

(** The assignment to [name] that comes last in a list of nodes: its value
    and its line. *)
Definition last_assignment {expr} (name : string) (nodes : list (node expr))
  : option (expr * nat) :=
  last (omap (assignment_to name) nodes).

Definition is_number (v : value) : bool :=
  match number v with
  | Some _ => true
  | None => false
  end.

(** The comparisons of the delay and concurrency check are between numbers:
    AutoThrottle is enabled (no comparison is made), or the delay is unknown
    or a number and both concurrency limits are numbers. *)
Definition throttle_comparable {expr} (lib : astlib expr) (found : gmap string (expr * nat))
  : bool :=
  autothrottle_enabled lib found ||
  ((is_none (setting_value lib found "DOWNLOAD_DELAY" (PyInt 0))
    || is_number (setting_value lib found "DOWNLOAD_DELAY" (PyInt 0)))
   && is_number (setting_value lib found "CONCURRENT_REQUESTS_PER_DOMAIN" (PyInt 16))
   && is_number (setting_value lib found "CONCURRENT_REQUESTS_PER_IP" (PyInt 16))).

End SettingsAdvisor.

(** ** The proxy rotation middleware: construction and exceptions *)

Module ProxyRotatorMore.

Import ProxyRotator.

(** The values [__init__] reads from the crawler settings, as the typed
    getters return them.  [s_mode] is the text before it is lower-cased. *)
Record settings := Settings {
  s_enabled : bool;
  s_mode : string;
  s_fail_codes : list Z;
  s_fail_timeout : Z;
  s_source_type : string;
  s_proxy_list : list string;
  s_proxy_file : option string;
  s_proxy_url : option string;
  s_refresh_minutes : Z;
}.

Definition set_enabled (b : bool) (m : middleware) : middleware :=
  Middleware b (mode m) (fail_codes m) (fail_timeout m)
    (proxy_source_type m) (proxy_list_setting m) (proxy_file_setting m)
    (proxy_url_setting m) (url_refresh_interval m)
    (proxies m) (failed_proxies m) (proxy_index m) (last_refresh_time m) (log m).

(** The attributes as [__init__] sets them before it looks at [enabled]. *)
Definition fresh (s : settings) : middleware :=
  Middleware (s_enabled s) (FileApi.lower (s_mode s)) (list_to_set (s_fail_codes s))
    (s_fail_timeout s) (s_source_type s) (s_proxy_list s) (s_proxy_file s) (s_proxy_url s)
    (s_refresh_minutes s * 60)%Z [] ∅ 0 0 [].

(** [__init__] (and [from_crawler]) *)
Definition init (rt : runtime) (e : env) (s : settings) : result middleware :=
  let m := fresh s in
  if negb (enabled m) then
    Ok (logmsg INFO "ProxyRotatorMiddleware is disabled by settings." m)
  else if String.eqb (proxy_source_type m) "url" && negb (requests_available rt) then
    Ok (set_enabled false
          (logmsg ERROR "ProxyRotatorMiddleware: 'requests' library is required for URL proxy source but not installed. Disabling middleware." m))
  else load_proxies rt e m.

(** What [process_exception] looks at in the exception it is given: whether
    it is a [requests.exceptions.ProxyError], whether it is one of the five
    connection errors of [twisted.internet.error], whether it is an
    [Exception] at all, its text [str(exception)] and the name of its type. *)
Record exception := Exception {
  is_requests_proxy_error : bool;
  is_twisted_connection_error : bool;
  is_exception : bool;
  text : string;
  type_name : string;
}.

(** [any(err_str in str(exception).lower() for err_str in [...])] *)
Definition mentions_proxy_trouble (exc : exception) : bool :=
  existsb (fun err_str => PyStr.contains err_str (FileApi.lower (text exc)))
    ["proxy"; "timeout"; "connection refused"].

(** The flag [is_proxy_error] after the three tests.  [twisted_available]
    tells whether [twisted.internet.error] can be imported. *)
Definition is_proxy_error (rt : runtime) (twisted_available : bool) (exc : exception) : bool :=
  let by_requests := requests_available rt && is_requests_proxy_error exc in
  let by_twisted :=
    if by_requests then true
    else twisted_available && is_twisted_connection_error exc in
  if by_twisted then true
  else is_exception exc && mentions_proxy_trouble exc.

(** [process_exception]: it returns [None] in every case; the middleware after
    the call. *)
Definition process_exception (rt : runtime) (twisted_available : bool) (e : env)
    (req : request) (exc : exception) (m : middleware) : middleware :=
  if negb (enabled m) then m
  else
    let proxy := meta req !! "_proxy_rotator_current" in
    if is_proxy_error rt twisted_available exc then
      mark_failed (clock_mark e) proxy
        (logmsg ERROR ("Proxy " +:+ opt_text proxy +:+ " failed for " +:+ req_url req
                       +:+ " with exception: " +:+ type_name exc) m)
    else m.

End ProxyRotatorMore.

(** ** The log analyzer: the lines the pass tells apart *)

Module LogAnalyzerMore.

Import LogAnalyzer.

(** REGEX_ERROR, REGEX_WARNING match the stripped line. *)
Definition is_error_line (raw_line : string) : bool :=
  bool_decide (is_Some (match_level "ERROR" (PyStr.strip raw_line))).

Definition is_warning_line (raw_line : string) : bool :=
  bool_decide (is_Some (match_level "WARNING" (PyStr.strip raw_line))).

(** The test that starts the stats dump, on the stripped line. *)
Definition has_marker (raw_line : string) : bool :=
  PyStr.contains "'downloader/response_count':" (PyStr.strip raw_line).

End LogAnalyzerMore.

(** ** The settings advisor: the nodes of a tree *)

Module SettingsAdvisorMore.

Import SettingsAdvisor.

(** [n] is [t] or lies below it, at any depth. *)
Inductive subnode {expr : Type} (n : node expr) : node expr -> Prop :=
| subnode_here : subnode n n
| subnode_below (c t : node expr) : c ∈ children t -> subnode n c -> subnode n t.

(** The messages of the two recommendations of the delay and concurrency
    check. *)
Definition throttle_messages : list string :=
  ["Low/No `DOWNLOAD_DELAY` without AutoThrottle."; "High concurrency without AutoThrottle."].

End SettingsAdvisorMore.

(** ** The file API: the parts of a sub-path *)

Module FileApiMore.

Import FileApi.


End FileApiMore.

(** ** Concrete inputs *)

Module Scenarios.

Import ProxyRotator.

Definition proxy_a : string := "http://10.0.0.1:8080".
Definition proxy_b : string := "http://10.0.0.2:8080".

(** Every string passes the urlparse test; [requests] is imported. *)
Definition rt_plain : runtime := Runtime true (fun _ => true).

(** A call at clock reading [now], with draw 0: the proxy list on the remote
    URL is empty, no proxy file exists. *)
Definition env_at (now : Z) : env := Env NotAFile (FetchLines []) now now true now 0 now.

(** The fetch of the remote list times out. *)
Definition env_fetch_error (now : Z) : env :=
  Env NotAFile (FetchRequestException "timed out") now now true now 0 now.

(** An enabled middleware with the default failure codes and cooldown [timeout]. *)
Definition rotator (md source : string) (timeout : Z) (pool : list string)
    (failed : gmap string Z) : middleware :=
  Middleware true md {[403; 407; 429; 500; 502; 503; 504]}%Z timeout source
    pool None (Some "http://proxies.example/list.txt") 3600 pool failed 0 0 [].

(** The source is a URL, last fetched at time 0. *)
Definition url_rotator : middleware := rotator "random" "url" 300 [proxy_a] ∅.

(** A pool that lists one proxy twice. *)
Definition duplicate_rotator : middleware :=
  rotator "sequential" "list" 300 [proxy_a; proxy_a; proxy_b] ∅.

Definition plain_rotator (md : string) : middleware :=
  rotator md "list" 300 [proxy_a; proxy_b] ∅.

(** Cooldown 0; [proxy_a] failed at time 0. *)
Definition no_cooldown_rotator : middleware :=
  rotator "random" "list" 0 [proxy_a; proxy_b] {[proxy_a := 0%Z]}.

Definition cooldown_rotator : middleware :=
  rotator "random" "list" 300 [proxy_a; proxy_b] {[proxy_a := 0%Z]}.

(** Both proxies are marked failed: [proxy_a] at time 0, [proxy_b] at time
    900. *)
Definition half_expired_rotator : middleware :=
  rotator "random" "list" 300 [proxy_a; proxy_b] {[proxy_a := 0%Z; proxy_b := 900%Z]}.

(** A middleware switched off by its settings. *)
Definition disabled_rotator : middleware :=
  Middleware false "random" {[403; 407; 429; 500; 502; 503; 504]}%Z 300 "list"
    [proxy_a] None None 3600 [] ∅ 0 0 [].

Definition request_via (p : string) : request :=
  Request "http://example.com/" {["_proxy_rotator_current" := p; "proxy" := p]}.

Definition response_503 : response := Response 503 "http://example.com/".

(** A project [shop] stored at /srv/shop: the module directory /srv/shop/shop,
    and beside it a file and a directory whose names start with the name of
    the module directory. *)
Definition shop_fs : FileApi.fs_node :=
  FileApi.Dir
    [("srv", FileApi.Dir
       [("shop", FileApi.Dir
          [("scrapy.cfg", FileApi.File (Some "[settings]"));
           ("shop", FileApi.Dir
              [("settings.py", FileApi.File (Some "BOT_NAME = 'shop'"));
               ("spiders", FileApi.Dir [("books.py", FileApi.File (Some "import scrapy"))])]);
           ("shop_secrets.env", FileApi.File (Some "API_KEY=k"));
           ("shop_old", FileApi.Dir [("settings.py", FileApi.File (Some "BOT_NAME = 'old'"))])])]);
     ("etc", FileApi.Dir [("passwd", FileApi.File (Some "root:x:0:0"))])].

Definition shop_projects : gmap string string := {[ "shop" := "/srv/shop" ]}.

Definition shop_base : list string := ["srv"; "shop"; "shop"].

(** [json.loads] and [int] restricted to unsigned decimal numerals. *)
Fixpoint decimal_go (acc : Z) (s : string) : option Z :=
  match s with
  | EmptyString => Some acc
  | String c s' =>
      if PyStr.isdigit c
      then decimal_go (acc * 10 + Z.of_nat (nat_of_ascii c - 48)) s'
      else None
  end.

Definition decimal (s : string) : option Z :=
  match s with
  | EmptyString => None
  | _ => decimal_go 0 s
  end.

Definition lib_decimal : LogAnalyzer.pylib :=
  LogAnalyzer.PyLib
    (fun s => match decimal s with
              | Some z => LogAnalyzer.JsonValue (Py.PyInt z)
              | None => LogAnalyzer.JsonDecodeError
              end)
    decimal.

Definition nl : string := String LogAnalyzer.newline "".

(** A log whose stats dump reports 100 responses, 80 of them with status 200. *)
Definition stats_dump_80_of_100 : list string :=
  ["2024-01-01 12:00:00 [scrapy.statscollectors] INFO: Dumping Scrapy stats:" +:+ nl;
   "{'downloader/request_bytes': 21900," +:+ nl;
   " 'downloader/request_count': 100," +:+ nl;
   " 'downloader/response_bytes': 512000," +:+ nl;
   " 'downloader/response_count': 100," +:+ nl;
   " 'downloader/response_status_count/200': 80," +:+ nl;
   " 'downloader/response_status_count/404': 20," +:+ nl;
   " 'elapsed_time_seconds': 50," +:+ nl;
   " 'finish_reason': 'finished'," +:+ nl;
   " 'item_scraped_count': 40," +:+ nl;
   " 'log_count/INFO': 10}" +:+ nl;
   "2024-01-01 12:00:00 [scrapy.core.engine] INFO: Spider closed (finished)" +:+ nl].

(** Expressions for the examples: a literal with its value, or a call, which
    ast.literal_eval rejects. *)
Inductive sample_expr :=
| Literal (v : Py.value)
| Call (text : string).

(** The library with [ast.parse] fixed by [parse]. *)
Definition sample_lib (parse : string -> SettingsAdvisor.parse_outcome sample_expr)
  : SettingsAdvisor.astlib sample_expr :=
  SettingsAdvisor.AstLib sample_expr parse
    (fun e => match e with Literal v => Some v | Call _ => None end)
    (fun v => match v with
              | Py.PyBool true => "True"
              | Py.PyBool false => "False"
              | Py.PyInt z => PyStr.of_nat (Z.to_nat z)
              | Py.PyStr s => s
              | _ => "None"
              end)
    (fun _ _ => Some false).

Definition assign (name : string) (e : sample_expr) (ln : nat)
  : SettingsAdvisor.node sample_expr :=
  SettingsAdvisor.Assign [SettingsAdvisor.Name name true] e ln.

(** ROBOTSTXT_OBEY = False on line 2. *)
Definition robots_source : string :=
  "BOT_NAME = 'shop'" +:+ nl +:+ "ROBOTSTXT_OBEY = False" +:+ nl.

Definition robots_tree : SettingsAdvisor.node sample_expr :=
  SettingsAdvisor.Node
    [assign "BOT_NAME" (Literal (Py.PyStr "shop")) 1;
     assign "ROBOTSTXT_OBEY" (Literal (Py.PyBool false)) 2].

(** ROBOTSTXT_OBEY = False on line 1, assigned again on line 2. *)
Definition override_source : string :=
  "ROBOTSTXT_OBEY = False" +:+ nl +:+ "ROBOTSTXT_OBEY = True" +:+ nl.

Definition override_tree : SettingsAdvisor.node sample_expr :=
  SettingsAdvisor.Node
    [assign "ROBOTSTXT_OBEY" (Literal (Py.PyBool false)) 1;
     assign "ROBOTSTXT_OBEY" (Literal (Py.PyBool true)) 2].

(** An unclosed parenthesis on line 1; line 2 names an extension. *)
Definition broken_source : string :=
  "ROBOTSTXT_OBEY = (" +:+ nl +:+ "# scrapy_splash" +:+ nl.

Definition broken_parse : SettingsAdvisor.parse_outcome sample_expr :=
  SettingsAdvisor.ParseSyntaxError (Some 1) "'(' was never closed" (Some "ROBOTSTXT_OBEY = (").

(** A delay computed at run time. *)
Definition delay_call : sample_expr := Call "float(os.environ['DELAY'])".

Definition delay_source : string :=
  "DOWNLOAD_DELAY = float(os.environ['DELAY'])" +:+ nl.

Definition delay_tree : SettingsAdvisor.node sample_expr :=
  SettingsAdvisor.Node [assign "DOWNLOAD_DELAY" delay_call 1].

(** ROBOTSTXT_OBEY = False, a domain limit of 20, and a text where the limit
    per IP should be. *)
Definition mixed_limits_source : string :=
  "ROBOTSTXT_OBEY = False" +:+ nl +:+ "CONCURRENT_REQUESTS_PER_DOMAIN = 20" +:+ nl
  +:+ "CONCURRENT_REQUESTS_PER_IP = 'x'" +:+ nl.

Definition mixed_limits_tree : SettingsAdvisor.node sample_expr :=
  SettingsAdvisor.Node
    [assign "ROBOTSTXT_OBEY" (Literal (Py.PyBool false)) 1;
     assign "CONCURRENT_REQUESTS_PER_DOMAIN" (Literal (Py.PyInt 20)) 2;
     assign "CONCURRENT_REQUESTS_PER_IP" (Literal (Py.PyStr "x")) 3].


(** One chained assignment of a value computed at run time to five settings. *)
Definition unknown_call : sample_expr := Call "env('X')".

Definition unknown_source : string :=
  "ROBOTSTXT_OBEY = USER_AGENT = HTTPCACHE_ENABLED = AUTOTHROTTLE_ENABLED = DOWNLOAD_DELAY = env('X')"
  +:+ nl.

Definition unknown_tree : SettingsAdvisor.node sample_expr :=
  SettingsAdvisor.Node
    [SettingsAdvisor.Assign
       [SettingsAdvisor.Name "ROBOTSTXT_OBEY" true; SettingsAdvisor.Name "USER_AGENT" true;
        SettingsAdvisor.Name "HTTPCACHE_ENABLED" true;
        SettingsAdvisor.Name "AUTOTHROTTLE_ENABLED" true;
        SettingsAdvisor.Name "DOWNLOAD_DELAY" true]
       unknown_call 1].

Definition unknown_lib : SettingsAdvisor.astlib sample_expr :=
  sample_lib (fun _ => SettingsAdvisor.Parsed unknown_tree).

Definition unknown_found : gmap string (sample_expr * nat) :=
  SettingsAdvisor.settings_found (SettingsAdvisor.walk unknown_tree).

End Scenarios.

(** ** More concrete inputs *)

Module MoreScenarios.

Import ProxyRotator ProxyRotatorMore Scenarios.

Definition proxy_c : string := "http://10.0.0.3:8080".

(** The urlparse test read as: the text starts with http:// or https:// and
    something follows. *)
Definition rt_scheme : runtime :=
  Runtime true
    (fun p => match LogAnalyzer.eat "http://" p, LogAnalyzer.eat "https://" p with
              | Some rest, _ | None, Some rest => PyStr.truthy rest
              | None, None => false
              end).

Definition three_rotator : middleware :=
  rotator "sequential" "list" 300 [proxy_a; proxy_b; proxy_c] ∅.

(** Sequential mode, three proxies, the first of them failed at time 0. *)
Definition cooling_sequential_rotator : middleware :=
  rotator "sequential" "list" 300 [proxy_a; proxy_b; proxy_c] {[proxy_a := 0%Z]}.

(** An empty pool with a URL source whose refresh is long overdue. *)
Definition starved_rotator : middleware := rotator "random" "url" 300 [] ∅.

(** A list setting with a blank entry and one without a scheme. *)
Definition messy_list_rotator : middleware :=
  Middleware true "random" ∅ 300 "list" [proxy_a; "   "; "10.0.0.9:8080"; proxy_b]
    None None 3600 [] ∅ 7 0 [].

Definition file_rotator : middleware :=
  Middleware true "random" ∅ 300 "file" [] (Some "config/proxies.txt") None 3600
    [proxy_a] ∅ 0 0 [].

Definition env_file_missing (now : Z) : env :=
  Env (FileNotFoundRaised "No such file") (FetchLines []) now now true now 0 now.

Definition env_fetched (lines : list string) (now : Z) : env :=
  Env NotAFile (FetchLines lines) now now true now 0 now.

Definition plain_request : request := Request "http://example.com/" ∅.

Definition disabled_settings : settings :=
  Settings false "Random" [403; 503]%Z 300 "file" [] (Some "config/proxies.txt") None 60.

(** Enabled, with the proxies in the settings. *)
Definition list_settings : settings :=
  Settings true "Sequential" [403; 503]%Z 300 "list" [proxy_a; "10.0.0.9:8080"; proxy_b]
    None None 60.

(** An exception raised by the spider's own code whose text mentions a timeout. *)
Definition timeout_exception : exception :=
  Exception false false true "Read Timeout while waiting" "RuntimeError".

(** A log with one error, one warning and an info line. *)
Definition short_log : list string :=
  ["2024-01-01 12:00:00 [scrapy.core.scraper] ERROR: Spider error processing page" +:+ nl;
   "2024-01-01 12:00:01 [scrapy.downloadermiddlewares.retry] WARNING: Gave up retrying" +:+ nl;
   "2024-01-01 12:00:02 [scrapy.core.engine] INFO: Spider opened" +:+ nl].

(** The start of a stats dump, up to the line before the response count, and
    the lines from there on. *)
Definition dump_head : list string :=
  ["2024-01-01 12:00:00 [scrapy.statscollectors] INFO: Dumping Scrapy stats:" +:+ nl;
   "{'downloader/request_bytes': 21900," +:+ nl;
   " 'downloader/request_count': 100," +:+ nl].

Definition dump_tail : list string :=
  [" 'downloader/response_count': 100," +:+ nl;
   " 'downloader/response_status_count/200': 80," +:+ nl].

(** A concurrency limit read from the environment at run time. *)
Definition concurrency_source : string :=
  "CONCURRENT_REQUESTS_PER_DOMAIN = int(os.environ['CONC'])" +:+ nl.

Definition concurrency_tree : SettingsAdvisor.node sample_expr :=
  SettingsAdvisor.Node
    [assign "CONCURRENT_REQUESTS_PER_DOMAIN" (Call "int(os.environ['CONC'])") 1].

(** The same limit with AutoThrottle switched on. *)
Definition autothrottle_source : string :=
  concurrency_source +:+ "AUTOTHROTTLE_ENABLED = True" +:+ nl.

Definition autothrottle_tree : SettingsAdvisor.node sample_expr :=
  SettingsAdvisor.Node
    [assign "CONCURRENT_REQUESTS_PER_DOMAIN" (Call "int(os.environ['CONC'])") 1;
     assign "AUTOTHROTTLE_ENABLED" (Literal (Py.PyBool true)) 2].

(** ROBOTSTXT_OBEY = False inside the body of an [if] statement. *)
Definition nested_tree : SettingsAdvisor.node sample_expr :=
  SettingsAdvisor.Node
    [assign "BOT_NAME" (Literal (Py.PyStr "shop")) 1;
     SettingsAdvisor.Node
       [SettingsAdvisor.Node [];
        assign "ROBOTSTXT_OBEY" (Literal (Py.PyBool false)) 3]].

(** The project [shop] stored under a relative path, the server running in
    /srv. *)
Definition relative_projects : gmap string string := {[ "shop" := "shop" ]}.

End MoreScenarios.

(** * Properties of the proxy rotation middleware *)

Section ProxyRotatorProofs.

Import ProxyRotator.

Variable rt : runtime.

(** ** What each step leaves alone *)

Lemma logmsg_fields l msg m :
  proxies (logmsg l msg m) = proxies m /\
  failed_proxies (logmsg l msg m) = failed_proxies m /\
  proxy_index (logmsg l msg m) = proxy_index m /\
  fail_timeout (logmsg l msg m) = fail_timeout m /\
  mode (logmsg l msg m) = mode m /\
  proxy_source_type (logmsg l msg m) = proxy_source_type m.
Proof. by destruct m. Qed.

Lemma validate_frame new_proxies m :
  failed_proxies (validate rt new_proxies m).2 = failed_proxies m /\
  fail_timeout (validate rt new_proxies m).2 = fail_timeout m /\
  mode (validate rt new_proxies m).2 = mode m /\
  proxy_source_type (validate rt new_proxies m).2 = proxy_source_type m.
Proof.
  revert m. induction new_proxies as [|p rest IH]; intros m; cbn [validate]; [done|].
  destruct (urlparse_ok rt p).
  - specialize (IH m). destruct (validate rt rest m) as [v m']. exact IH.
  - destruct (IH (logmsg WARNING ("Ignoring invalid proxy format: " +:+ p) m)) as (H1 & H2 & H3 & H4).
    rewrite H1, H2, H3, H4. by destruct m.
Qed.

Lemma read_source_frame e m new_proxies desc m1 :
  read_source rt e m = inl (new_proxies, desc, m1) ->
  failed_proxies m1 = failed_proxies m /\
  fail_timeout m1 = fail_timeout m /\
  mode m1 = mode m /\
  proxy_source_type m1 = proxy_source_type m.
Proof.
  unfold read_source. intros H.
  repeat (case_match; simplify_eq); try done;
    match goal with x : middleware |- _ => by destruct x end.
Qed.

(** The state an exception of the read leaves differs from the state before
    in its log only. *)
Lemma read_source_raised e m exc desc m1 :
  read_source rt e m = inr (exc, desc, m1) ->
  m1 = m \/ exists msg, m1 = logmsg INFO msg m.
Proof.
  unfold read_source. intros H.
  repeat (case_match; simplify_eq); try (by left); right; by eexists.
Qed.

(** [_load_proxies] never touches the failure map, the cooldown, the mode or
    the source type. *)
Lemma load_proxies_frame e m m' :
  load_proxies rt e m = Ok m' ->
  failed_proxies m' = failed_proxies m /\
  fail_timeout m' = fail_timeout m /\
  mode m' = mode m /\
  proxy_source_type m' = proxy_source_type m.
Proof.
  unfold load_proxies. intros H.
  destruct (read_source rt e m) as [[[new_proxies desc] m1]|[[exc desc] m1]] eqn:Hsrc.
  - apply read_source_frame in Hsrc as (<- & <- & <- & <-).
    pose proof (validate_frame new_proxies m1) as Hv.
    destruct (validate rt new_proxies m1) as [validated m2]. simpl in Hv.
    destruct Hv as (<- & <- & <- & <-).
    destruct validated; simplify_eq; by destruct m2.
  - destruct (requests_available rt); simpl in H; [|done].
    apply read_source_raised in Hsrc as [->|[msg0 ->]];
      destruct exc; simplify_eq; by destruct m.
Qed.

(** With [requests] imported, [_load_proxies] returns. *)
Lemma load_proxies_returns e m :
  requests_available rt = true -> exists m', load_proxies rt e m = Ok m'.
Proof.
  intros Hreq. unfold load_proxies.
  destruct (read_source rt e m) as [[[new_proxies desc] m1]|[[exc desc] m1]].
  - destruct (validate rt new_proxies m1) as [validated m2].
    destruct validated; eauto.
  - rewrite Hreq. simpl. destruct exc; eauto.
Qed.

(** The refresh step returns, and leaves the failure map and the cooldown as
    they are. *)
Lemma refresh_returns e m :
  exists m1, refresh_proxies_if_needed rt e m = Ok m1 /\
    failed_proxies m1 = failed_proxies m /\
    fail_timeout m1 = fail_timeout m /\
    mode m1 = mode m /\
    proxy_source_type m1 = proxy_source_type m.
Proof.
  unfold refresh_proxies_if_needed.
  destruct (negb (String.eqb (proxy_source_type m) "url")); simpl; [by exists m|].
  destruct (Z.eqb (url_refresh_interval m) 0); simpl; [by exists m|].
  destruct (requests_available rt) eqn:Hreq; simpl; [|by exists m].
  case_bool_decide; [|by exists m].
  destruct (lock_acquired e).
  - set (m0 := logmsg INFO _ m).
    destruct (load_proxies_returns e m0 Hreq) as [m1 Hm1].
    exists m1. split; [done|].
    apply load_proxies_frame in Hm1 as (-> & -> & -> & ->). by destruct m.
  - eexists. split; [done|]. by destruct m.
Qed.

(** A source that is no URL is never refreshed. *)
Lemma refresh_not_url e m :
  proxy_source_type m <> "url" -> refresh_proxies_if_needed rt e m = Ok m.
Proof.
  intros Hsrc. unfold refresh_proxies_if_needed.
  destruct (String.eqb_spec (proxy_source_type m) "url"); [done|]. done.
Qed.


(** ** Clearing expired failures *)

Lemma elem_of_expired_failures now m p :
  p ∈ expired_failures now m <->
  exists t, failed_proxies m !! p = Some t /\ (fail_timeout m < now - t)%Z.
Proof.
  unfold expired_failures. rewrite list_elem_of_fmap. split.
  - intros ([q t] & -> & Hin). apply list_elem_of_filter in Hin as [Hlt Hin].
    apply elem_of_map_to_list in Hin. by exists t.
  - intros (t & Hp & Hlt). exists (p, t). split; [done|].
    apply list_elem_of_filter. split; [done|]. by apply elem_of_map_to_list.
Qed.

Lemma clear_expired_failed now m :
  failed_proxies (clear_expired_failures now m) =
    if Z.eqb (fail_timeout m) 0 then failed_proxies m
    else foldr delete (failed_proxies m) (expired_failures now m).
Proof.
  unfold clear_expired_failures. destruct (Z.eqb (fail_timeout m) 0); [done|].
  destruct (expired_failures now m); [done|]. by destruct m.
Qed.

(** After the step a proxy is marked failed exactly when it was, and either
    the cooldown is 0 or its failure is no older than the cooldown. *)
Lemma clear_expired_lookup now m p :
  failed_proxies (clear_expired_failures now m) !! p =
    match failed_proxies m !! p with
    | Some t =>
        if Z.eqb (fail_timeout m) 0 then Some t
        else if bool_decide (fail_timeout m < now - t)%Z then None else Some t
    | None => None
    end.
Proof.
  rewrite clear_expired_failed.
  destruct (Z.eqb (fail_timeout m) 0); [by destruct (failed_proxies m !! p)|].
  destruct (decide (p ∈ expired_failures now m)) as [Hin|Hout].
  - rewrite lookup_foldr_delete by done.
    apply elem_of_expired_failures in Hin as (t & -> & Hlt).
    by rewrite bool_decide_eq_true_2.
  - rewrite lookup_foldr_delete_not_elem_of by done.
    destruct (failed_proxies m !! p) as [t|] eqn:Hp; [|done].
    case_bool_decide; [|done].
    exfalso. apply Hout, elem_of_expired_failures. eauto.
Qed.

Lemma clear_expired_fields now m :
  proxies (clear_expired_failures now m) = proxies m /\
  proxy_index (clear_expired_failures now m) = proxy_index m /\
  mode (clear_expired_failures now m) = mode m /\
  proxy_source_type (clear_expired_failures now m) = proxy_source_type m /\
  fail_timeout (clear_expired_failures now m) = fail_timeout m.
Proof.
  unfold clear_expired_failures. destruct (Z.eqb (fail_timeout m) 0); [done|].
  destruct (expired_failures now m); [done|]. by destruct m.
Qed.

(** ** Selection *)

Lemma elem_of_available m p :
  p ∈ available_proxies m <-> p ∈ proxies m /\ failed_proxies m !! p = None.
Proof.
  unfold available_proxies, not_failed. rewrite list_elem_of_filter.
  rewrite bool_decide_eq_true. tauto.
Qed.

Lemma random_choice_elem r l :
  l <> [] -> exists p, random_choice r l = Ok p /\ p ∈ l.
Proof.
  intros Hl. unfold random_choice.
  assert (r mod length l < length l) as Hlt.
  { apply Nat.mod_upper_bound. by destruct l. }
  apply lookup_lt_is_Some_2 in Hlt as [p Hp]. rewrite Hp.
  exists p. split; [done|]. by eapply list_elem_of_lookup_2.
Qed.

Lemma index_of_elem p l :
  p ∈ l -> exists i, index_of p l = Ok i /\ l !! i = Some p.
Proof.
  intros Hin. unfold index_of.
  destruct (list_find_elem_of (fun x => x = p) l p Hin eq_refl) as [[i x] Hfind].
  rewrite Hfind. apply list_find_Some in Hfind as (Hi & -> & _). eauto.
Qed.

Lemma rotate_nat_add_mod base offset len :
  rotate_nat_add base offset len = (base + offset) mod len.
Proof.
  unfold rotate_nat_add.
  by rewrite <-Nat2Z.inj_add, <-Nat2Z.inj_mod, Nat2Z.id.
Qed.

(** The sequential walk visits the pool rotated to the start index. *)
Lemma candidates_rotate ps start : candidates ps start = rotate start ps.
Proof.
  unfold candidates.
  assert (forall n k, n + k <= length ps ->
            omap (fun i => ps !! ((start + i) mod length ps)) (seq k n)
            = take n (drop k (rotate start ps))) as Hgen.
  { induction n as [|n IH]; intros k Hk; [done|]. cbn [seq omap list_omap].
    assert (k < length ps) as Hlt by lia.
    pose proof (lookup_rotate_r ps start k Hlt) as Hrot.
    rewrite rotate_nat_add_mod in Hrot.
    destruct (lookup_lt_is_Some_2 ps ((start + k) mod length ps)) as [x Hx].
    { apply Nat.mod_upper_bound. lia. }
    rewrite Hx. rewrite Hx in Hrot.
    rewrite IH by lia.
    erewrite (drop_S (rotate start ps) x k) by done. done. }
  rewrite (Hgen (length ps) 0) by lia.
  rewrite drop_0. apply take_ge. by rewrite length_rotate.
Qed.

Lemma sequential_walk_available m p :
  p ∈ proxies m -> failed_proxies m !! p = None ->
  exists c, sequential_walk m = Some c /\ c ∈ proxies m /\ failed_proxies m !! c = None.
Proof.
  intros Hin Hp. unfold sequential_walk. rewrite candidates_rotate.
  destruct (list_find_elem_of (fun c => not_failed m c = true)
              (rotate (proxy_index m mod length (proxies m)) (proxies m)) p) as [[i c] Hfind].
  { by apply elem_of_rotate. }
  { unfold not_failed. by apply bool_decide_eq_true. }
  rewrite Hfind. exists c. split; [done|].
  apply list_find_Some in Hfind as (Hi & Hc & _).
  split.
  - apply list_elem_of_lookup_2 in Hi. by apply elem_of_rotate in Hi.
  - unfold not_failed in Hc. by apply bool_decide_eq_true in Hc.
Qed.

(** Selection from a non-empty list of available pool entries returns one of
    the pool entries that are not marked failed, and changes nothing but the
    rotation index. *)
Lemma select_proxy_available e available m :
  available <> [] ->
  (forall p, p ∈ available -> p ∈ proxies m /\ failed_proxies m !! p = None) ->
  exists p m', select_proxy e available m = Ok (Some p, m') /\
    p ∈ proxies m /\ failed_proxies m !! p = None /\
    proxies m' = proxies m /\ failed_proxies m' = failed_proxies m.
Proof.
  intros Hne Hav. unfold select_proxy.
  destruct (random_choice_elem (choice e) available Hne) as (q & Hq & Hqin).
  destruct (Hav q Hqin) as [Hqpool Hqok].
  destruct (String.eqb (mode m) "sequential").
  - destruct (sequential_walk_available m q Hqpool Hqok) as (c & -> & Hc & Hcok).
    destruct (index_of_elem c (proxies m) Hc) as (i & -> & _). cbn.
    destruct (PyStr.truthy c); cbn.
    + eexists _, _. split; [done|]. by destruct m.
    + rewrite bool_decide_eq_true_2 by done. rewrite Hq. cbn.
      destruct (PyStr.truthy q).
      * destruct (index_of_elem q (proxies m)) as (j & Hj & _); [done|].
        replace (proxies (set_proxy_index ((i + 1) mod length (proxies m)) m))
          with (proxies m) by by destruct m.
        rewrite Hj. cbn. eexists _, _. split; [done|]. by destruct m.
      * eexists _, _. split; [done|]. by destruct m.
  - destruct available; [done|]. rewrite Hq. cbn. by eexists _, _.
Qed.



(** ** [_get_proxy] *)

(** The shape of a call on a non-empty pool: refresh, clear the expired
    failures, then either select among the available entries or, when there
    is none, forget all failures and select from the whole pool. *)
Lemma get_proxy_cases e m :
  proxies m <> [] ->
  exists m1, refresh_proxies_if_needed rt e m = Ok m1 /\
    failed_proxies m1 = failed_proxies m /\
    fail_timeout m1 = fail_timeout m /\
    let m2 := clear_expired_failures (clock_clear e) m1 in
    (proxies m1 = [] ->
       exists m', get_proxy rt e m = Ok (None, m') /\ failed_proxies m' = ∅) /\
    (proxies m1 <> [] ->
       exists p m', get_proxy rt e m = Ok (Some p, m') /\
         p ∈ proxies m1 /\ proxies m' = proxies m1 /\ failed_proxies m' !! p = None /\
         (available_proxies m2 <> [] -> failed_proxies m' = failed_proxies m2) /\
         (available_proxies m2 = [] -> failed_proxies m' = ∅)).
Proof.
  intros Hpool.
  destruct (refresh_returns e m) as (m1 & Hm1 & Hf & Ht & _ & _).
  exists m1. split_and!; [done..|]. intros m2.
  destruct (clear_expired_fields (clock_clear e) m1) as (Hps2 & _).
  fold m2 in Hps2.
  unfold get_proxy. destruct (proxies m) as [|p0 ps0] eqn:Hps; [done|].
  rewrite Hm1. cbn. fold m2.
  destruct (available_proxies m2) as [|a l] eqn:Hav.
  - rewrite Hps2. set (m3 := set_failed_proxies ∅ _).
    assert (proxies m3 = proxies m1) as Hps3 by (rewrite <-Hps2; by destruct m2).
    assert (failed_proxies m3 = ∅) as Hf3 by by destruct m2.
    split.
    + intros Hnil. rewrite Hnil. eexists. split; [done|]. by destruct m2.
    + intros Hne.
      destruct (select_proxy_available e (proxies m1) m3) as (p & m' & Hsel & Hp & Hpok & Hps' & Hf').
      { done. }
      { intros q Hq. rewrite Hps3, Hf3. by split. }
      rewrite Hps3 in Hp, Hps'.
      destruct (proxies m1) as [|p1 ps1] eqn:Hps1; [done|].
      rewrite Hsel.
      exists p, m'. split_and!; try done; by rewrite Hf', Hf3.
  - assert (a ∈ available_proxies m2) as Ha by (rewrite Hav; left).
    apply elem_of_available in Ha as [Ha _]. rewrite Hps2 in Ha.
    split; [intros Hnil; rewrite Hnil in Ha; by apply not_elem_of_nil in Ha|].
    intros _.
    destruct (select_proxy_available e (a :: l) m2) as (p & m' & Hsel & Hp & Hpok & Hps' & Hf').
    { done. }
    { intros q Hq. rewrite <-Hav in Hq. by apply elem_of_available in Hq. }
    rewrite Hsel. exists p, m'. rewrite Hps2 in Hp, Hps'.
    split_and!; try done. by rewrite Hf'.
Qed.

(** ** Exclusion by cooldown *)

(** What clearing leaves of the failure map: the entries still cooling. *)
Lemma clear_expired_cooling now m q :
  failed_proxies (clear_expired_failures now m) !! q =
    if cooling now m q then failed_proxies m !! q else None.
Proof.
  rewrite clear_expired_lookup. unfold cooling.
  destruct (failed_proxies m !! q) as [t|]; [|done].
  destruct (Z.eqb (fail_timeout m) 0); [done|]. cbn [orb]. by case_bool_decide.
Qed.

Lemma cooling_marked now m q : cooling now m q = true -> is_Some (failed_proxies m !! q).
Proof. unfold cooling. by destruct (failed_proxies m !! q). Qed.

Lemma cooling_ext now m m1 q :
  failed_proxies m1 = failed_proxies m -> fail_timeout m1 = fail_timeout m ->
  cooling now m1 q = cooling now m q.
Proof. unfold cooling. by intros -> ->. Qed.

Lemma eligible_ext now m m1 pool :
  failed_proxies m1 = failed_proxies m -> fail_timeout m1 = fail_timeout m ->
  eligible now m1 pool = eligible now m pool.
Proof.
  intros Hf Ht. unfold eligible. apply list_filter_iff. intros q.
  by rewrite (cooling_ext now m m1 q Hf Ht).
Qed.

Lemma elem_of_eligible now m pool q :
  q ∈ eligible now m pool <-> cooling now m q = false /\ q ∈ pool.
Proof. unfold eligible. by rewrite list_elem_of_filter. Qed.

(** The available subset the call computes is the eligible part of the pool. *)
Lemma available_eligible now m :
  available_proxies (clear_expired_failures now m) = eligible now m (proxies m).
Proof.
  unfold available_proxies, eligible. rewrite (proj1 (clear_expired_fields now m)).
  apply list_filter_iff. intros q. unfold not_failed.
  rewrite bool_decide_eq_true, clear_expired_cooling.
  destruct (cooling now m q) eqn:Hq; [|done].
  destruct (cooling_marked _ _ _ Hq) as [t ->]. done.
Qed.

(** With an eligible entry in the pool, the call selects among the eligible
    entries, in the state left by the clearing of the expired failures. *)
Lemma get_proxy_from_eligible e m m1 :
  proxies m <> [] ->
  refresh_proxies_if_needed rt e m = Ok m1 ->
  eligible (clock_clear e) m (proxies m1) <> [] ->
  get_proxy rt e m
    = select_proxy e (eligible (clock_clear e) m (proxies m1))
        (clear_expired_failures (clock_clear e) m1).
Proof.
  intros Hpool Hm1 Hne.
  destruct (refresh_returns e m) as (m1' & Hm1' & Hf & Ht & _).
  rewrite Hm1 in Hm1'. simplify_eq.
  unfold get_proxy. destruct (proxies m) as [|p0 ps0]; [done|].
  rewrite Hm1. cbn [mbind result_bind].
  rewrite available_eligible, (eligible_ext _ m m1') by done.
  by destruct (eligible (clock_clear e) m (proxies m1')).
Qed.

(** Random mode: the draw picks among the eligible entries. *)
Lemma get_proxy_random e m m1 :
  proxies m <> [] ->
  refresh_proxies_if_needed rt e m = Ok m1 ->
  mode m <> "sequential" ->
  eligible (clock_clear e) m (proxies m1) <> [] ->
  get_proxy rt e m
    = Ok (eligible (clock_clear e) m (proxies m1)
            !! (choice e mod length (eligible (clock_clear e) m (proxies m1))),
          clear_expired_failures (clock_clear e) m1).
Proof.
  intros Hpool Hm1 Hmode Hne. rewrite (get_proxy_from_eligible e m m1) by done.
  destruct (refresh_returns e m) as (m1' & Hm1' & _ & _ & Hmode1 & _).
  rewrite Hm1 in Hm1'. simplify_eq.
  destruct (clear_expired_fields (clock_clear e) m1') as (_ & _ & Hmode2 & _).
  unfold select_proxy. rewrite Hmode2, Hmode1.
  destruct (String.eqb_spec (mode m) "sequential"); [done|].
  set (avail := eligible (clock_clear e) m (proxies m1')) in *.
  destruct (random_choice_elem (choice e) avail Hne) as (x & Hx & _).
  destruct avail as [|a l] eqn:Havail; [done|]. rewrite Hx. cbn [mbind result_bind].
  unfold random_choice in Hx.
  destruct ((a :: l) !! (choice e mod length (a :: l))) as [y|]; by simplify_eq.
Qed.

(** Sequential mode: an eligible entry at the rotation index is returned. *)
Lemma get_proxy_sequential_head e m m1 p :
  proxies m <> [] ->
  refresh_proxies_if_needed rt e m = Ok m1 ->
  mode m = "sequential" ->
  PyStr.truthy p = true ->
  rotate (proxy_index m1) (proxies m1) !! 0 = Some p ->
  cooling (clock_clear e) m p = false ->
  exists m', get_proxy rt e m = Ok (Some p, m').
Proof.
  intros Hpool Hm1 Hmode Htruthy Hhead Hcool.
  destruct (refresh_returns e m) as (m1' & Hm1' & Hf & Ht & Hmode1 & _).
  rewrite Hm1 in Hm1'. simplify_eq.
  assert (p ∈ proxies m1') as Hin.
  { apply list_elem_of_lookup_2 in Hhead. by apply elem_of_rotate in Hhead. }
  rewrite (get_proxy_from_eligible e m m1') by
    (done || (apply (elem_of_not_nil p); by apply elem_of_eligible)).
  set (m2 := clear_expired_failures (clock_clear e) m1').
  destruct (clear_expired_fields (clock_clear e) m1') as (Hps2 & Hidx2 & Hmode2 & _).
  fold m2 in Hps2, Hidx2, Hmode2.
  assert (failed_proxies m2 !! p = None) as Hok.
  { unfold m2. by rewrite clear_expired_cooling, (cooling_ext _ m m1'), Hcool. }
  assert (sequential_walk m2 = Some p) as Hwalk.
  { unfold sequential_walk. rewrite candidates_rotate, Hps2, Hidx2.
    assert (rotate (proxy_index m1' mod length (proxies m1')) (proxies m1')
            = rotate (proxy_index m1') (proxies m1')) as ->.
    { unfold rotate. by rewrite Nat.Div0.mod_mod. }
    assert (list_find (fun c => not_failed m2 c = true)
              (rotate (proxy_index m1') (proxies m1')) = Some (0, p)) as ->; [|done].
    apply list_find_Some. split_and!; [done| |intros j y _ Hj; lia].
    unfold not_failed. by apply bool_decide_eq_true. }
  destruct (index_of_elem p (proxies m2)) as (i & Hi & _); [by rewrite Hps2|].
  unfold select_proxy. rewrite Hmode2, Hmode1, Hmode. cbn [String.eqb Ascii.eqb Bool.eqb].
  rewrite Hwalk, Hi. cbn [mbind result_bind PyStr.truthy_opt]. rewrite Htruthy.
  cbn [negb andb]. by eexists.
Qed.

(** The draw is looked at by the selection only. *)
Lemma refresh_with_choice draw e m :
  refresh_proxies_if_needed rt (with_choice draw e) m = refresh_proxies_if_needed rt e m.
Proof. reflexivity. Qed.

(** C1 (amended): a call of [_get_proxy] on a non-empty pool first refreshes
    the pool when a URL refresh is due.  When the refresh leaves the pool
    empty the call returns [None].  Otherwise it returns a member of the
    pool.  When some pool entry is eligible (not marked failed, or marked
    with a failure older than the cooldown), the proxy returned is an
    eligible one, and the failure map after the call is the map before it
    without the expired entries: nothing else is forgotten.  When every pool
    entry is marked failed and still cooling, the failure map is emptied. *)
Theorem get_proxy_never_starves e m :
  proxies m <> [] ->
  exists m1, refresh_proxies_if_needed rt e m = Ok m1 /\
    (proxy_source_type m <> "url" -> m1 = m) /\
    (proxies m1 = [] -> exists m', get_proxy rt e m = Ok (None, m')) /\
    (proxies m1 <> [] ->
       exists p m', get_proxy rt e m = Ok (Some p, m') /\
         p ∈ proxies m1 /\ proxies m' = proxies m1 /\
         ((exists q, q ∈ proxies m1 /\ cooling (clock_clear e) m q = false) ->
            cooling (clock_clear e) m p = false /\
            failed_proxies m' !! p = None /\
            forall q, failed_proxies m' !! q =
              if cooling (clock_clear e) m q then failed_proxies m !! q else None) /\
         ((forall q, q ∈ proxies m1 -> cooling (clock_clear e) m q = true) ->
            failed_proxies m' = ∅)).
Proof.
  intros Hpool.
  destruct (get_proxy_cases e m Hpool) as (m1 & Hm1 & Hf & Ht & Hnil & Hne).
  exists m1. split_and!; [done| | |].
  - intros Hsrc. rewrite (refresh_not_url e m Hsrc) in Hm1. by simplify_eq.
  - intros H. destruct (Hnil H) as (m' & ? & _). eauto.
  - intros H. destruct (Hne H) as (p & m' & Hget & Hp & Hps' & Hpok & Hsome & Hnone).
    rewrite available_eligible, (eligible_ext _ m m1) in Hsome, Hnone by done.
    exists p, m'. split_and!; [done..| |].
    + intros (q & Hq & Hqok).
      assert (eligible (clock_clear e) m (proxies m1) <> []) as Hav.
      { apply (elem_of_not_nil q). by apply elem_of_eligible. }
      assert (forall x, failed_proxies m' !! x =
                if cooling (clock_clear e) m x then failed_proxies m !! x else None) as Hmap.
      { intros x. by rewrite (Hsome Hav), clear_expired_cooling, (cooling_ext _ m m1), Hf. }
      split_and!; [|done..].
      destruct (cooling (clock_clear e) m p) eqn:Hcp; [|done].
      destruct (cooling_marked _ _ _ Hcp) as [t Hpt].
      rewrite Hmap, Hcp, Hpt in Hpok. done.
    + intros Hall. apply Hnone.
      destruct (eligible (clock_clear e) m (proxies m1)) as [|a l] eqn:Hav; [done|].
      assert (a ∈ eligible (clock_clear e) m (proxies m1)) as Ha by (rewrite Hav; left).
      apply elem_of_eligible in Ha as [Hfree Ha]. by rewrite (Hall a Ha) in Hfree.
Qed.

(** C3 (amended): with a cooldown that is not 0, a call of [_get_proxy] on a
    non-empty pool made when more than the cooldown has passed since the
    failure of [p] no longer excludes [p].  The proxy is not marked failed
    when the call returns.  When [p] is in the pool the call selects from,
    it is among the eligible entries: in random mode the call returns the
    eligible entry the draw picks, so that some draw returns [p]; in
    sequential mode the call returns [p] when it stands at the rotation
    index. *)
Theorem expired_failure_is_cleared e m p t :
  proxies m <> [] ->
  fail_timeout m <> 0%Z ->
  failed_proxies m !! p = Some t ->
  (fail_timeout m < clock_clear e - t)%Z ->
  exists m1, refresh_proxies_if_needed rt e m = Ok m1 /\
    (exists r m', get_proxy rt e m = Ok (r, m') /\ failed_proxies m' !! p = None) /\
    (p ∈ proxies m1 ->
       p ∈ eligible (clock_clear e) m (proxies m1) /\
       (mode m <> "sequential" ->
          (exists m', get_proxy rt e m
             = Ok (eligible (clock_clear e) m (proxies m1)
                     !! (choice e mod length (eligible (clock_clear e) m (proxies m1))), m')) /\
          (exists draw m', get_proxy rt (with_choice draw e) m = Ok (Some p, m'))) /\
       (mode m = "sequential" -> PyStr.truthy p = true ->
        rotate (proxy_index m1) (proxies m1) !! 0 = Some p ->
        exists m', get_proxy rt e m = Ok (Some p, m'))).
Proof.
  intros Hpool Hcool Hp Hlt.
  assert (cooling (clock_clear e) m p = false) as Hfree.
  { unfold cooling. rewrite Hp. apply Z.eqb_neq in Hcool. rewrite Hcool.
    by rewrite bool_decide_eq_true_2. }
  destruct (get_proxy_cases e m Hpool) as (m1 & Hm1 & Hf & Ht & Hnil & Hne).
  exists m1. split_and!; [done| |].
  - assert (failed_proxies (clear_expired_failures (clock_clear e) m1) !! p = None) as Hclr.
    { by rewrite clear_expired_cooling, (cooling_ext _ m m1), Hfree. }
    destruct (decide (proxies m1 = [])) as [Hm1nil|Hm1ne].
    + destruct (Hnil Hm1nil) as (m' & Hget & Hempty).
      exists None, m'. split; [done|]. by rewrite Hempty.
    + destruct (Hne Hm1ne) as (q & m' & Hget & _ & _ & _ & Hsome & Hnone).
      exists (Some q), m'. split; [done|].
      destruct (decide (available_proxies (clear_expired_failures (clock_clear e) m1) = []))
        as [Hav|Hav].
      * by rewrite (Hnone Hav).
      * by rewrite (Hsome Hav).
  - intros Hin.
    assert (p ∈ eligible (clock_clear e) m (proxies m1)) as Hel by by apply elem_of_eligible.
    assert (eligible (clock_clear e) m (proxies m1) <> []) as Hav
      by by apply (elem_of_not_nil p).
    split_and!; [done| |].
    + intros Hmode. split.
      * eexists. by apply get_proxy_random.
      * apply list_elem_of_lookup_1 in Hel as [i Hi].
        pose proof (lookup_lt_Some _ _ _ Hi) as Hlen.
        exists i. eexists.
        rewrite (get_proxy_random (with_choice i e) m m1) by done.
        cbn [choice with_choice clock_clear]. by rewrite Nat.mod_small, Hi.
    + intros Hmode Htruthy Hhead. by apply (get_proxy_sequential_head e m m1).
Qed.

(** C9: when the source is a URL and the fetch of the remote list ends in a
    request error, [_load_proxies] returns with the error logged (after the
    entry that announced the fetch) and nothing else changed: the pool is
    the one before the call. *)
Theorem load_proxies_fetch_failure_keeps_pool e m msg :
  proxy_source_type m = "url" ->
  PyStr.truthy_opt (proxy_url_setting m) = true ->
  requests_available rt = true ->
  fetch e = FetchRequestException msg ->
  exists m', load_proxies rt e m = Ok m' /\
    proxies m' = proxies m /\ proxy_index m' = proxy_index m /\
    failed_proxies m' = failed_proxies m /\ last_refresh_time m' = last_refresh_time m /\
    enabled m' = enabled m /\
    log m' = log m ++
      [(INFO, "Fetching proxies from URL: " +:+ opt_text (proxy_url_setting m));
       (ERROR, "Failed to fetch proxies from URL "
               +:+ opt_text (proxy_url_setting m) +:+ ": " +:+ msg)].
Proof.
  intros Hsrc Hurl Hreq Hfetch.
  unfold load_proxies, read_source. rewrite Hsrc, Hurl, Hreq, Hfetch.
  cbn [String.eqb Ascii.eqb Bool.eqb andb negb].
  eexists. split; [reflexivity|]. destruct m. cbn. split_and!; try done.
  by rewrite <-app_assoc.
Qed.

(** C10 (amended): [process_response] returns the response it was given and
    leaves every attribute of the middleware other than the failure map (and
    the log) as it was.  The failure map gets the proxy assigned to the
    request, stamped with the clock reading, exactly when the middleware is
    enabled, the status is one of the failure codes and the request carries a
    non-empty assigned proxy; otherwise it does not change. *)
Theorem process_response_frame e req resp m :
  (process_response e req resp m).1 = resp /\
  (let m' := (process_response e req resp m).2 in
   enabled m' = enabled m /\ mode m' = mode m /\ fail_codes m' = fail_codes m /\
   fail_timeout m' = fail_timeout m /\ proxy_source_type m' = proxy_source_type m /\
   proxy_list_setting m' = proxy_list_setting m /\
   proxy_file_setting m' = proxy_file_setting m /\
   proxy_url_setting m' = proxy_url_setting m /\
   url_refresh_interval m' = url_refresh_interval m /\
   proxies m' = proxies m /\ proxy_index m' = proxy_index m /\
   last_refresh_time m' = last_refresh_time m /\
   failed_proxies m' =
     match meta req !! "_proxy_rotator_current" with
     | Some p =>
         if enabled m && bool_decide (status resp ∈ fail_codes m) && PyStr.truthy p
         then <[p := clock_mark e]> (failed_proxies m)
         else failed_proxies m
     | None => failed_proxies m
     end).
Proof.
  unfold process_response, mark_failed.
  destruct (enabled m) eqn:Hen; cbn.
  - case_bool_decide; cbn.
    + destruct (meta req !! "_proxy_rotator_current") as [p|]; cbn.
      * destruct (PyStr.truthy p); cbn; by destruct m.
      * by destruct m.
    + split; [done|]. rewrite Hen. by destruct (meta req !! "_proxy_rotator_current").
  - split; [done|]. rewrite Hen. by destruct (meta req !! "_proxy_rotator_current").
Qed.


(** ** Sequential rotation *)

Lemma filter_all {A} (P : A -> Prop) `{!forall x, Decision (P x)} (l : list A) :
  Forall P l -> filter P l = l.
Proof.
  induction 1 as [|x l Hx _ IH]; [done|]. by rewrite filter_cons_True, IH.
Qed.

(** One call in sequential mode on a pool of distinct non-empty proxies, all
    available and from a source that is no URL: the entry at the rotation
    index is returned and the index moves to the next position. *)
Lemma get_proxy_sequential_step e m :
  mode m = "sequential" ->
  proxy_source_type m <> "url" ->
  NoDup (proxies m) ->
  Forall (fun p => PyStr.truthy p = true) (proxies m) ->
  (forall p, p ∈ proxies m -> failed_proxies m !! p = None) ->
  proxies m <> [] ->
  exists m',
    get_proxy rt e m
      = Ok (proxies m !! (proxy_index m mod length (proxies m)), m') /\
    proxy_index m' = (proxy_index m mod length (proxies m) + 1) mod length (proxies m) /\
    proxies m' = proxies m /\ mode m' = mode m /\
    proxy_source_type m' = proxy_source_type m /\
    (forall p, p ∈ proxies m' -> failed_proxies m' !! p = None).
Proof.
  intros Hmode Hsrc Hnodup Htruthy Havail Hpool.
  set (start := proxy_index m mod length (proxies m)).
  assert (start < length (proxies m)) as Hstart.
  { apply Nat.mod_upper_bound. by destruct (proxies m). }
  destruct (lookup_lt_is_Some_2 _ _ Hstart) as [x Hx].
  set (m2 := clear_expired_failures (clock_clear e) m).
  destruct (clear_expired_fields (clock_clear e) m) as (Hps2 & Hidx2 & Hmode2 & Hsrc2 & _).
  fold m2 in Hps2, Hidx2, Hmode2, Hsrc2.
  assert (forall p, p ∈ proxies m -> failed_proxies m2 !! p = None) as Havail2.
  { intros p Hp. unfold m2. rewrite clear_expired_lookup. by rewrite (Havail p Hp). }
  assert (available_proxies m2 = proxies m) as Hav.
  { unfold available_proxies. rewrite Hps2. apply filter_all, Forall_forall.
    intros p Hp. unfold not_failed. apply bool_decide_eq_true. by apply Havail2. }
  assert (sequential_walk m2 = Some x) as Hwalk.
  { unfold sequential_walk. rewrite candidates_rotate, Hps2, Hidx2. fold start.
    assert (list_find (fun c => not_failed m2 c = true) (rotate start (proxies m))
            = Some (0, x)) as ->; [|done].
    apply list_find_Some. split_and!.
    - rewrite lookup_rotate_r, rotate_nat_add_mod by lia.
      rewrite Nat.add_0_r. unfold start. by rewrite Nat.Div0.mod_mod.
    - unfold not_failed. apply bool_decide_eq_true, Havail2.
      by eapply list_elem_of_lookup_2.
    - intros j y _ Hj. lia. }
  assert (index_of x (proxies m2) = Ok start) as Hindex.
  { destruct (index_of_elem x (proxies m2)) as (i & Hi & Hlook).
    - rewrite Hps2. by eapply list_elem_of_lookup_2.
    - rewrite Hi. f_equal. rewrite Hps2 in Hlook. by eapply NoDup_lookup. }
  assert (PyStr.truthy x = true) as Hx_truthy.
  { eapply Forall_forall in Htruthy; [done|]. by eapply list_elem_of_lookup_2. }
  exists (set_proxy_index ((start + 1) mod length (proxies m)) m2).
  split.
  - unfold get_proxy. destruct (proxies m) as [|p0 ps0] eqn:Hps; [done|].
    rewrite (refresh_not_url e m Hsrc). cbn [mbind result_bind]. fold m2.
    rewrite Hav. unfold select_proxy. rewrite Hmode2, Hmode. cbn [String.eqb Ascii.eqb Bool.eqb].
    rewrite Hwalk, Hindex. cbn [mbind result_bind PyStr.truthy_opt].
    rewrite Hx_truthy. cbn [negb andb]. rewrite Hps2. rewrite Hx. reflexivity.
  - split_and!; [done| | | |].
    + by rewrite <-Hps2.
    + by rewrite <-Hmode2.
    + by rewrite <-Hsrc2.
    + intros p Hp. apply Havail2. by rewrite <-Hps2.
Qed.

(** X1: sequential fairness on a pool of distinct proxies: as many calls as the
    pool has entries return every entry once, in pool order from the rotation
    index on, wrapping around. *)
Lemma sequential_round_robin es m :
  mode m = "sequential" ->
  proxy_source_type m <> "url" ->
  NoDup (proxies m) ->
  Forall (fun p => PyStr.truthy p = true) (proxies m) ->
  (forall p, p ∈ proxies m -> failed_proxies m !! p = None) ->
  length es = length (proxies m) ->
  exists m', get_proxies rt es m = Ok (Some <$> rotate (proxy_index m) (proxies m), m').
Proof.
  intros Hmode Hsrc Hnodup Htruthy Havail Hlen.
  assert (forall es m, mode m = "sequential" -> proxy_source_type m <> "url" ->
            NoDup (proxies m) -> Forall (fun p => PyStr.truthy p = true) (proxies m) ->
            (forall p, p ∈ proxies m -> failed_proxies m !! p = None) ->
            proxies m <> [] ->
            exists m', get_proxies rt es m
              = Ok ((fun j => proxies m !! ((proxy_index m + j) mod length (proxies m)))
                      <$> seq 0 (length es), m')) as Hgen.
  { clear. intros es. induction es as [|e es IH]; intros m Hmode Hsrc Hnodup Htruthy Havail Hpool.
    { by exists m. }
    destruct (get_proxy_sequential_step e m) as (m1 & Hget & Hidx & Hps & Hmode1 & Hsrc1 & Hav1);
      [done..|].
    destruct (IH m1) as (m' & Hrest); rewrite ?Hps, ?Hmode1, ?Hsrc1; try done.
    { intros p Hp. apply Hav1. by rewrite Hps. }
    exists m'. cbn [get_proxies]. rewrite Hget. cbn [mbind result_bind]. rewrite Hrest.
    cbn [mbind result_bind length seq fmap list_fmap]. do 2 f_equal.
    f_equal; [by rewrite Nat.add_0_r|].
    rewrite <-fmap_S_seq, <-list_fmap_compose. apply list_fmap_ext.
    intros _ j _. cbn. rewrite Hps, Hidx. f_equal.
    rewrite Nat.Div0.add_mod_idemp_l, <-Nat.add_assoc, Nat.Div0.add_mod_idemp_l.
    done. }
  destruct (decide (proxies m = [])) as [Hnil|Hne].
  { rewrite Hnil in *. destruct es; [|done]. exists m.
    unfold rotate. by rewrite drop_nil, take_nil. }
  destruct (Hgen es m) as (m' & Hm'); [done..|].
  exists m'. rewrite Hm'. do 2 f_equal.
  rewrite Hlen, <-candidates_rotate. unfold candidates.
  generalize (seq 0 (length (proxies m))). intros l.
  induction l as [|j l IH]; [done|]. cbn.
  destruct (lookup_lt_is_Some_2 (proxies m) ((proxy_index m + j) mod length (proxies m))) as [x Hx].
  { apply Nat.mod_upper_bound. by destruct (proxies m). }
  rewrite Hx. cbn. by rewrite IH.
Qed.

End ProxyRotatorProofs.

Section ProxyRotatorCases.

Import ProxyRotator Scenarios.

(** ** The claims on concrete inputs *)

(** [proxy_a] failed at time 0 and is cooling at time 10; [proxy_b] is free. *)
Lemma get_proxy_never_starves_witness :
  proxies cooldown_rotator <> [] /\
  cooling (clock_clear (env_at 10)) cooldown_rotator proxy_a = true /\
  cooling (clock_clear (env_at 10)) cooldown_rotator proxy_b = false /\
  exists m1, refresh_proxies_if_needed rt_plain (env_at 10) cooldown_rotator = Ok m1 /\
    (proxy_source_type cooldown_rotator <> "url" -> m1 = cooldown_rotator) /\
    (proxies m1 = [] ->
       exists m', get_proxy rt_plain (env_at 10) cooldown_rotator = Ok (None, m')) /\
    (proxies m1 <> [] ->
       exists p m', get_proxy rt_plain (env_at 10) cooldown_rotator = Ok (Some p, m') /\
         p ∈ proxies m1 /\ proxies m' = proxies m1 /\
         ((exists q, q ∈ proxies m1 /\
                     cooling (clock_clear (env_at 10)) cooldown_rotator q = false) ->
            cooling (clock_clear (env_at 10)) cooldown_rotator p = false /\
            failed_proxies m' !! p = None /\
            forall q, failed_proxies m' !! q =
              if cooling (clock_clear (env_at 10)) cooldown_rotator q
              then failed_proxies cooldown_rotator !! q else None) /\
         ((forall q, q ∈ proxies m1 ->
             cooling (clock_clear (env_at 10)) cooldown_rotator q = true) ->
            failed_proxies m' = ∅)).
Proof.
  split; [done|]. split; [by vm_compute|]. split; [by vm_compute|].
  apply (get_proxy_never_starves rt_plain (env_at 10) cooldown_rotator). done.
Defined.

(** C1 as stated fails in two ways.  When the source is a URL: the pool
    holds a proxy that is not marked failed, the refresh that is due finds
    the remote list empty, and the call returns [None] with the pool emptied.
    When every pool entry is marked failed and one of the failures has
    expired: the call returns the expired entry and the failure map is not
    emptied, the entry still cooling stays in it. *)
Lemma get_proxy_none_after_refresh :
  (proxies url_rotator = [proxy_a] /\
   failed_proxies url_rotator !! proxy_a = None /\
   exists m', get_proxy rt_plain (env_at 5000) url_rotator = Ok (None, m') /\ proxies m' = []) /\
  (proxies half_expired_rotator = [proxy_a; proxy_b] /\
   failed_proxies half_expired_rotator !! proxy_a = Some 0%Z /\
   failed_proxies half_expired_rotator !! proxy_b = Some 900%Z /\
   exists m', get_proxy rt_plain (env_at 1000) half_expired_rotator = Ok (Some proxy_a, m') /\
     failed_proxies m' !! proxy_b = Some 900%Z).
Proof.
  split.
  - split; [done|]. split; [done|]. eexists. split; [vm_compute; reflexivity|done].
  - split; [done|]. split; [by vm_compute|]. split; [by vm_compute|].
    eexists. split; vm_compute; reflexivity.
Qed.

(** C2, on a pool that lists a proxy twice: in sequential mode every call
    returns the repeated proxy, however many calls are made; the entry after
    it is never returned. *)
Theorem sequential_rotation_stuck_on_duplicate e es :
  get_proxies rt_plain (e :: es) duplicate_rotator
    = Ok (replicate (S (length es)) (Some proxy_a), set_proxy_index 1 duplicate_rotator).
Proof.
  assert (forall e m, m = duplicate_rotator \/ m = set_proxy_index 1 duplicate_rotator ->
            get_proxy rt_plain e m = Ok (Some proxy_a, set_proxy_index 1 duplicate_rotator))
    as Hstep.
  { intros e0 m [-> | ->]; vm_compute; reflexivity. }
  assert (forall es, get_proxies rt_plain es (set_proxy_index 1 duplicate_rotator)
            = Ok (replicate (length es) (Some proxy_a), set_proxy_index 1 duplicate_rotator))
    as Hrest.
  { intros es0. induction es0 as [|e0 es0 IH]; [done|].
    cbn [get_proxies]. rewrite (Hstep e0) by auto. cbn [mbind result_bind].
    rewrite IH. done. }
  cbn [get_proxies]. rewrite (Hstep e) by auto. cbn [mbind result_bind].
  rewrite Hrest. done.
Qed.

Lemma expired_failure_is_cleared_witness :
  proxies cooldown_rotator <> [] /\
  fail_timeout cooldown_rotator <> 0%Z /\
  failed_proxies cooldown_rotator !! proxy_a = Some 0%Z /\
  (fail_timeout cooldown_rotator < clock_clear (env_at 1000) - 0)%Z /\
  exists m1, refresh_proxies_if_needed rt_plain (env_at 1000) cooldown_rotator = Ok m1 /\
    (exists r m', get_proxy rt_plain (env_at 1000) cooldown_rotator = Ok (r, m') /\
                  failed_proxies m' !! proxy_a = None) /\
    (proxy_a ∈ proxies m1 ->
       proxy_a ∈ eligible (clock_clear (env_at 1000)) cooldown_rotator (proxies m1) /\
       (mode cooldown_rotator <> "sequential" ->
          (exists m', get_proxy rt_plain (env_at 1000) cooldown_rotator
             = Ok (eligible (clock_clear (env_at 1000)) cooldown_rotator (proxies m1)
                     !! (choice (env_at 1000)
                           mod length (eligible (clock_clear (env_at 1000)) cooldown_rotator
                                         (proxies m1))), m')) /\
          (exists draw m', get_proxy rt_plain (with_choice draw (env_at 1000)) cooldown_rotator
                             = Ok (Some proxy_a, m'))) /\
       (mode cooldown_rotator = "sequential" -> PyStr.truthy proxy_a = true ->
        rotate (proxy_index m1) (proxies m1) !! 0 = Some proxy_a ->
        exists m', get_proxy rt_plain (env_at 1000) cooldown_rotator = Ok (Some proxy_a, m'))).
Proof.
  assert (proxies cooldown_rotator <> []) as H1 by done.
  assert (fail_timeout cooldown_rotator <> 0%Z) as H2 by done.
  assert (failed_proxies cooldown_rotator !! proxy_a = Some 0%Z) as H3 by (vm_compute; reflexivity).
  assert (fail_timeout cooldown_rotator < clock_clear (env_at 1000) - 0)%Z as H4 by (vm_compute; reflexivity).
  split_and!; [done..|].
  exact (expired_failure_is_cleared rt_plain (env_at 1000) cooldown_rotator proxy_a 0%Z H1 H2 H3 H4).
Defined.

(** C3 as stated fails for a cooldown of 0: the failure of [proxy_a] at time
    0 is never cleared, and at time 1000 the proxy is still left out. *)
Lemma zero_cooldown_never_expires :
  fail_timeout no_cooldown_rotator = 0%Z /\
  failed_proxies no_cooldown_rotator !! proxy_a = Some 0%Z /\
  (0 + fail_timeout no_cooldown_rotator < clock_clear (env_at 1000))%Z /\
  available_proxies (clear_expired_failures (clock_clear (env_at 1000)) no_cooldown_rotator)
    = [proxy_b] /\
  exists m', get_proxy rt_plain (env_at 1000) no_cooldown_rotator = Ok (Some proxy_b, m') /\
    failed_proxies m' !! proxy_a = Some 0%Z.
Proof.
  split_and!; try (vm_compute; reflexivity).
  eexists. split; vm_compute; reflexivity.
Qed.

Lemma load_proxies_fetch_failure_witness :
  proxy_source_type url_rotator = "url" /\
  PyStr.truthy_opt (proxy_url_setting url_rotator) = true /\
  requests_available rt_plain = true /\
  fetch (env_fetch_error 5000) = FetchRequestException "timed out" /\
  exists m', load_proxies rt_plain (env_fetch_error 5000) url_rotator = Ok m' /\
    proxies m' = proxies url_rotator /\ proxy_index m' = proxy_index url_rotator /\
    failed_proxies m' = failed_proxies url_rotator /\
    last_refresh_time m' = last_refresh_time url_rotator /\
    enabled m' = enabled url_rotator /\
    log m' = log url_rotator ++
      [(INFO, "Fetching proxies from URL: " +:+ opt_text (proxy_url_setting url_rotator));
       (ERROR, "Failed to fetch proxies from URL "
               +:+ opt_text (proxy_url_setting url_rotator) +:+ ": " +:+ "timed out")].
Proof.
  split_and!; [done..|].
  exact (load_proxies_fetch_failure_keeps_pool rt_plain (env_fetch_error 5000)
           url_rotator "timed out" eq_refl eq_refl eq_refl eq_refl).
Defined.

(** C10 as stated fails for a middleware that is switched off: the status is
    a failure code and the request carries its assigned proxy, yet the proxy
    is not added to the failure map. *)
Lemma disabled_middleware_marks_nothing :
  status response_503 ∈ fail_codes disabled_rotator /\
  meta (request_via proxy_a) !! "_proxy_rotator_current" = Some proxy_a /\
  failed_proxies
    (process_response (env_at 10) (request_via proxy_a) response_503 disabled_rotator).2
    !! proxy_a = None.
Proof.
  split_and!.
  - apply (bool_decide_unpack _). by vm_compute.
  - by vm_compute.
  - by vm_compute.
Qed.

End ProxyRotatorCases.

(** * Properties of the project file API *)

Section FileApiProofs.

Import FileApi Scenarios.

(** X14: a file or a listing is answered only for a project with a base directory
    and a requested path whose text starts with the text of the resolved base
    directory: this is the whole of the check, a comparison of strings. *)
Lemma served_path_has_string_prefix root cwd projects project_name sub_path :
  match list_or_get_file root cwd projects project_name sub_path with
  | FileBody _ _ | JsonListing _ _ =>
      exists project_dir base,
        projects !! project_name = Some project_dir /\
        base_project_path root cwd project_dir project_name = Some base /\
        PyStr.startswith (path_str (resolved_path (resolve cwd base)))
          (path_str (resolved_path (requested_path cwd base sub_path))) = true
  | _ => True
  end.
Proof.
  unfold list_or_get_file.
  destruct (projects !! project_name) as [project_dir|] eqn:Hproj; [|done].
  destruct (base_project_path root cwd project_dir project_name) as [base|] eqn:Hbase; [|done].
  destruct (PyStr.startswith _ _) eqn:Hprefix; [|done]. cbn [negb].
  destruct (lookup root (requested_path cwd base sub_path)) as [[[content|]|entries|]|];
    try done.
  - by exists project_dir, base.
  - destruct (list_items _ _ _); [|done]. by exists project_dir, base.
Qed.

(** A request that climbs out of the project to an unrelated directory is
    refused. *)
Example unrelated_path_is_refused :
  list_or_get_file shop_fs [] shop_projects "shop" "../../../etc/passwd" = Abort 403.
Proof. by vm_compute. Qed.

(** C4, on a project whose directory holds a file beside the module directory
    with a name that starts with the module directory's name: the requested
    path resolves to /srv/shop/shop_secrets.env, which is not inside the base
    directory /srv/shop/shop, and its content is sent. *)
Theorem file_outside_base_is_served :
  base_project_path shop_fs [] "/srv/shop" "shop" = Some (resolved_path shop_base) /\
  requested_path [] (resolved_path shop_base) "../shop_secrets.env"
    = ["srv"; "shop"; "shop_secrets.env"] /\
  ~ inside shop_base ["srv"; "shop"; "shop_secrets.env"] /\
  list_or_get_file shop_fs [] shop_projects "shop" "../shop_secrets.env"
    = FileBody "text/plain; charset=utf-8" "API_KEY=k" /\
  list_or_get_file shop_fs [] shop_projects "shop" "../shop_old/settings.py"
    = FileBody "text/x-python; charset=utf-8" "BOT_NAME = 'old'".
Proof.
  split_and!; try by vm_compute.
  intros [k Hk]. by simplify_eq.
Qed.

End FileApiProofs.

(** * Properties of the log analyzer *)

Section LogAnalyzerProofs.

Import Py LogAnalyzer.

Variable lib : pylib.

(** ** What stripping leaves at the start of a string *)

Lemma lstrip_with_head f s c r :
  PyStr.lstrip_with f s = String c r -> f c = false.
Proof.
  induction s as [|d s IH]; cbn; [done|].
  destruct (f d) eqn:Hd; [done|]. intros H. by simplify_eq.
Qed.

Lemma rstrip_with_head f s c r :
  PyStr.rstrip_with f s = String c r -> exists r', s = String c r'.
Proof.
  destruct s as [|d s]; cbn; [done|].
  destruct (PyStr.rstrip_with f s).
  - destruct (f d); [done|]. intros H. simplify_eq. eauto.
  - intros H. simplify_eq. eauto.
Qed.

Lemma strip_with_head f s c r :
  PyStr.strip_with f s = String c r -> f c = false.
Proof.
  unfold PyStr.strip_with. intros H.
  apply rstrip_with_head in H as [r' H]. by eapply lstrip_with_head.
Qed.

(** The key of a stats line never starts with a quote. *)
Lemma stat_key_head part c r : stat_key part = String c r -> c <> "'"%char.
Proof.
  unfold stat_key, PyStr.strip_chars. intros H%strip_with_head ->. done.
Qed.

Lemma eat_other_head a lit c r : c <> a -> eat (String a lit) (String c r) = None.
Proof.
  intros Hne. cbn [eat]. destruct (Ascii.eqb_spec a c) as [->|_]; done.
Qed.

(** REGEX_RESPONSE_STATUS starts with a quote: it matches no key. *)
Lemma match_response_status_key part : match_response_status (stat_key part) = None.
Proof.
  unfold match_response_status.
  destruct (stat_key part) as [|c r] eqn:Hkey; [done|].
  apply stat_key_head in Hkey. by rewrite eat_other_head.
Qed.

(** ** The status counts stay empty *)

Lemma parse_stat_line_status_codes line a a' :
  parse_stat_line lib line a = Ok a' -> status_codes a' = status_codes a.
Proof.
  unfold parse_stat_line.
  destruct (PyStr.split ": " line) as [|p0 [|p1 [|p2 rest]]]; try (intros; by simplify_eq).
  rewrite match_response_status_key.
  destruct (json_loads lib (stat_value_str p1)); cbn; intros; by simplify_eq.
Qed.

Lemma parse_first_stat_line_status_codes line a :
  status_codes (parse_first_stat_line lib line a) = status_codes a.
Proof.
  unfold parse_first_stat_line.
  by destruct (PyStr.split ": " line) as [|p0 [|p1 [|p2 rest]]].
Qed.

Lemma step_status_codes raw_line a a' :
  step lib raw_line a = Ok a' -> status_codes a' = status_codes a.
Proof.
  unfold step. set (line := PyStr.strip raw_line).
  destruct (PyStr.truthy line); cbn [negb]; [|intros; by simplify_eq].
  destruct (match_level "ERROR" line); [intros; by simplify_eq|].
  destruct (match_level "WARNING" line); [intros; by simplify_eq|].
  set (a1 := if String.eqb line "}" then _ else _).
  assert (status_codes a1 = status_codes a) as Ha1.
  { unfold a1. by destruct (String.eqb line "}"). }
  destruct (in_stats_dump a1).
  - destruct (parse_stat_line lib line a1) as [a2|] eqn:Hparse; cbn; [|done].
    apply parse_stat_line_status_codes in Hparse.
    destruct (PyStr.contains _ line); intros; simplify_eq;
      rewrite ?parse_first_stat_line_status_codes; congruence.
  - cbn. destruct (PyStr.contains _ line); intros; simplify_eq;
      rewrite ?parse_first_stat_line_status_codes; congruence.
Qed.

Lemma scan_status_codes lines a a' :
  scan lib lines a = Ok a' -> status_codes a' = status_codes a.
Proof.
  revert a. induction lines as [|l rest IH]; intros a; cbn; [intros; by simplify_eq|].
  destruct (step lib l a) as [a1|] eqn:Hstep; cbn; [|done].
  intros H. apply IH in H. apply step_status_codes in Hstep. congruence.
Qed.

(** ** The success rate *)

Lemma success_codes_empty : success_codes ∅ = 0%Z.
Proof. unfold success_codes, sum_values. by rewrite map_filter_empty, map_fold_empty. Qed.

Lemma summarize_no_status_codes a s :
  status_codes a = ∅ -> summarize a = Ok s -> (http_success_rate s == 0)%Q.
Proof.
  intros Hempty. unfold summarize. rewrite Hempty, success_codes_empty.
  destruct (gt (default (PyFloat 0) (raw_stats a !! "elapsed_time_seconds")) 0)
    as [timed|]; cbn; [|done].
  destruct (if timed then _ else _) as [[avg_req avg_item]|]; cbn; [|done].
  destruct (gt (default (PyInt 0) (raw_stats a !! "downloader/response_count")) 0)
    as [responded|]; cbn; [|done].
  destruct responded; cbn.
  - unfold div. cbn.
    destruct (number _) as [y|]; cbn; [|done].
    intros H. simplify_eq. cbn. unfold Qeq. cbn. lia.
  - intros H. by simplify_eq.
Qed.

(** X18: whatever the log holds, and whatever [json.loads] makes of the values:
    when the analysis returns, no status count has been recorded and the
    success rate is 0. *)
Lemma status_codes_never_recorded f r :
  analyze_log_file lib f = Ok r ->
  res_status_codes r = ∅ /\ (http_success_rate (res_summary r) == 0)%Q.
Proof.
  unfold analyze_log_file. destruct f as [| |lines]; [done..|].
  destruct (scan lib lines init) as [a|] eqn:Hscan; cbn; [|done].
  destruct (summarize a) as [s|] eqn:Hsum; cbn; [|done].
  intros H. simplify_eq. cbn.
  apply scan_status_codes in Hscan. cbn in Hscan.
  split; [done|]. by eapply summarize_no_status_codes.
Qed.

(** X19: the guard against a division by zero: with no response counted the
    success rate is 0, and with no time elapsed both per-second rates are 0. *)
Lemma summarize_zero_guards a s :
  summarize a = Ok s ->
  (gt (total_responses s) 0 = Ok false -> http_success_rate s = 0%Q) /\
  (gt (elapsed_seconds s) 0 = Ok false ->
   avg_req_per_sec s = 0%Q /\ avg_item_per_sec s = 0%Q).
Proof.
  unfold summarize.
  destruct (gt (default (PyFloat 0) _) 0) as [timed|] eqn:Htimed; cbn; [|done].
  destruct (if timed then _ else _) as [[avg_req avg_item]|] eqn:Havg; cbn; [|done].
  destruct (gt (default (PyInt 0) (raw_stats a !! "downloader/response_count")) 0)
    as [responded|] eqn:Hresp; cbn; [|done].
  destruct (if responded then _ else _) as [rate|] eqn:Hrate; cbn; [|done].
  intros H. simplify_eq. cbn. split.
  - rewrite Hresp. intros H. simplify_eq. by simplify_eq.
  - rewrite Htimed. intros H. simplify_eq. by simplify_eq.
Qed.

End LogAnalyzerProofs.

Section LogAnalyzerCases.

Import Py LogAnalyzer Scenarios.

(** C5, on a stats dump with 100 responses of which 80 have status 200: the
    analysis returns, both values are read into the raw stats, no status count
    is recorded, and the success rate is 0, not 80. *)
Theorem success_rate_of_80_in_100_is_zero :
  match analyze_log_file lib_decimal (LogLines stats_dump_80_of_100) with
  | Ok r =>
      res_raw_stats r !! "downloader/response_status_count/200" = Some (PyInt 80) /\
      res_raw_stats r !! "downloader/response_count" = Some (PyInt 100) /\
      res_status_codes r = ∅ /\
      (http_success_rate (res_summary r) == 0)%Q /\
      ~ (http_success_rate (res_summary r) == 80)%Q
  | Raise _ => False
  end.
Proof.
  vm_compute. split_and!; try reflexivity. intros H; discriminate H.
Qed.

End LogAnalyzerCases.

(** * Properties of the settings advisor *)

Section SettingsAdvisorProofs.

Import Py SettingsAdvisor.

Context {expr : Type} (lib : astlib expr).

(** ** The walk *)

Lemma size_children (n : node expr) : size n = S (list_sum (map size (children n))).
Proof. by destruct n. Qed.

Lemma walk_queue_length fuel (todo : list (node expr)) :
  fuel <= list_sum (map size todo) -> length (walk_queue fuel todo) = fuel.
Proof.
  revert todo. induction fuel as [|fuel IH]; intros todo Hfuel; [done|].
  destruct todo as [|n rest]; [cbn in Hfuel; lia|].
  cbn [walk_queue length]. f_equal. apply IH.
  rewrite map_app, list_sum_app.
  rewrite map_cons, size_children in Hfuel.
  unfold list_sum in *. cbn [fold_right] in Hfuel. lia.
Qed.

(** [walk] yields as many nodes as the tree has: its steps are enough to
    empty the queue. *)
Lemma walk_length (tree : node expr) : length (walk tree) = size tree.
Proof.
  unfold walk. apply walk_queue_length.
  cbn [map]. unfold list_sum. cbn [fold_right]. lia.
Qed.

(** ** The assignments found *)

Lemma record_targets_lookup (value : expr) lineno targets found name :
  record_targets value lineno targets found !! name =
    if existsb (stores name) targets then Some (value, lineno) else found !! name.
Proof.
  unfold record_targets. revert found.
  induction targets as [|t targets IH]; intros found; cbn; [done|].
  rewrite IH. destruct (existsb (stores name) targets).
  - by rewrite orb_true_r.
  - rewrite orb_false_r. destruct t as [id [|]|]; cbn; try done.
    + destruct (String.eqb_spec id name) as [->|Hne]; cbn.
      * by rewrite lookup_insert_eq.
      * by rewrite lookup_insert_ne.
    + by rewrite andb_false_r.
Qed.

Lemma record_node_lookup (found : gmap string (expr * nat)) n name :
  record_node found n !! name =
    match assignment_to name n with
    | Some x => Some x
    | None => found !! name
    end.
Proof.
  destruct n as [targets value lineno|cs]; cbn; [|done].
  rewrite record_targets_lookup. by destruct (existsb (stores name) targets).
Qed.

(** The dictionary keeps, for every name, the assignment the walk yields
    last. *)
Lemma settings_found_lookup (nodes : list (node expr)) name :
  settings_found nodes !! name = last_assignment name nodes.
Proof.
  unfold settings_found, last_assignment.
  assert (forall found : gmap string (expr * nat),
            fold_left record_node nodes found !! name =
              match last (omap (assignment_to name) nodes) with
              | Some x => Some x
              | None => found !! name
              end) as Hgen.
  { induction nodes as [|n nodes IH]; intros found; cbn; [done|].
    rewrite IH, record_node_lookup.
    destruct (assignment_to name n) as [x|]; [|done].
    destruct (omap (assignment_to name) nodes) as [|y l] eqn:Hrest; [done|].
    rewrite !last_cons. by destruct (last l). }
  rewrite Hgen. rewrite lookup_empty. by destruct (last _).
Qed.

(** ** The checks and the warnings *)

Lemma check_user_agent_returns found content file project_name r :
  regex_literal project_name = true ->
  exists r', check_user_agent lib found content file project_name r = Ok r' /\
    warnings r' = warnings r /\
    (info r' = info r \/ exists ln, info r' = info r ++ [ua_custom_info file ln]).
Proof.
  intros Hlit. unfold check_user_agent, search_default_ua. rewrite Hlit.
  destruct (found !! "USER_AGENT") as [[e ln]|].
  - destruct (get_node_value lib e) as [| | | |s|];
      try (eexists; split_and!; [done..|right; by eexists]).
    destruct (PyStr.contains project_name s);
      eexists; split_and!; try done; [by left|right; by eexists].
  - cbn. destruct (_ || _); eexists; split_and!; try done; by left.
Qed.

Lemma number_comparisons v k :
  is_number v = true -> exists b c, gt v k = Ok b /\ lt v k = Ok c.
Proof.
  unfold is_number, gt, lt. destruct (number v); [eauto|done].
Qed.

Lemma check_throttle_returns found file r :
  throttle_comparable lib found = true ->
  exists r', check_throttle lib found file r = Ok r' /\
    warnings r' = warnings r /\
    (info r' = info r \/ info r' = info r ++ [autothrottle_info found file]).
Proof.
  unfold throttle_comparable, check_throttle.
  destruct (autothrottle_enabled lib found); cbn [negb orb].
  { intros _. eexists. split_and!; [done..|by right]. }
  intros [[Hdelay Hdom]%andb_prop Hip]%andb_prop.
  destruct (number_comparisons _ 8 Hdom) as (bd & ? & Hd & _).
  destruct (number_comparisons _ 8 Hip) as (bi & ? & Hi & _).
  assert (exists low, (if is_none (setting_value lib found "DOWNLOAD_DELAY" (PyInt 0))
                       then Ok true
                       else lt (setting_value lib found "DOWNLOAD_DELAY" (PyInt 0)) (1 # 2))
                      = Ok low) as [low Hlow].
  { destruct (is_none _); [eauto|]. cbn in Hdelay.
    destruct (number_comparisons _ (1 # 2) Hdelay) as (? & c & _ & Hc). eauto. }
  rewrite Hlow, Hd. cbn [mbind result_bind].
  destruct bd; cbn [mbind result_bind]; [|rewrite Hi; cbn [mbind result_bind]; destruct bi];
    destruct low; eexists; split_and!; try done; by left.
Qed.

Lemma check_cache_warnings found file r :
  warnings (check_cache lib found file r) = warnings r.
Proof.
  unfold check_cache. destruct (found !! "HTTPCACHE_ENABLED") as [[e ln]|]; [|done].
  by destruct (is_false _).
Qed.

Lemma check_extensions_warnings content file r :
  warnings (check_extensions content file r) = warnings r.
Proof.
  unfold check_extensions. by repeat destruct (PyStr.contains _ content).
Qed.

(** With literal text for a project name and comparable throttle settings
    the checks return, and the only warning they can add is the one about
    ROBOTSTXT_OBEY. *)
Lemma perform_checks_returns found content file project_name r :
  regex_literal project_name = true ->
  throttle_comparable lib found = true ->
  exists r', perform_checks lib found content file project_name r = Ok r' /\
    warnings r' = warnings (check_robots lib found content file r).
Proof.
  intros Hlit Hcmp. unfold perform_checks.
  destruct (check_user_agent_returns found content file project_name
              (check_robots lib found content file r) Hlit) as (r2 & -> & Hw2 & _).
  destruct (check_throttle_returns found file r2 Hcmp) as (r3 & Hr3 & Hw3 & _).
  cbn [mbind result_bind]. rewrite Hr3. cbn [mbind result_bind].
  eexists. split; [done|].
  by rewrite check_extensions_warnings, check_cache_warnings, Hw3, Hw2.
Qed.

Lemma check_user_agent_warnings found content file project_name r r' :
  check_user_agent lib found content file project_name r = Ok r' ->
  warnings r' = warnings r.
Proof.
  unfold check_user_agent.
  destruct (found !! "USER_AGENT") as [[e ln]|].
  - destruct (get_node_value lib e) as [| | | |s|]; try (intros; by simplify_eq).
    destruct (PyStr.contains project_name s); intros; by simplify_eq.
  - destruct (search_default_ua lib project_name content) as [b|]; cbn [mbind result_bind];
      [|done].
    destruct (_ || _); intros; by simplify_eq.
Qed.

Lemma check_throttle_warnings found file r r' :
  check_throttle lib found file r = Ok r' -> warnings r' = warnings r.
Proof.
  unfold check_throttle.
  destruct (autothrottle_enabled lib found); cbn [negb]; [intros; by simplify_eq|].
  destruct (if is_none _ then _ else _) as [low|]; cbn [mbind result_bind]; [|done].
  destruct (gt (setting_value lib found "CONCURRENT_REQUESTS_PER_DOMAIN" (PyInt 16)) 8)
    as [high_domain|]; cbn [mbind result_bind]; [|done].
  destruct (if high_domain then _ else _) as [high|]; cbn [mbind result_bind]; [|done].
  destruct high, low; intros; by simplify_eq.
Qed.

(** Whenever the checks return, the only warning they can have added is the
    one about ROBOTSTXT_OBEY. *)
Lemma perform_checks_warnings found content file project_name r r' :
  perform_checks lib found content file project_name r = Ok r' ->
  warnings r' = warnings (check_robots lib found content file r).
Proof.
  unfold perform_checks.
  destruct (check_user_agent _ _ _ _ _ _) as [r2|] eqn:Hua; cbn [mbind result_bind]; [|done].
  destruct (check_throttle lib found file r2) as [r3|] eqn:Hth; cbn [mbind result_bind];
    [|done].
  intros ?. simplify_eq.
  rewrite check_extensions_warnings, check_cache_warnings.
  apply check_throttle_warnings in Hth. apply check_user_agent_warnings in Hua. congruence.
Qed.

(** C6 (amended): for a source that parses, in which the assignment to
    ROBOTSTXT_OBEY that the walk over the tree yields last has the value
    False, every result [_analyze_settings] returns has exactly one warning:
    the one about ROBOTSTXT_OBEY, carrying the line of that assignment.  A
    result is returned whenever the project name is literal text in the
    user-agent pattern and the comparisons of the delay and concurrency check
    are between numbers. *)
Theorem robots_false_single_warning content tree file project_name e ln :
  ast_parse lib content = Parsed tree ->
  last_assignment "ROBOTSTXT_OBEY" (walk tree) = Some (e, ln) ->
  literal_eval lib e = Some (PyBool false) ->
  (forall r, analyze_settings lib (ReadText content) file project_name = Ok r ->
     warnings r =
       [Entry "`ROBOTSTXT_OBEY` is set to False."
          (Some "Ensure you have permission and understand the implications of ignoring robots.txt.")
          file (Some ln)
          (Some "https://docs.scrapy.org/en/latest/topics/settings.html#robotstxt-obey")]) /\
  (regex_literal project_name = true ->
   throttle_comparable lib (settings_found (walk tree)) = true ->
   exists r, analyze_settings lib (ReadText content) file project_name = Ok r).
Proof.
  intros Hparse Hlast Heval. unfold analyze_settings. rewrite Hparse. split.
  - intros r Hr. apply perform_checks_warnings in Hr. rewrite Hr.
    unfold check_robots. rewrite settings_found_lookup, Hlast.
    unfold get_node_value. by rewrite Heval.
  - intros Hlit Hcmp.
    destruct (perform_checks_returns (settings_found (walk tree)) content file project_name
                (Results [] [] [syntax_ok_info file]) Hlit Hcmp) as (r & -> & _).
    by exists r.
Qed.

Lemma check_extensions_info content file r x :
  x ∈ info (check_extensions content file r) <->
  x ∈ info r \/
  (x = playwright_info file /\ PyStr.contains "scrapy_playwright" content = true) \/
  (x = splash_info file /\ PyStr.contains "scrapy_splash" content = true) \/
  (x = redis_info file /\ PyStr.contains "scrapy_redis" content = true).
Proof.
  unfold check_extensions.
  destruct (PyStr.contains "scrapy_playwright" content),
           (PyStr.contains "scrapy_splash" content),
           (PyStr.contains "scrapy_redis" content);
    cbn; rewrite ?elem_of_app, ?list_elem_of_singleton; intuition (try done).
Qed.

(** The checks on a source without a tree: no warning is added, and the info
    entries added are the one for an unset ROBOTSTXT_OBEY and those of the
    extension markers. *)
Lemma perform_checks_without_tree content file project_name r :
  regex_literal project_name = true ->
  exists r', perform_checks lib ∅ content file project_name r = Ok r' /\
    warnings r' = warnings r /\
    forall x, x ∈ info r' <->
      x ∈ info r \/
      (x = robots_unset_info file /\ search_robots content = false) \/
      (x = playwright_info file /\ PyStr.contains "scrapy_playwright" content = true) \/
      (x = splash_info file /\ PyStr.contains "scrapy_splash" content = true) \/
      (x = redis_info file /\ PyStr.contains "scrapy_redis" content = true).
Proof.
  intros Hlit.
  unfold perform_checks, check_user_agent, search_default_ua, check_throttle,
    autothrottle_enabled, setting_value, check_cache, check_robots.
  rewrite !lookup_empty, Hlit. cbn [mbind result_bind negb is_none].
  change (lt (PyInt 0) (1 # 2)) with (Ok true).
  change (gt (PyInt 16) 8) with (Ok true).
  cbn [mbind result_bind].
  destruct (search_robots content), (_ || _); cbn [negb mbind result_bind];
    (eexists; split; [reflexivity|]; split;
     [by rewrite check_extensions_warnings
     |intros x; rewrite check_extensions_info; cbn;
      rewrite ?elem_of_app, ?list_elem_of_singleton; intuition (try done)]).
Qed.

(** X28: for a source whose parse ends in a syntax error and a project name
    that is literal text in the user-agent pattern, [_analyze_settings]
    returns a result: its only warning reports the parse error, with its line,
    its message and the text near it, and each extension marker found in the
    raw text adds its info entry. *)
Theorem syntax_error_single_warning content file project_name lineno msg text :
  ast_parse lib content = ParseSyntaxError lineno msg text ->
  regex_literal project_name = true ->
  exists r, analyze_settings lib (ReadText content) file project_name = Ok r /\
    warnings r =
      [Entry ("Syntax error (line " +:+ from_option PyStr.of_nat "None" lineno +:+ "): " +:+ msg)
         (Some ("Near: " +:+ from_option id "None" text)) file lineno None] /\
    (Entry "Playwright integration detected."
       (Some "Ensure DOWNLOAD_HANDLERS and TWISTED_REACTOR are set correctly.") file None None
       ∈ info r <-> PyStr.contains "scrapy_playwright" content = true) /\
    (Entry "Splash integration detected."
       (Some "Ensure SPLASH_URL and relevant middlewares are configured.") file None None
       ∈ info r <-> PyStr.contains "scrapy_splash" content = true) /\
    (Entry "Scrapy-Redis integration detected."
       (Some "Ensure SCHEDULER, DUPEFILTER_CLASS, and Redis connection settings are correct.")
       file None None
       ∈ info r <-> PyStr.contains "scrapy_redis" content = true).
Proof.
  intros Hparse Hlit. unfold analyze_settings. rewrite Hparse.
  destruct (perform_checks_without_tree content file project_name
              (Results [syntax_error_warning file lineno msg text] [] []) Hlit)
    as (r & -> & Hw & Hinfo).
  exists r.
  change (Entry "Playwright integration detected." _ file None None)
    with (playwright_info file).
  change (Entry "Splash integration detected." _ file None None) with (splash_info file).
  change (Entry "Scrapy-Redis integration detected." _ file None None) with (redis_info file).
  split_and!; try done; rewrite Hinfo; cbn [info];
    (split; [intros [[]%not_elem_of_nil|H]|by eauto 10]);
    destruct H as [[? _]|[[? ?]|[[? ?]|[? ?]]]]; by simplify_eq.
Qed.


(** C8 (amended): a value that is no literal is unknown ([None]).  An unknown
    ROBOTSTXT_OBEY, USER_AGENT or HTTPCACHE_ENABLED adds no warning and no
    recommendation: the check adds the info entry of a set (and not
    discouraged) setting.  An unknown AUTOTHROTTLE_ENABLED counts as not
    enabled.  An unknown DOWNLOAD_DELAY is reported as a low delay, at its
    line, whenever AutoThrottle is not enabled and the two concurrency limits
    are numbers: the check then returns, with that recommendation added. *)
Theorem non_literal_value_is_unknown found content file project_name r e ln :
  literal_eval lib e = None ->
  get_node_value lib e = PyNone /\
  (found !! "ROBOTSTXT_OBEY" = Some (e, ln) ->
   check_robots lib found content file r = add_info (robots_set_info file ln) r) /\
  (found !! "USER_AGENT" = Some (e, ln) ->
   check_user_agent lib found content file project_name r
     = Ok (add_info (ua_custom_info file ln) r)) /\
  (found !! "HTTPCACHE_ENABLED" = Some (e, ln) ->
   check_cache lib found file r = add_info (cache_enabled_info file ln) r) /\
  (found !! "AUTOTHROTTLE_ENABLED" = Some (e, ln) -> autothrottle_enabled lib found = false) /\
  (found !! "DOWNLOAD_DELAY" = Some (e, ln) ->
   autothrottle_enabled lib found = false ->
   is_number (setting_value lib found "CONCURRENT_REQUESTS_PER_DOMAIN" (PyInt 16)) = true ->
   is_number (setting_value lib found "CONCURRENT_REQUESTS_PER_IP" (PyInt 16)) = true ->
   exists r' x rest, check_throttle lib found file r = Ok r' /\
     recommendations r' = recommendations r ++ x :: rest /\
     message x = "Low/No `DOWNLOAD_DELAY` without AutoThrottle." /\
     line x = Some ln /\
     warnings r' = warnings r /\ info r' = info r).
Proof.
  intros Heval.
  assert (get_node_value lib e = PyNone) as Hvalue.
  { unfold get_node_value. by rewrite Heval. }
  split_and!; [done| | | | |].
  - intros Hfound. unfold check_robots. by rewrite Hfound, Hvalue.
  - intros Hfound. unfold check_user_agent. by rewrite Hfound, Hvalue.
  - intros Hfound. unfold check_cache. by rewrite Hfound, Hvalue.
  - intros Hfound. unfold autothrottle_enabled. by rewrite Hfound, Hvalue.
  - intros Hfound Hauto Hdom Hip.
    destruct (number_comparisons _ 8 Hdom) as (bd & ? & Hd & _).
    destruct (number_comparisons _ 8 Hip) as (bi & ? & Hi & _).
    unfold check_throttle. rewrite Hauto, Hd.
    assert (setting_value lib found "DOWNLOAD_DELAY" (PyInt 0) = PyNone) as ->.
    { unfold setting_value. by rewrite Hfound, Hvalue. }
    cbn [negb is_none mbind result_bind].
    assert (line (low_delay_recommendation lib found file PyNone) = Some ln) as Hline.
    { unfold low_delay_recommendation, setting_line. cbn [line]. by rewrite Hfound. }
    destruct bd; cbn [mbind result_bind]; [|rewrite Hi; cbn [mbind result_bind]; destruct bi];
      eexists _, (low_delay_recommendation lib found file PyNone), _;
      (split; [reflexivity|]); cbn [recommendations warnings info add_recommendation];
      rewrite <-?app_assoc; split_and!; try done; cbn [app]; reflexivity.
Qed.

End SettingsAdvisorProofs.

Section SettingsAdvisorCases.

Import Py SettingsAdvisor Scenarios.

(** ROBOTSTXT_OBEY = False on line 1, a domain limit of 20 and a text for
    the limit per IP: the analysis returns, with the one warning. *)
Lemma robots_false_single_warning_witness :
  ast_parse (sample_lib (fun _ => Parsed mixed_limits_tree)) mixed_limits_source
    = Parsed mixed_limits_tree /\
  last_assignment "ROBOTSTXT_OBEY" (walk mixed_limits_tree) = Some (Literal (PyBool false), 1) /\
  literal_eval (sample_lib (fun _ => Parsed mixed_limits_tree)) (Literal (PyBool false))
    = Some (PyBool false) /\
  throttle_comparable (sample_lib (fun _ => Parsed mixed_limits_tree))
    (settings_found (walk mixed_limits_tree)) = false /\
  exists r,
    analyze_settings (sample_lib (fun _ => Parsed mixed_limits_tree))
      (ReadText mixed_limits_source) "settings.py" "shop" = Ok r /\
    warnings r =
      [Entry "`ROBOTSTXT_OBEY` is set to False."
         (Some "Ensure you have permission and understand the implications of ignoring robots.txt.")
         "settings.py" (Some 1)
         (Some "https://docs.scrapy.org/en/latest/topics/settings.html#robotstxt-obey")].
Proof.
  split; [reflexivity|]. split; [reflexivity|]. split; [reflexivity|].
  split; [by vm_compute|].
  assert (exists r,
            analyze_settings (sample_lib (fun _ => Parsed mixed_limits_tree))
              (ReadText mixed_limits_source) "settings.py" "shop" = Ok r) as [r Hr]
    by (eexists; vm_compute; reflexivity).
  exists r. split; [exact Hr|].
  exact (proj1 (robots_false_single_warning (sample_lib (fun _ => Parsed mixed_limits_tree))
                  mixed_limits_source mixed_limits_tree "settings.py" "shop"
                  (Literal (PyBool false)) 1 eq_refl eq_refl eq_refl) r Hr).
Defined.

(** C6 as stated fails when a later assignment replaces the first: the source
    holds ROBOTSTXT_OBEY = False on line 1 and the result has no warning. *)
Lemma overridden_robots_setting_gives_no_warning :
  assign "ROBOTSTXT_OBEY" (Literal (PyBool false)) 1 ∈ walk override_tree /\
  match analyze_settings (sample_lib (fun _ => Parsed override_tree)) (ReadText override_source)
          "settings.py" "shop" with
  | Ok r => warnings r = []
  | Raise _ => False
  end.
Proof.
  split; [|by vm_compute].
  apply list_elem_of_lookup. by exists 1.
Qed.

Lemma syntax_error_single_warning_witness :
  ast_parse (sample_lib (fun _ => broken_parse)) broken_source = broken_parse /\
  regex_literal "shop" = true /\
  exists r,
    analyze_settings (sample_lib (fun _ => broken_parse)) (ReadText broken_source)
      "settings.py" "shop" = Ok r /\
    warnings r =
      [Entry "Syntax error (line 1): '(' was never closed" (Some "Near: ROBOTSTXT_OBEY = (")
         "settings.py" (Some 1) None] /\
    (Entry "Splash integration detected."
       (Some "Ensure SPLASH_URL and relevant middlewares are configured.") "settings.py" None None
       ∈ info r <-> PyStr.contains "scrapy_splash" broken_source = true).
Proof.
  split; [reflexivity|]. split; [reflexivity|].
  destruct (syntax_error_single_warning (sample_lib (fun _ => broken_parse))
              broken_source "settings.py" "shop" (Some 1) "'(' was never closed"
              (Some "ROBOTSTXT_OBEY = (") eq_refl eq_refl)
    as (r & Hr & Hw & _ & Hsplash & _).
  exists r. split_and!; [exact Hr|exact Hw|exact Hsplash].
Defined.


(** One chained assignment gives five settings the same value, a call. *)
Lemma non_literal_value_is_unknown_witness :
  literal_eval unknown_lib unknown_call = None /\
  Forall (fun name => unknown_found !! name = Some (unknown_call, 1))
    ["ROBOTSTXT_OBEY"; "USER_AGENT"; "HTTPCACHE_ENABLED"; "AUTOTHROTTLE_ENABLED";
     "DOWNLOAD_DELAY"] /\
  get_node_value unknown_lib unknown_call = PyNone /\
  check_robots unknown_lib unknown_found unknown_source "settings.py" (Results [] [] [])
    = add_info (robots_set_info "settings.py" 1) (Results [] [] []) /\
  check_user_agent unknown_lib unknown_found unknown_source "settings.py" "shop"
      (Results [] [] [])
    = Ok (add_info (ua_custom_info "settings.py" 1) (Results [] [] [])) /\
  check_cache unknown_lib unknown_found "settings.py" (Results [] [] [])
    = add_info (cache_enabled_info "settings.py" 1) (Results [] [] []) /\
  autothrottle_enabled unknown_lib unknown_found = false /\
  exists r' x rest,
    check_throttle unknown_lib unknown_found "settings.py" (Results [] [] []) = Ok r' /\
    recommendations r' = recommendations (Results [] [] []) ++ x :: rest /\
    message x = "Low/No `DOWNLOAD_DELAY` without AutoThrottle." /\
    line x = Some 1 /\
    warnings r' = warnings (Results [] [] []) /\ info r' = info (Results [] [] []).
Proof.
  assert (unknown_found !! "ROBOTSTXT_OBEY" = Some (unknown_call, 1)) as F1
    by (vm_compute; reflexivity).
  assert (unknown_found !! "USER_AGENT" = Some (unknown_call, 1)) as F2
    by (vm_compute; reflexivity).
  assert (unknown_found !! "HTTPCACHE_ENABLED" = Some (unknown_call, 1)) as F3
    by (vm_compute; reflexivity).
  assert (unknown_found !! "AUTOTHROTTLE_ENABLED" = Some (unknown_call, 1)) as F4
    by (vm_compute; reflexivity).
  assert (unknown_found !! "DOWNLOAD_DELAY" = Some (unknown_call, 1)) as F5
    by (vm_compute; reflexivity).
  destruct (non_literal_value_is_unknown unknown_lib unknown_found unknown_source
              "settings.py" "shop" (Results [] [] []) unknown_call 1 eq_refl)
    as (Hnone & Hrobots & Hua & Hcache & Hauto & Hdelay).
  split; [reflexivity|]. split; [by repeat constructor|].
  split; [exact Hnone|].
  split; [exact (Hrobots F1)|].
  split; [exact (Hua F2)|].
  split; [exact (Hcache F3)|].
  split; [exact (Hauto F4)|].
  exact (Hdelay F5 (Hauto F4) eq_refl eq_refl).
Defined.

(** C8 as stated fails for DOWNLOAD_DELAY: the value assigned on line 1 is a
    call, and the result holds the low-delay recommendation for that line. *)
Lemma non_literal_delay_is_reported :
  literal_eval (sample_lib (fun _ => Parsed delay_tree)) delay_call = None /\
  settings_found (walk delay_tree) !! "DOWNLOAD_DELAY" = Some (delay_call, 1) /\
  match analyze_settings (sample_lib (fun _ => Parsed delay_tree)) (ReadText delay_source)
          "settings.py" "shop" with
  | Ok r =>
      exists x, recommendations r !! 1 = Some x /\
        message x = "Low/No `DOWNLOAD_DELAY` without AutoThrottle." /\ line x = Some 1
  | Raise _ => False
  end.
Proof.
  split; [reflexivity|]. split; [by vm_compute|].
  vm_compute. eexists. by split_and!.
Qed.

End SettingsAdvisorCases.

(** * Further properties of the proxy rotation middleware *)

Section ProxyRotatorMoreProofs.

Import ProxyRotator ProxyRotatorMore.

Variable rt : runtime.

(** ** Loading *)

Lemma validate_filter new_proxies m :
  (validate rt new_proxies m).1 = filter (fun p => urlparse_ok rt p = true) new_proxies.
Proof.
  revert m. induction new_proxies as [|p rest IH]; intros m; cbn [validate]; [done|].
  destruct (urlparse_ok rt p) eqn:Hp.
  - rewrite filter_cons_True by done. specialize (IH m).
    destruct (validate rt rest m) as [v m']. cbn in *. by rewrite IH.
  - rewrite filter_cons_False by (by rewrite Hp). apply IH.
Qed.

Lemma validate_fields new_proxies m :
  proxies (validate rt new_proxies m).2 = proxies m /\
  proxy_index (validate rt new_proxies m).2 = proxy_index m /\
  last_refresh_time (validate rt new_proxies m).2 = last_refresh_time m.
Proof.
  revert m. induction new_proxies as [|p rest IH]; intros m; cbn [validate]; [done|].
  destruct (urlparse_ok rt p).
  - specialize (IH m). destruct (validate rt rest m) as [v m']. exact IH.
  - destruct (IH (logmsg WARNING ("Ignoring invalid proxy format: " +:+ p) m)) as (H1 & H2 & H3).
    rewrite H1, H2, H3. by destruct m.
Qed.

(** What a load that returns leaves in the pool: the pool it found (after a
    request error only), or the proxies of the source that pass the urlparse
    test. *)
Lemma load_proxies_pool e m m' :
  load_proxies rt e m = Ok m' ->
  (proxies m' = proxies m /\ exists msg, fetch e = FetchRequestException msg) \/
  Forall (fun p => urlparse_ok rt p = true) (proxies m').
Proof.
  unfold load_proxies. intros H.
  destruct (read_source rt e m) as [[[new_proxies desc] m1]|[[exc desc] m1]] eqn:Hsrc.
  - right. pose proof (validate_filter new_proxies m1) as Hv.
    destruct (validate rt new_proxies m1) as [validated m2]. cbn in Hv.
    destruct validated as [|v vs]; simplify_eq.
    + by destruct m2.
    + replace (proxies _) with (v :: vs) by by destruct m2.
      rewrite Hv. apply Forall_forall. by intros p [Hp _]%list_elem_of_filter.
  - destruct (requests_available rt); cbn in H; [|done].
    destruct exc as [msg|msg|]; simplify_eq.
    + left. split.
      * apply read_source_raised in Hsrc as [->|[msg0 ->]]; by destruct m.
      * exists msg. unfold read_source in Hsrc. repeat (case_match; simplify_eq); done.
    + right. replace (proxies _) with (@nil string) by by destruct m1. constructor.
    + right. replace (proxies _) with (@nil string) by by destruct m1. constructor.
Qed.

(** X2: with the source type [list], [_load_proxies] returns, and the pool is
    the list of the settings without its blank entries and without those
    failing the urlparse test, in the same order; a non-empty pool starts at
    rotation index 0, and the failure map is left alone. *)
Theorem load_proxies_from_list e m :
  proxy_source_type m = "list" ->
  exists m', load_proxies rt e m = Ok m' /\
    proxies m' =
      filter (fun p => urlparse_ok rt p = true)
        (filter (fun p => PyStr.truthy (PyStr.strip p) = true) (proxy_list_setting m)) /\
    (proxies m' <> [] -> proxy_index m' = 0) /\
    failed_proxies m' = failed_proxies m.
Proof.
  intros Hsrc. unfold load_proxies, read_source. rewrite Hsrc. cbn [String.eqb Ascii.eqb Bool.eqb].
  set (new_proxies := filter _ (proxy_list_setting m)).
  pose proof (validate_filter new_proxies m) as Hv.
  pose proof (validate_frame rt new_proxies m) as (Hf & _).
  destruct (validate rt new_proxies m) as [validated m2]. cbn in Hv, Hf.
  rewrite <-Hv. destruct validated as [|v vs]; eexists; (split; [reflexivity|]).
  - split_and!; [by destruct m2|done|]. rewrite <-Hf. by destruct m2.
  - split_and!; [by destruct m2|by destruct m2|]. rewrite <-Hf. by destruct m2.
Qed.

(** X3: with the source type [file] and [requests] imported, a load that does
    not get to read the lines of the file (no file setting, no such file, or
    an error while opening or reading) returns with an empty pool: the pool
    of before is dropped. *)
Theorem load_proxies_file_failure_empties_pool e m :
  proxy_source_type m = "file" ->
  requests_available rt = true ->
  (forall lines, file_read e <> FileLines lines) ->
  exists m', load_proxies rt e m = Ok m' /\ proxies m' = [].
Proof.
  intros Hsrc Hreq Hread. unfold load_proxies, read_source. rewrite Hsrc, Hreq.
  cbn [String.eqb Ascii.eqb Bool.eqb negb].
  destruct (PyStr.truthy_opt (proxy_file_setting m)).
  - destruct (file_read e) as [|lines|msg|] eqn:Hfile.
    + cbn [validate]. eexists. split; [reflexivity|]. by destruct m.
    + by destruct (Hread lines).
    + eexists. split; [reflexivity|]. by destruct m.
    + eexists. split; [reflexivity|]. by destruct m.
  - cbn [validate]. eexists. split; [reflexivity|]. by destruct m.
Qed.


(** ** Calls of [_get_proxy] *)

Lemma select_proxy_frame e available m r m' :
  select_proxy e available m = Ok (r, m') ->
  proxies m' = proxies m /\ failed_proxies m' = failed_proxies m /\
  last_refresh_time m' = last_refresh_time m.
Proof.
  unfold select_proxy.
  assert (forall sel m1,
            proxies m1 = proxies m /\ failed_proxies m1 = failed_proxies m /\
            last_refresh_time m1 = last_refresh_time m ->
            (if negb (PyStr.truthy_opt sel) && bool_decide (available <> [])
             then p ← random_choice (choice e) available;
                  if PyStr.truthy p
                  then i ← index_of p (proxies m1);
                       Ok (Some p, set_proxy_index ((i + 1) mod length (proxies m1)) m1)
                  else Ok (Some p, m1)
             else Ok (sel, m1)) = Ok (r, m') ->
            proxies m' = proxies m /\ failed_proxies m' = failed_proxies m /\
            last_refresh_time m' = last_refresh_time m) as Hfallback.
  { intros sel m1 Hm1.
    destruct (negb _ && _); [|intros; by simplify_eq].
    destruct (random_choice (choice e) available) as [p|]; cbn [mbind result_bind]; [|done].
    destruct (PyStr.truthy p); [|intros; by simplify_eq].
    destruct (index_of p (proxies m1)) as [i|]; cbn [mbind result_bind]; [|done].
    intros. simplify_eq. destruct Hm1 as (<- & <- & <-). by destruct m1. }
  destruct (String.eqb (mode m) "sequential").
  - destruct (sequential_walk m) as [c|]; cbn [mbind result_bind].
    + destruct (index_of c (proxies m)) as [i|]; cbn [mbind result_bind]; [|done].
      apply Hfallback. by destruct m.
    + by apply Hfallback.
  - destruct available; [intros; by simplify_eq|].
    destruct (random_choice _ _); cbn [mbind result_bind]; [|done].
    intros. by simplify_eq.
Qed.

Lemma refresh_pool e m m1 :
  refresh_proxies_if_needed rt e m = Ok m1 ->
  m1 = m \/ (exists lvl msg, m1 = logmsg lvl msg m) \/
  (proxy_source_type m = "url" /\ requests_available rt = true /\ lock_acquired e = true /\
   (url_refresh_interval m < clock_refresh e - last_refresh_time m)%Z /\
   exists m0, proxies m0 = proxies m /\ last_refresh_time m0 = last_refresh_time m /\
     load_proxies rt e m0 = Ok m1).
Proof.
  unfold refresh_proxies_if_needed. intros H.
  destruct (String.eqb_spec (proxy_source_type m) "url") as [Hsrc|]; cbn in H;
    [|left; by simplify_eq].
  destruct (Z.eqb (url_refresh_interval m) 0); cbn in H; [left; by simplify_eq|].
  destruct (requests_available rt); cbn in H; [|left; by simplify_eq].
  case_bool_decide; [|left; by simplify_eq].
  destruct (lock_acquired e).
  - right. right. split_and!; try done. eexists. split_and!; [| |exact H]; by destruct m.
  - right. left. simplify_eq. by eexists _, _.
Qed.

(** The pool after a call is the pool after its refresh step. *)
Lemma get_proxy_pool e m r m' :
  get_proxy rt e m = Ok (r, m') ->
  exists m1, refresh_proxies_if_needed rt e m = Ok m1 /\
    proxies m' = (if decide (proxies m = []) then [] else proxies m1) /\
    forall p, r = Some p -> p ∈ proxies m'.
Proof.
  intros Hget. destruct (refresh_returns rt e m) as (m1 & Hm1 & _).
  exists m1. split; [done|].
  destruct (decide (proxies m = [])) as [Hnil|Hne].
  - unfold get_proxy in Hget. rewrite Hnil in Hget. simplify_eq.
    split; [done|]. by intros p ?.
  - destruct (get_proxy_cases rt e m Hne) as (m1' & Hm1' & _ & _ & Hcase_nil & Hcase_ne).
    rewrite Hm1 in Hm1'. simplify_eq.
    destruct (decide (proxies m1' = [])) as [Hnil1|Hne1].
    + destruct (Hcase_nil Hnil1) as (m'' & Hget' & _). rewrite Hget in Hget'. simplify_eq.
      split; [|by intros p ?].
      unfold get_proxy in Hget. destruct (proxies m) as [|? ?] eqn:Hps; [done|].
      rewrite Hm1 in Hget. cbn [mbind result_bind] in Hget.
      pose proof (clear_expired_fields (clock_clear e) m1') as (Hps2 & _).
      assert (available_proxies (clear_expired_failures (clock_clear e) m1') = []) as Hav.
      { unfold available_proxies. by rewrite Hps2, Hnil1. }
      rewrite Hav in Hget.
      replace (proxies (set_failed_proxies _ _)) with (proxies m1') in Hget
        by (rewrite <-Hps2; by destruct (clear_expired_failures (clock_clear e) m1')).
      rewrite Hnil1 in Hget. simplify_eq.
      rewrite <-Hps2. by destruct (clear_expired_failures (clock_clear e) m1').
    + destruct (Hcase_ne Hne1) as (p & m'' & Hget' & Hp & Hps' & _).
      rewrite Hget in Hget'. simplify_eq. split; [done|].
      intros q ?. simplify_eq. by rewrite Hps'.
Qed.

(** X4: the urlparse test is an invariant of the pool.  When every entry
    of the pool passes it, every entry still does after a call of
    [_get_proxy], whatever the refresh step loaded, and so does the proxy the
    call returns. *)
Theorem get_proxy_keeps_pool_valid e m r m' :
  Forall (fun p => urlparse_ok rt p = true) (proxies m) ->
  get_proxy rt e m = Ok (r, m') ->
  Forall (fun p => urlparse_ok rt p = true) (proxies m') /\
  forall p, r = Some p -> urlparse_ok rt p = true.
Proof.
  intros Hvalid Hget.
  destruct (get_proxy_pool e m r m' Hget) as (m1 & Hm1 & Hps & Hr).
  assert (Forall (fun p => urlparse_ok rt p = true) (proxies m')) as Hvalid'.
  { rewrite Hps. case_decide; [constructor|].
    destruct (refresh_pool e m m1 Hm1) as [->|[(lvl & msg & ->)|(_ & _ & _ & _ & m0 & Hps0 & _ & Hload)]].
    - done.
    - by replace (proxies (logmsg lvl msg m)) with (proxies m) by by destruct m.
    - destruct (load_proxies_pool e m0 m1 Hload) as [[-> _]|?]; [by rewrite Hps0|done]. }
  split; [done|]. intros p Hp. eapply Forall_forall in Hvalid'; [done|]. by apply Hr.
Qed.

(** X5: the pool changes in a call of [_get_proxy] only through a refresh
    that is due: the source is a URL, [requests] is imported, more than the
    refresh interval has passed since the last refresh, and the lock was
    free. *)
Theorem pool_changes_only_on_due_refresh e m r m' :
  get_proxy rt e m = Ok (r, m') ->
  proxies m' <> proxies m ->
  proxy_source_type m = "url" /\ requests_available rt = true /\
  lock_acquired e = true /\
  (url_refresh_interval m < clock_refresh e - last_refresh_time m)%Z.
Proof.
  intros Hget Hchanged.
  destruct (get_proxy_pool e m r m' Hget) as (m1 & Hm1 & Hps & _).
  case_decide as Hnil; [by rewrite Hps, Hnil in Hchanged|].
  rewrite Hps in Hchanged.
  destruct (refresh_pool e m m1 Hm1) as [->|[(lvl & msg & ->)|(? & ? & ? & ? & _)]]; [done| |done].
  exfalso. apply Hchanged. by destruct m.
Qed.

(** X6: an empty pool is never filled again by the request path.  On an
    empty pool [_get_proxy] returns [None] without running the refresh, and
    [process_request] leaves the request alone, however many calls are made
    and whatever the clock says: neither changes the middleware. *)
Theorem empty_pool_is_never_refreshed es e req m :
  proxies m = [] ->
  get_proxies rt es m = Ok (replicate (length es) None, m) /\
  process_request rt e req m = Ok (req, m).
Proof.
  intros Hnil. split.
  - induction es as [|e0 es IH]; [done|].
    cbn [get_proxies length replicate]. unfold get_proxy. rewrite Hnil.
    cbn [mbind result_bind]. rewrite IH. done.
  - unfold process_request. rewrite (bool_decide_eq_true_2 _ Hnil).
    by rewrite orb_true_r.
Qed.

(** X7: [process_request] always returns.  It leaves the request and the
    middleware as they are when the middleware is switched off, the pool is
    empty or the request already has a [proxy] in its meta.  Otherwise it
    asks [_get_proxy]: when the pool is still non-empty after the refresh
    step (as it is for every source that is no URL), a member of the pool
    that is not marked failed is selected, and, being a non-empty string, it
    is written under both [proxy] and [_proxy_rotator_current]; when the
    refresh left the pool empty the request is left alone. *)
Theorem process_request_assigns_available_proxy e req m :
  exists req' m' m1, process_request rt e req m = Ok (req', m') /\
    refresh_proxies_if_needed rt e m = Ok m1 /\
    (proxy_source_type m <> "url" -> m1 = m) /\
    (enabled m = false \/ proxies m = [] \/ is_Some (meta req !! "proxy") ->
     req' = req /\ m' = m) /\
    (enabled m = true -> proxies m <> [] -> meta req !! "proxy" = None ->
     (proxies m1 = [] -> req' = req) /\
     (proxies m1 <> [] ->
      exists p m2, get_proxy rt e m = Ok (Some p, m2) /\
        p ∈ proxies m1 /\ proxies m' = proxies m1 /\
        failed_proxies m' = failed_proxies m2 /\ failed_proxies m' !! p = None /\
        (PyStr.truthy p = true ->
         req' = Request (req_url req)
                  (<["_proxy_rotator_current" := p]> (<["proxy" := p]> (meta req)))) /\
        (PyStr.truthy p = false -> req' = req))).
Proof.
  destruct (refresh_returns rt e m) as (m1 & Hm1 & _).
  assert (proxy_source_type m <> "url" -> m1 = m) as Hsame.
  { intros Hsrc. rewrite (refresh_not_url rt e m Hsrc) in Hm1. by simplify_eq. }
  unfold process_request.
  destruct (enabled m) eqn:Hen; cbn [negb orb];
    [|exists req, m, m1; split_and!; try done; by intros [?|[?|?]]].
  case_bool_decide as Hpool; cbn [orb];
    [exists req, m, m1; split_and!; try done; by intros [?|[?|?]]|].
  case_bool_decide as Hmeta.
  { exists req, m, m1. split_and!; try done. intros _ _ Hnone.
    rewrite Hnone in Hmeta. by destruct Hmeta. }
  assert (meta req !! "proxy" = None) as Hnone by by apply eq_None_not_Some.
  destruct (get_proxy_cases rt e m Hpool) as (m1' & Hm1' & _ & _ & Hcase_nil & Hcase_ne).
  rewrite Hm1 in Hm1'. simplify_eq.
  destruct (decide (proxies m1' = [])) as [Hnil1|Hne1].
  - destruct (Hcase_nil Hnil1) as (m' & -> & _). cbn [mbind result_bind PyStr.truthy_opt].
    eexists _, _, m1'. split_and!; [done..| |].
    + intros [?|[?|?]]; done.
    + intros _ _ _. split; [done|]. by intros ?.
  - destruct (Hcase_ne Hne1) as (p & m2 & Hget & Hp & Hps2 & Hpok & _).
    rewrite Hget. cbn [mbind result_bind PyStr.truthy_opt opt_text].
    destruct (PyStr.truthy p) eqn:Htruthy.
    + eexists _, _, m1'. split_and!; [done..| |].
      * intros [?|[?|?]]; done.
      * intros _ _ _. split; [by intros ?|]. intros _. exists p, m2.
        set (m3 := logmsg _ _ m2).
        destruct (logmsg_fields DEBUG
                    ("Assigning proxy " +:+ p +:+ " to request " +:+ req_url req) m2)
          as (Hlps & Hlf & _).
        fold m3 in Hlps, Hlf. rewrite Hlps, Hlf. split_and!; try done; congruence.
    + eexists _, _, m1'. split_and!; [done..| |].
      * intros [?|[?|?]]; done.
      * intros _ _ _. split; [by intros ?|]. intros _. exists p, m2.
        set (m3 := logmsg _ _ m2).
        destruct (logmsg_fields ERROR "No available proxies to assign." m2)
          as (Hlps & Hlf & _).
        fold m3 in Hlps, Hlf. rewrite Hlps, Hlf. split_and!; try done; congruence.
Qed.

(** While a proxy is cooling down it is passed over, as long as another pool
    entry is available. *)
Lemma cooling_proxy_is_skipped e m p t :
  proxy_source_type m <> "url" ->
  failed_proxies m !! p = Some t ->
  (fail_timeout m = 0 \/ clock_clear e - t <= fail_timeout m)%Z ->
  (exists q, q ∈ proxies m /\ failed_proxies m !! q = None) ->
  exists r m', get_proxy rt e m = Ok (Some r, m') /\ r <> p /\
    r ∈ proxies m /\ failed_proxies m' !! p = Some t.
Proof.
  intros Hsrc Hp Hcool (q & Hq & Hqok).
  assert (proxies m <> []) as Hpool by by eapply elem_of_not_nil.
  destruct (get_proxy_cases rt e m Hpool) as (m1 & Hm1 & _ & _ & _ & Hcase).
  rewrite (refresh_not_url rt e m Hsrc) in Hm1. simplify_eq.
  destruct (Hcase Hpool) as (r & m' & Hget & Hr & _ & Hrok & Hsame & _).
  set (m2 := clear_expired_failures (clock_clear e) m1) in *.
  assert (failed_proxies m2 !! p = Some t) as Hp2.
  { unfold m2. rewrite clear_expired_lookup, Hp.
    destruct (Z.eqb_spec (fail_timeout m1) 0); [done|].
    rewrite bool_decide_eq_false_2; [done|]. lia. }
  assert (available_proxies m2 <> []) as Hav.
  { apply (elem_of_not_nil q). apply elem_of_available. split.
    - unfold m2. by rewrite (proj1 (clear_expired_fields (clock_clear e) m1)).
    - unfold m2. by rewrite clear_expired_lookup, Hqok. }
  exists r, m'. rewrite (Hsame Hav) in *. split_and!; try done.
  intros ->. congruence.
Qed.

(** X8: a proxy that just answered with a failure status is not handed out
    again while it cools down, as long as another pool entry is available:
    after [process_response] has seen a failure code for the proxy assigned
    to the request, a call of [_get_proxy] made no later than the cooldown
    after it returns another member of the pool. *)
Theorem failed_response_proxy_is_not_reused e0 e req resp m p q :
  enabled m = true ->
  proxy_source_type m <> "url" ->
  meta req !! "_proxy_rotator_current" = Some p ->
  PyStr.truthy p = true ->
  status resp ∈ fail_codes m ->
  (clock_clear e - clock_mark e0 <= fail_timeout m)%Z ->
  q ∈ proxies m -> q <> p -> failed_proxies m !! q = None ->
  exists r m', get_proxy rt e (process_response e0 req resp m).2 = Ok (Some r, m') /\
    r <> p /\ r ∈ proxies m.
Proof.
  intros Hen Hsrc Hmeta Htruthy Hstatus Hcool Hq Hqp Hqok.
  assert (fail_timeout (process_response e0 req resp m).2 = fail_timeout m /\
          proxy_source_type (process_response e0 req resp m).2 = proxy_source_type m /\
          proxies (process_response e0 req resp m).2 = proxies m /\
          failed_proxies (process_response e0 req resp m).2
            = <[p := clock_mark e0]> (failed_proxies m)) as (Ht & Hs & Hps & Hf).
  { unfold process_response, mark_failed.
    rewrite Hen, Hmeta, (bool_decide_eq_true_2 _ Hstatus). cbn. rewrite Htruthy.
    by destruct m. }
  set (m1 := (process_response e0 req resp m).2) in *.
  destruct (cooling_proxy_is_skipped e m1 p (clock_mark e0)) as (r & m' & Hget & Hr & Hin & _).
  - by rewrite Hs.
  - by rewrite Hf, lookup_insert_eq.
  - right. by rewrite Ht.
  - exists q. split; [by rewrite Hps|]. by rewrite Hf, lookup_insert_ne.
  - exists r, m'. split_and!; try done. by rewrite <-Hps.
Qed.

(** ** Sequential mode with failures *)

(** X27: in sequential mode on a pool of distinct proxies (source no URL),
    a call of [_get_proxy] returns the first entry, in pool order from the
    rotation index on and wrapping around, that is not marked failed once the
    expired failures are cleared; the entries before it are passed over, and
    the rotation index moves to the position after the entry returned. *)
Theorem sequential_mode_takes_first_available e m k c :
  mode m = "sequential" ->
  proxy_source_type m <> "url" ->
  NoDup (proxies m) ->
  PyStr.truthy c = true ->
  rotate (proxy_index m) (proxies m) !! k = Some c ->
  failed_proxies (clear_expired_failures (clock_clear e) m) !! c = None ->
  (forall j y, j < k -> rotate (proxy_index m) (proxies m) !! j = Some y ->
     is_Some (failed_proxies (clear_expired_failures (clock_clear e) m) !! y)) ->
  exists m', get_proxy rt e m = Ok (Some c, m') /\
    proxy_index m' = ((proxy_index m + k) mod length (proxies m) + 1) mod length (proxies m) /\
    proxies m' = proxies m /\
    failed_proxies m' = failed_proxies (clear_expired_failures (clock_clear e) m).
Proof.
  intros Hmode Hsrc Hnodup Htruthy Hk Hc Hbefore.
  set (m2 := clear_expired_failures (clock_clear e) m) in *.
  destruct (clear_expired_fields (clock_clear e) m) as (Hps2 & Hidx2 & Hmode2 & _).
  fold m2 in Hps2, Hidx2, Hmode2.
  assert (k < length (proxies m)) as Hlt.
  { apply lookup_lt_Some in Hk. by rewrite length_rotate in Hk. }
  assert (c ∈ proxies m) as Hin.
  { apply list_elem_of_lookup_2 in Hk. by apply elem_of_rotate in Hk. }
  assert (rotate (proxy_index m mod length (proxies m)) (proxies m)
          = rotate (proxy_index m) (proxies m)) as Hrot.
  { unfold rotate. by rewrite Nat.Div0.mod_mod. }
  assert (sequential_walk m2 = Some c) as Hwalk.
  { unfold sequential_walk. rewrite candidates_rotate, Hps2, Hidx2, Hrot.
    assert (list_find (fun x => not_failed m2 x = true) (rotate (proxy_index m) (proxies m))
            = Some (k, c)) as ->; [|done].
    apply list_find_Some. split_and!; [done| |].
    - unfold not_failed. by apply bool_decide_eq_true.
    - intros j y Hj Hjk. unfold not_failed. rewrite bool_decide_eq_true.
      destruct (Hbefore j y Hjk Hj) as [t Ht]. by rewrite Ht. }
  assert (index_of c (proxies m2) = Ok ((proxy_index m + k) mod length (proxies m)))
    as Hindex.
  { destruct (index_of_elem c (proxies m2)) as (i & Hi & Hlook); [by rewrite Hps2|].
    rewrite Hi. f_equal. rewrite Hps2 in Hlook.
    rewrite lookup_rotate_r, rotate_nat_add_mod in Hk by done.
    by eapply NoDup_lookup. }
  assert (available_proxies m2 <> []) as Hav.
  { apply (elem_of_not_nil c). apply elem_of_available. by rewrite Hps2. }
  exists (set_proxy_index (((proxy_index m + k) mod length (proxies m) + 1)
                           mod length (proxies m)) m2).
  split; [|split_and!; [done|by rewrite <-Hps2|done]].
  unfold get_proxy. destruct (proxies m) as [|p0 ps0] eqn:Hps; [by apply not_elem_of_nil in Hin|].
  rewrite (refresh_not_url rt e m Hsrc). cbn [mbind result_bind]. fold m2.
  destruct (available_proxies m2) as [|a l]; [done|].
  unfold select_proxy. rewrite Hmode2, Hmode. cbn [String.eqb Ascii.eqb Bool.eqb].
  rewrite Hwalk, Hindex. cbn [mbind result_bind PyStr.truthy_opt].
  rewrite Htruthy. cbn [negb andb]. by rewrite Hps2.
Qed.

(** ** The refresh interval *)

(** X9: after a fetch of the remote list that succeeded, the list is not
    fetched again before more than the refresh interval has passed: the time
    of the load is recorded, and a refresh step made within the interval
    returns the middleware as it is. *)
Theorem fetched_pool_is_kept_for_the_interval e e' m lines :
  proxy_source_type m = "url" ->
  PyStr.truthy_opt (proxy_url_setting m) = true ->
  requests_available rt = true ->
  fetch e = FetchLines lines ->
  (clock_refresh e' - clock_load e <= url_refresh_interval m)%Z ->
  exists m1, load_proxies rt e m = Ok m1 /\
    last_refresh_time m1 = clock_load e /\
    proxies m1 = filter (fun p => urlparse_ok rt p = true) (proxy_lines lines) /\
    refresh_proxies_if_needed rt e' m1 = Ok m1.
Proof.
  intros Hsrc Hurl Hreq Hfetch Hdue.
  assert (exists m1, load_proxies rt e m = Ok m1 /\
            last_refresh_time m1 = clock_load e /\
            url_refresh_interval m1 = url_refresh_interval m /\
            proxies m1 = filter (fun p => urlparse_ok rt p = true) (proxy_lines lines))
    as (m1 & Hload & Htime & Hint & Hps).
  { unfold load_proxies, read_source. rewrite Hsrc, Hurl, Hreq, Hfetch.
    cbn [String.eqb Ascii.eqb Bool.eqb andb].
    set (m0 := set_last_refresh_time _ _).
    pose proof (validate_filter (proxy_lines lines) m0) as Hv.
    pose proof (validate_fields (proxy_lines lines) m0) as (_ & _ & Ht).
    assert (url_refresh_interval (validate rt (proxy_lines lines) m0).2 = url_refresh_interval m)
      as Hi.
    { clear. generalize (proxy_lines lines). intros l.
      assert (url_refresh_interval m0 = url_refresh_interval m) as <- by by destruct m.
      generalize m0. clear. induction l as [|p l IH]; intros m0; cbn [validate]; [done|].
      destruct (urlparse_ok rt p).
      - specialize (IH m0). by destruct (validate rt l m0).
      - by rewrite IH. }
    destruct (validate rt (proxy_lines lines) m0) as [validated m2]. cbn in Hv, Ht, Hi.
    rewrite <-Hv.
    assert (last_refresh_time m2 = clock_load e) as Ht2 by (rewrite Ht; by destruct m).
    destruct validated; eexists; (split; [reflexivity|]);
      split_and!; try done; by destruct m2. }
  exists m1. split_and!; try done.
  unfold refresh_proxies_if_needed.
  rewrite bool_decide_eq_false_2 by (rewrite Htime, Hint; lia).
  by destruct (_ || _).
Qed.

(** ** Exceptions *)

Lemma mark_failed_fields now proxy m :
  enabled (mark_failed now proxy m) = enabled m /\
  proxies (mark_failed now proxy m) = proxies m /\
  proxy_index (mark_failed now proxy m) = proxy_index m /\
  last_refresh_time (mark_failed now proxy m) = last_refresh_time m /\
  failed_proxies (mark_failed now proxy m) =
    (if PyStr.truthy_opt proxy then <[opt_text proxy := now]> (failed_proxies m)
     else failed_proxies m).
Proof. unfold mark_failed. destruct (PyStr.truthy_opt proxy); by destruct m. Qed.

(** X10: [process_exception] changes no middleware state other than the
    failure map (and the log), and in the failure map no entry other than
    that of the proxy assigned to the request; a middleware that is switched
    off is left exactly as it is. *)
Theorem process_exception_touches_only_assigned_proxy twisted_available e req exc m :
  enabled (process_exception rt twisted_available e req exc m) = enabled m /\
  proxies (process_exception rt twisted_available e req exc m) = proxies m /\
  proxy_index (process_exception rt twisted_available e req exc m) = proxy_index m /\
  last_refresh_time (process_exception rt twisted_available e req exc m)
    = last_refresh_time m /\
  (forall q, meta req !! "_proxy_rotator_current" <> Some q ->
     failed_proxies (process_exception rt twisted_available e req exc m) !! q
       = failed_proxies m !! q) /\
  (enabled m = false -> process_exception rt twisted_available e req exc m = m).
Proof.
  unfold process_exception.
  destruct (enabled m) eqn:Hen; cbn [negb]; [|done].
  destruct (is_proxy_error rt twisted_available exc); [|done].
  set (m1 := logmsg _ _ m).
  destruct (mark_failed_fields (clock_mark e) (meta req !! "_proxy_rotator_current") m1)
    as (-> & -> & -> & -> & ->).
  split_and!; try done; try by destruct m.
  intros q Hq. destruct (meta req !! "_proxy_rotator_current") as [p|] eqn:Hmeta; cbn.
  - destruct (PyStr.truthy p); [|by destruct m].
    rewrite lookup_insert_ne by congruence. by destruct m.
  - by destruct m.
Qed.

(** X11: an exception of any type whose text holds one of the words proxy,
    timeout or connection refused, in whatever case, counts as a failure of
    the proxy: the proxy assigned to the request is marked failed at the time
    of the call, whether or not [requests] or Twisted can be imported. *)
Theorem exception_text_marks_proxy twisted_available e req exc m p word :
  enabled m = true ->
  is_exception exc = true ->
  word ∈ ["proxy"; "timeout"; "connection refused"] ->
  PyStr.contains word (FileApi.lower (text exc)) = true ->
  meta req !! "_proxy_rotator_current" = Some p ->
  PyStr.truthy p = true ->
  failed_proxies (process_exception rt twisted_available e req exc m)
    = <[p := clock_mark e]> (failed_proxies m).
Proof.
  intros Hen Hexc Hword Htext Hmeta Htruthy.
  assert (is_proxy_error rt twisted_available exc = true) as Herr.
  { unfold is_proxy_error.
    destruct (requests_available rt && is_requests_proxy_error exc); [done|].
    destruct (twisted_available && is_twisted_connection_error exc); [done|].
    rewrite Hexc. cbn [andb]. unfold mentions_proxy_trouble.
    apply existsb_exists. exists word. split; [|done].
    by apply list_elem_of_In. }
  unfold process_exception. rewrite Hen, Herr, Hmeta. cbn [negb].
  set (m1 := logmsg _ _ m).
  destruct (mark_failed_fields (clock_mark e) (Some p) m1) as (_ & _ & _ & _ & ->).
  cbn [PyStr.truthy_opt opt_text]. rewrite Htruthy. by destruct m.
Qed.

(** ** Construction *)

(** X12: a middleware built from settings that switch it off, or from
    settings that name a URL source while [requests] cannot be imported, is
    inert: it is built without reading any source, it holds no proxy, and
    [process_request], [process_response] and [process_exception] leave
    requests, responses and the middleware exactly as they are. *)
Theorem init_inert e s :
  s_enabled s = false \/ (s_source_type s = "url" /\ requests_available rt = false) ->
  exists m, init rt e s = Ok m /\ enabled m = false /\ proxies m = [] /\
    (forall e' req, process_request rt e' req m = Ok (req, m)) /\
    (forall e' req resp, process_response e' req resp m = (resp, m)) /\
    (forall twisted_available e' req exc,
       process_exception rt twisted_available e' req exc m = m).
Proof.
  intros Hcase.
  assert (exists m, init rt e s = Ok m /\ enabled m = false /\ proxies m = [])
    as (m & Hinit & Hen & Hps).
  { unfold init. cbn [fresh enabled proxy_source_type].
    destruct (s_enabled s) eqn:Hs; cbn [negb].
    - destruct Hcase as [?|[-> ->]]; [done|]. cbn. by eexists.
    - by eexists. }
  exists m. split_and!; try done.
  - intros e' req. unfold process_request. by rewrite Hen.
  - intros e' req resp. unfold process_response. by rewrite Hen.
  - intros tw e' req exc. unfold process_exception. by rewrite Hen.
Qed.

(** X13: whenever the constructor returns, every proxy of the pool passes
    the urlparse test and no proxy is marked failed. *)
Theorem init_pool_passes_urlparse e s m :
  init rt e s = Ok m ->
  Forall (fun p => urlparse_ok rt p = true) (proxies m) /\ failed_proxies m = ∅.
Proof.
  unfold init. cbn [fresh enabled proxy_source_type].
  destruct (s_enabled s); cbn [negb].
  - destruct (_ && _).
    + intros ?. simplify_eq. split; [constructor|done].
    + intros Hload. split.
      * destruct (load_proxies_pool e _ m Hload) as [[-> _]|?]; [constructor|done].
      * by destruct (load_proxies_frame rt e _ m Hload) as (-> & _).
  - intros ?. simplify_eq. split; [constructor|done].
Qed.

End ProxyRotatorMoreProofs.

Section ProxyRotatorMoreCases.

Import ProxyRotator ProxyRotatorMore Scenarios MoreScenarios.

(** ** The properties on concrete inputs *)

Lemma sequential_round_robin_witness :
  exists m', get_proxies rt_plain [env_at 1; env_at 2; env_at 3] three_rotator
    = Ok (Some <$> rotate (proxy_index three_rotator) (proxies three_rotator), m').
Proof.
  apply (sequential_round_robin rt_plain [env_at 1; env_at 2; env_at 3] three_rotator).
  - reflexivity.
  - discriminate.
  - apply (bool_decide_unpack _). by vm_compute.
  - by repeat constructor.
  - intros p _. reflexivity.
  - reflexivity.
Defined.

Lemma load_proxies_from_list_witness :
  exists m', load_proxies rt_scheme (env_at 0) messy_list_rotator = Ok m' /\
    proxies m' =
      filter (fun p => urlparse_ok rt_scheme p = true)
        (filter (fun p => PyStr.truthy (PyStr.strip p) = true)
           (proxy_list_setting messy_list_rotator)) /\
    (proxies m' <> [] -> proxy_index m' = 0) /\
    failed_proxies m' = failed_proxies messy_list_rotator.
Proof.
  apply (load_proxies_from_list rt_scheme (env_at 0) messy_list_rotator). reflexivity.
Defined.

Lemma load_proxies_file_failure_witness :
  exists m', load_proxies rt_plain (env_file_missing 0) file_rotator = Ok m' /\
    proxies m' = [].
Proof.
  apply (load_proxies_file_failure_empties_pool rt_plain (env_file_missing 0) file_rotator).
  - reflexivity.
  - reflexivity.
  - intros lines H. discriminate H.
Defined.

Lemma get_proxy_keeps_pool_valid_witness :
  exists r m',
    get_proxy rt_scheme (env_fetched [proxy_c; "10.0.0.9:8080"] 5000) url_rotator
      = Ok (r, m') /\
    Forall (fun p => urlparse_ok rt_scheme p = true) (proxies m') /\
    forall p, r = Some p -> urlparse_ok rt_scheme p = true.
Proof.
  assert (exists rm,
            get_proxy rt_scheme (env_fetched [proxy_c; "10.0.0.9:8080"] 5000) url_rotator
              = Ok rm) as [[r m'] Hget] by (eexists; vm_compute; reflexivity).
  exists r, m'. split; [exact Hget|].
  apply (get_proxy_keeps_pool_valid rt_scheme
           (env_fetched [proxy_c; "10.0.0.9:8080"] 5000) url_rotator r m'); [|exact Hget].
  by repeat constructor.
Defined.

Lemma pool_changes_only_on_due_refresh_witness :
  proxy_source_type url_rotator = "url" /\ requests_available rt_plain = true /\
  lock_acquired (env_fetched [proxy_b] 5000) = true /\
  (url_refresh_interval url_rotator
     < clock_refresh (env_fetched [proxy_b] 5000) - last_refresh_time url_rotator)%Z.
Proof.
  assert (exists rm,
            get_proxy rt_plain (env_fetched [proxy_b] 5000) url_rotator = Ok rm /\
            proxies rm.2 = [proxy_b]) as ([r m'] & Hget & Hps)
    by (eexists; split; vm_compute; reflexivity).
  apply (pool_changes_only_on_due_refresh rt_plain (env_fetched [proxy_b] 5000)
           url_rotator r m' Hget).
  cbn in Hps. rewrite Hps. discriminate.
Defined.

Lemma empty_pool_is_never_refreshed_witness :
  get_proxies rt_plain [env_at 100000; env_at 200000] starved_rotator
    = Ok (replicate 2 None, starved_rotator) /\
  process_request rt_plain (env_at 300000) plain_request starved_rotator
    = Ok (plain_request, starved_rotator).
Proof.
  apply (empty_pool_is_never_refreshed rt_plain [env_at 100000; env_at 200000]
           (env_at 300000) plain_request starved_rotator).
  reflexivity.
Defined.

(** A request without a proxy, an enabled middleware with two proxies from
    the settings list: one of them is assigned. *)
Lemma process_request_assigns_witness :
  exists p m',
    process_request rt_plain (env_at 10) plain_request (plain_rotator "random")
      = Ok (Request (req_url plain_request)
              (<["_proxy_rotator_current" := p]> (<["proxy" := p]> (meta plain_request))),
            m') /\
    p ∈ proxies (plain_rotator "random") /\ failed_proxies m' !! p = None.
Proof.
  destruct (process_request_assigns_available_proxy rt_plain (env_at 10) plain_request
              (plain_rotator "random"))
    as (req' & m' & m1 & Hreq & _ & Hsame & _ & Hassign).
  assert (m1 = plain_rotator "random") as -> by (apply Hsame; discriminate).
  destruct (Hassign eq_refl ltac:(discriminate) eq_refl) as [_ Hsome].
  destruct (Hsome ltac:(discriminate)) as (p & m2 & _ & Hp & _ & _ & Hok & Hset & _).
  exists p, m'. rewrite Hreq. split_and!; [|exact Hp|exact Hok].
  rewrite Hset; [reflexivity|].
  apply elem_of_cons in Hp as [->|Hp]; [reflexivity|].
  apply elem_of_cons in Hp as [->|Hp]; [reflexivity|].
  by apply not_elem_of_nil in Hp.
Defined.

Lemma failed_response_proxy_is_not_reused_witness :
  exists r m',
    get_proxy rt_plain (env_at 20)
      (process_response (env_at 10) (request_via proxy_a) response_503
         (plain_rotator "random")).2 = Ok (Some r, m') /\
    r <> proxy_a /\ r ∈ proxies (plain_rotator "random").
Proof.
  apply (failed_response_proxy_is_not_reused rt_plain (env_at 10) (env_at 20)
           (request_via proxy_a) response_503 (plain_rotator "random") proxy_a proxy_b).
  - reflexivity.
  - discriminate.
  - vm_compute. reflexivity.
  - reflexivity.
  - apply (bool_decide_unpack _). by vm_compute.
  - vm_compute. discriminate.
  - apply (bool_decide_unpack _). by vm_compute.
  - discriminate.
  - reflexivity.
Defined.

Lemma exception_text_marks_proxy_witness :
  failed_proxies
    (process_exception rt_plain false (env_at 10) (request_via proxy_a) timeout_exception
       (plain_rotator "random"))
    = <[proxy_a := clock_mark (env_at 10)]> (failed_proxies (plain_rotator "random")).
Proof.
  apply (exception_text_marks_proxy rt_plain false (env_at 10) (request_via proxy_a)
           timeout_exception (plain_rotator "random") proxy_a "timeout").
  - reflexivity.
  - reflexivity.
  - apply (bool_decide_unpack _). by vm_compute.
  - vm_compute. reflexivity.
  - vm_compute. reflexivity.
  - reflexivity.
Defined.

Lemma init_inert_witness :
  exists m, init rt_plain (env_at 0) disabled_settings = Ok m /\
    enabled m = false /\ proxies m = [] /\
    (forall e' req, process_request rt_plain e' req m = Ok (req, m)) /\
    (forall e' req resp, process_response e' req resp m = (resp, m)) /\
    (forall twisted_available e' req exc,
       process_exception rt_plain twisted_available e' req exc m = m).
Proof.
  apply (init_inert rt_plain (env_at 0) disabled_settings). left. reflexivity.
Defined.

Lemma init_pool_passes_urlparse_witness :
  exists m, init rt_scheme (env_at 0) list_settings = Ok m /\
    Forall (fun p => urlparse_ok rt_scheme p = true) (proxies m) /\ failed_proxies m = ∅.
Proof.
  assert (exists m, init rt_scheme (env_at 0) list_settings = Ok m) as [m Hinit]
    by (eexists; vm_compute; reflexivity).
  exists m. split; [exact Hinit|].
  exact (init_pool_passes_urlparse rt_scheme (env_at 0) list_settings m Hinit).
Defined.

Lemma fetched_pool_is_kept_witness :
  exists m1, load_proxies rt_plain (env_fetched [proxy_b] 5000) url_rotator = Ok m1 /\
    last_refresh_time m1 = clock_load (env_fetched [proxy_b] 5000) /\
    proxies m1 = filter (fun p => urlparse_ok rt_plain p = true) (proxy_lines [proxy_b]) /\
    refresh_proxies_if_needed rt_plain (env_at 6000) m1 = Ok m1.
Proof.
  apply (fetched_pool_is_kept_for_the_interval rt_plain (env_fetched [proxy_b] 5000)
           (env_at 6000) url_rotator [proxy_b]).
  - reflexivity.
  - reflexivity.
  - reflexivity.
  - reflexivity.
  - vm_compute. discriminate.
Defined.

Lemma sequential_mode_first_available_witness :
  exists m', get_proxy rt_plain (env_at 10) cooling_sequential_rotator = Ok (Some proxy_b, m') /\
    proxy_index m'
      = ((proxy_index cooling_sequential_rotator + 1)
           mod length (proxies cooling_sequential_rotator) + 1)
          mod length (proxies cooling_sequential_rotator) /\
    proxies m' = proxies cooling_sequential_rotator /\
    failed_proxies m'
      = failed_proxies (clear_expired_failures (clock_clear (env_at 10))
                          cooling_sequential_rotator).
Proof.
  apply (sequential_mode_takes_first_available rt_plain (env_at 10)
           cooling_sequential_rotator 1 proxy_b).
  - reflexivity.
  - discriminate.
  - apply (bool_decide_unpack _). by vm_compute.
  - reflexivity.
  - reflexivity.
  - vm_compute. reflexivity.
  - intros j y Hj Hy. destruct j as [|j]; [|lia].
    injection Hy as <-. exists 0%Z. vm_compute. reflexivity.
Defined.

End ProxyRotatorMoreCases.

(** * Further properties of the log analyzer *)

Section LogAnalyzerMoreProofs.

Import Py LogAnalyzer LogAnalyzerMore.

Variable lib : pylib.

(** ** Counting messages *)

Lemma sum_values_bump k n d : sum_values (bump k n d) = (sum_values d + n)%Z.
Proof.
  unfold sum_values, bump.
  destruct (d !! k) as [x|] eqn:Hk; cbn [default].
  - rewrite <-insert_delete_eq.
    rewrite map_fold_insert_L; [|intros; simpl; lia|by rewrite lookup_delete_eq].
    rewrite (map_fold_delete_L _ _ k x d); [simpl; lia|intros; simpl; lia|done].
  - rewrite map_fold_insert_L; [simpl; lia|intros; simpl; lia|done].
Qed.

(** No line matches both expressions: after the bracket one reads ERROR, the
    other WARNING. *)
Lemma error_warning_exclusive line g :
  match_level "ERROR" line = Some g -> match_level "WARNING" line = None.
Proof.
  unfold match_level.
  destruct (eat_timestamp line) as [s|]; cbn [mbind option_bind]; [|done].
  destruct (eat "[" s) as [s1|]; cbn [mbind option_bind]; [|done].
  destruct (span _ s1) as [tok rest].
  destruct (String.rev tok) as [|c [|c' t]]; [done..|].
  destruct (Ascii.eqb c "]"); [|done].
  destruct rest as [|c1 [|c2 rest]]; [done| |].
  - change (" " +:+ "ERROR" +:+ ": ") with " ERROR: ".
    change (" " +:+ "WARNING" +:+ ": ") with " WARNING: ".
    cbn [eat]. by destruct (Ascii.eqb " " c1).
  - change (" " +:+ "ERROR" +:+ ": ") with " ERROR: ".
    change (" " +:+ "WARNING" +:+ ": ") with " WARNING: ".
    cbn [eat]. destruct (Ascii.eqb " " c1); [|done].
    destruct (Ascii.eqb_spec "E" c2) as [<-|]; [|done]. done.
Qed.

Lemma match_level_empty lvl : match_level lvl "" = None.
Proof. done. Qed.

Lemma parse_stat_line_messages line a a' :
  parse_stat_line lib line a = Ok a' -> errors a' = errors a /\ warnings a' = warnings a.
Proof.
  unfold parse_stat_line.
  destruct (PyStr.split ": " line) as [|p0 [|p1 [|p2 rest]]]; try (intros; by simplify_eq).
  destruct (json_loads lib (stat_value_str p1)) as [v| |]; cbn [mbind result_bind]; [| |done];
    (destruct (match_response_status (stat_key p0)); cbn [mbind result_bind];
     [match goal with |- context [py_int lib ?v] => destruct (py_int lib v) end;
      cbn [mbind result_bind]; [|done]|]; intros; by simplify_eq).
Qed.

Lemma parse_first_stat_line_messages line a :
  errors (parse_first_stat_line lib line a) = errors a /\
  warnings (parse_first_stat_line lib line a) = warnings a.
Proof.
  unfold parse_first_stat_line.
  by destruct (PyStr.split ": " line) as [|p0 [|p1 [|p2 rest]]].
Qed.

Lemma step_messages raw_line a a' :
  step lib raw_line a = Ok a' ->
  sum_values (errors a') = (sum_values (errors a) + if is_error_line raw_line then 1 else 0)%Z /\
  sum_values (warnings a')
    = (sum_values (warnings a) + if is_warning_line raw_line then 1 else 0)%Z /\
  line_count a' = S (line_count a).
Proof.
  unfold step, is_error_line, is_warning_line.
  destruct (PyStr.strip raw_line) as [|c0 line0]; cbn [PyStr.truthy negb].
  { intros ?. simplify_eq. cbn [errors warnings line_count]. rewrite !match_level_empty.
    rewrite !bool_decide_eq_false_2 by (by intros [? ?]). split_and!; [lia|lia|done]. }
  set (line := String c0 line0).
  destruct (match_level "ERROR" line) as [g|] eqn:Herr.
  { rewrite (error_warning_exclusive _ _ Herr).
    rewrite bool_decide_eq_true_2 by done.
    rewrite bool_decide_eq_false_2 by (by intros [? ?]).
    intros ?. simplify_eq. cbn [errors warnings line_count].
    rewrite sum_values_bump. split_and!; [done|lia|done]. }
  rewrite (bool_decide_eq_false_2 (is_Some None)) by (by intros [? ?]).
  destruct (match_level "WARNING" line) as [g|] eqn:Hwarn.
  { rewrite bool_decide_eq_true_2 by done.
    intros ?. simplify_eq. cbn [errors warnings line_count].
    rewrite sum_values_bump. split_and!; [lia|done|done]. }
  rewrite (bool_decide_eq_false_2 (is_Some None)) by (by intros [? ?]).
  set (a0 := Acc _ _ _ _ _ (S (line_count a))).
  set (a1 := if String.eqb line "}" then _ else _).
  assert (errors a1 = errors a /\ warnings a1 = warnings a /\ line_count a1 = S (line_count a))
    as (He1 & Hw1 & Hl1).
  { unfold a1. by destruct (String.eqb line "}"). }
  assert (forall a2, (if in_stats_dump a1 then parse_stat_line lib line a1 else Ok a1) = Ok a2 ->
            errors a2 = errors a /\ warnings a2 = warnings a /\
            line_count a2 = S (line_count a)) as Hparse.
  { intros a2. destruct (in_stats_dump a1).
    - intros H. destruct (parse_stat_line_messages _ _ _ H) as (-> & ->).
      split_and!; try done.
      unfold parse_stat_line in H.
      destruct (PyStr.split ": " line) as [|p0 [|p1 [|p2 rest]]]; try by simplify_eq.
      destruct (json_loads lib (stat_value_str p1)) as [v| |];
        cbn [mbind result_bind] in H; [| |done];
        (destruct (match_response_status (stat_key p0)); cbn [mbind result_bind] in H;
         [match type of H with context [py_int lib ?v] => destruct (py_int lib v) end;
          cbn [mbind result_bind] in H; [|done]|]; by simplify_eq).
    - intros ?. by simplify_eq. }
  destruct (if in_stats_dump a1 then _ else _) as [a2|]; cbn [mbind result_bind]; [|done].
  destruct (Hparse a2 eq_refl) as (He2 & Hw2 & Hl2).
  destruct (PyStr.contains _ line); intros ?; simplify_eq.
  - destruct (parse_first_stat_line_messages line a2) as (-> & ->).
    rewrite He2, Hw2. split_and!; [lia|lia|].
    unfold parse_first_stat_line.
    by destruct (PyStr.split ": " line) as [|p0 [|p1 [|p2 rest]]].
  - rewrite He2, Hw2. split_and!; [lia|lia|done].
Qed.

Lemma scan_messages lines a a' :
  scan lib lines a = Ok a' ->
  sum_values (errors a')
    = (sum_values (errors a)
       + Z.of_nat (length (filter (fun l => is_error_line l = true) lines)))%Z /\
  sum_values (warnings a')
    = (sum_values (warnings a)
       + Z.of_nat (length (filter (fun l => is_warning_line l = true) lines)))%Z /\
  line_count a' = length lines + line_count a.
Proof.
  revert a. induction lines as [|l rest IH]; intros a; cbn [scan].
  { intros ?. simplify_eq. cbn. split_and!; [lia|lia|done]. }
  destruct (step lib l a) as [a1|] eqn:Hstep; cbn [mbind result_bind]; [|done].
  intros H. destruct (IH _ H) as (-> & -> & ->).
  destruct (step_messages _ _ _ Hstep) as (-> & -> & ->).
  split_and!.
  - destruct (is_error_line l) eqn:Hl.
    + rewrite filter_cons_True by done. cbn [length]. lia.
    + rewrite filter_cons_False by (by rewrite Hl). lia.
  - destruct (is_warning_line l) eqn:Hl.
    + rewrite filter_cons_True by done. cbn [length]. lia.
    + rewrite filter_cons_False by (by rewrite Hl). lia.
  - cbn [length]. lia.
Qed.

Lemma summarize_counts a s :
  summarize a = Ok s ->
  error_count s = sum_values (errors a) /\ warning_count s = sum_values (warnings a).
Proof.
  unfold summarize.
  destruct (gt (default (PyFloat 0) _) 0) as [timed|]; cbn; [|done].
  destruct (if timed then _ else _) as [[avg_req avg_item]|]; cbn; [|done].
  destruct (gt (default (PyInt 0) (raw_stats a !! "downloader/response_count")) 0)
    as [responded|]; cbn; [|done].
  destruct (if responded then _ else _) as [rate|]; cbn; [|done].
  intros ?. by simplify_eq.
Qed.

(** X20: when the analysis returns, the error count of the summary is the
    number of lines REGEX_ERROR matches and the warning count the number of
    lines REGEX_WARNING matches (each after stripping), whatever else the log
    holds and however the messages are grouped; the counts of the grouped
    messages add up to the same numbers, and no line is counted twice. *)
Theorem message_counts_are_line_counts lines r :
  analyze_log_file lib (LogLines lines) = Ok r ->
  error_count (res_summary r)
    = Z.of_nat (length (filter (fun l => is_error_line l = true) lines)) /\
  warning_count (res_summary r)
    = Z.of_nat (length (filter (fun l => is_warning_line l = true) lines)) /\
  sum_values (res_errors r) = error_count (res_summary r) /\
  sum_values (res_warnings r) = warning_count (res_summary r) /\
  (error_count (res_summary r) + warning_count (res_summary r) <= Z.of_nat (length lines))%Z.
Proof.
  unfold analyze_log_file.
  destruct (scan lib lines init) as [a|] eqn:Hscan; cbn [mbind result_bind]; [|done].
  destruct (summarize a) as [s|] eqn:Hsum; cbn [mbind result_bind]; [|done].
  intros ?. simplify_eq. cbn.
  destruct (summarize_counts _ _ Hsum) as (-> & ->).
  destruct (scan_messages _ _ _ Hscan) as (He & Hw & _).
  rewrite He, Hw. cbn. unfold sum_values at 1 3 5. rewrite !map_fold_empty.
  split_and!; try done.
  assert (forall l, is_error_line l = true -> is_warning_line l = true -> False) as Hex.
  { intros l. unfold is_error_line, is_warning_line.
    rewrite !bool_decide_eq_true. intros [g Hg] [g' Hg'].
    by rewrite (error_warning_exclusive _ _ Hg) in Hg'. }
  clear -Hex. induction lines as [|l rest IH]; [done|].
  destruct (is_error_line l) eqn:H1; destruct (is_warning_line l) eqn:H2.
  - by destruct (Hex l).
  - rewrite filter_cons_True, filter_cons_False by (done || by rewrite H2).
    cbn [length]. lia.
  - rewrite filter_cons_False, filter_cons_True by (done || by rewrite H1).
    cbn [length]. lia.
  - rewrite !filter_cons_False by (by rewrite ?H1, ?H2). cbn [length]. lia.
Qed.

(** ** The start of the stats dump *)

Lemma step_before_marker raw_line a :
  has_marker raw_line = false ->
  in_stats_dump a = false ->
  exists a', step lib raw_line a = Ok a' /\
    raw_stats a' = raw_stats a /\ status_codes a' = status_codes a /\
    in_stats_dump a' = false.
Proof.
  unfold has_marker, step. set (line := PyStr.strip raw_line). intros Hmark Hdump.
  destruct (PyStr.truthy line); cbn [negb]; [|by eexists].
  destruct (match_level "ERROR" line); [by eexists|].
  destruct (match_level "WARNING" line); [by eexists|].
  set (a1 := if String.eqb line "}" then _ else _).
  assert (in_stats_dump a1 = false /\ raw_stats a1 = raw_stats a /\
          status_codes a1 = status_codes a) as (Hd1 & Hr1 & Hs1).
  { unfold a1. by destruct (String.eqb line "}"). }
  rewrite Hd1. cbn [mbind result_bind]. rewrite Hmark. by eexists.
Qed.

Lemma scan_before_marker pre a :
  Forall (fun l => has_marker l = false) pre ->
  in_stats_dump a = false ->
  exists a', scan lib pre a = Ok a' /\
    raw_stats a' = raw_stats a /\ status_codes a' = status_codes a /\
    in_stats_dump a' = false.
Proof.
  intros Hpre. revert a. induction Hpre as [|l pre Hl _ IH]; intros a Hdump; [by exists a|].
  destruct (step_before_marker l a Hl Hdump) as (a1 & Hstep & Hr1 & Hs1 & Hd1).
  destruct (IH a1 Hd1) as (a' & Hscan & Hr & Hs & Hd).
  exists a'. cbn [scan]. rewrite Hstep. cbn [mbind result_bind].
  split_and!; [done|congruence|congruence|done].
Qed.

Lemma scan_app pre post a :
  scan lib (pre ++ post) a = (a' ← scan lib pre a; scan lib post a').
Proof.
  revert a. induction pre as [|l pre IH]; intros a; [done|].
  cbn [scan app]. destruct (step lib l a); cbn [mbind result_bind]; [apply IH|done].
Qed.

(** X21: the lines before the first line holding the text
    'downloader/response_count': are never read as statistics: the pass over
    them returns with no raw statistic recorded and the dump not yet started,
    so the whole pass continues from there, whatever these lines hold (the
    statistics that come before the response count in a sorted dump among
    them). *)
Theorem stats_before_marker_are_ignored pre post :
  Forall (fun l => has_marker l = false) pre ->
  exists a0, scan lib pre init = Ok a0 /\
    raw_stats a0 = ∅ /\ status_codes a0 = ∅ /\ in_stats_dump a0 = false /\
    scan lib (pre ++ post) init = scan lib post a0.
Proof.
  intros Hpre.
  destruct (scan_before_marker pre init Hpre eq_refl) as (a0 & Hscan & Hr & Hs & Hd).
  cbn in Hr, Hs. exists a0. rewrite scan_app, Hscan. by split_and!.
Qed.

(** X22: a log without any line holding the text 'downloader/response_count':
    is always analysed without an exception: no statistic is recorded, and the
    summary holds the defaults: 0 items, requests and responses, finish reason
    N/A, and rates 0. *)
Theorem log_without_marker_gives_defaults lines :
  Forall (fun l => has_marker l = false) lines ->
  exists r, analyze_log_file lib (LogLines lines) = Ok r /\
    res_raw_stats r = ∅ /\ res_status_codes r = ∅ /\
    item_scraped_count (res_summary r) = PyInt 0 /\
    finish_reason (res_summary r) = PyStr "N/A" /\
    elapsed_seconds (res_summary r) = PyFloat 0 /\
    total_requests (res_summary r) = PyInt 0 /\
    total_responses (res_summary r) = PyInt 0 /\
    avg_req_per_sec (res_summary r) = 0%Q /\
    avg_item_per_sec (res_summary r) = 0%Q /\
    http_success_rate (res_summary r) = 0%Q.
Proof.
  intros Hlines.
  destruct (scan_before_marker lines init Hlines eq_refl) as (a0 & Hscan & Hr & Hs & Hd).
  cbn in Hr, Hs.
  unfold analyze_log_file. rewrite Hscan. cbn [mbind result_bind].
  unfold summarize. rewrite Hr. rewrite !lookup_empty. cbn.
  eexists. split; [reflexivity|]. cbn. by split_and!.
Qed.

End LogAnalyzerMoreProofs.

Section LogAnalyzerMoreCases.

Import Py LogAnalyzer LogAnalyzerMore Scenarios MoreScenarios.

Lemma status_codes_never_recorded_witness :
  exists r, analyze_log_file lib_decimal (LogLines dump_tail) = Ok r /\
    res_status_codes r = ∅ /\ (http_success_rate (res_summary r) == 0)%Q.
Proof.
  assert (exists r, analyze_log_file lib_decimal (LogLines dump_tail) = Ok r) as [r Hr]
    by (eexists; vm_compute; reflexivity).
  exists r. split; [exact Hr|].
  exact (status_codes_never_recorded lib_decimal (LogLines dump_tail) r Hr).
Defined.

Lemma summarize_zero_guards_witness :
  exists s, summarize init = Ok s /\
    (gt (total_responses s) 0 = Ok false -> http_success_rate s = 0%Q) /\
    (gt (elapsed_seconds s) 0 = Ok false ->
     avg_req_per_sec s = 0%Q /\ avg_item_per_sec s = 0%Q).
Proof.
  assert (exists s, summarize init = Ok s) as [s Hs] by (eexists; vm_compute; reflexivity).
  exists s. split; [exact Hs|]. exact (summarize_zero_guards init s Hs).
Defined.

Lemma message_counts_witness :
  exists r, analyze_log_file lib_decimal (LogLines short_log) = Ok r /\
    error_count (res_summary r)
      = Z.of_nat (length (filter (fun l => is_error_line l = true) short_log)) /\
    warning_count (res_summary r)
      = Z.of_nat (length (filter (fun l => is_warning_line l = true) short_log)) /\
    sum_values (res_errors r) = error_count (res_summary r) /\
    sum_values (res_warnings r) = warning_count (res_summary r) /\
    (error_count (res_summary r) + warning_count (res_summary r)
       <= Z.of_nat (length short_log))%Z.
Proof.
  assert (exists r, analyze_log_file lib_decimal (LogLines short_log) = Ok r) as [r Hr]
    by (eexists; vm_compute; reflexivity).
  exists r. split; [exact Hr|].
  exact (message_counts_are_line_counts lib_decimal short_log r Hr).
Defined.

Lemma stats_before_marker_witness :
  exists a0, scan lib_decimal dump_head init = Ok a0 /\
    raw_stats a0 = ∅ /\ status_codes a0 = ∅ /\ in_stats_dump a0 = false /\
    scan lib_decimal (dump_head ++ dump_tail) init = scan lib_decimal dump_tail a0.
Proof.
  apply (stats_before_marker_are_ignored lib_decimal dump_head dump_tail).
  repeat (constructor; [vm_compute; reflexivity|]). constructor.
Defined.

Lemma log_without_marker_witness :
  exists r, analyze_log_file lib_decimal (LogLines dump_head) = Ok r /\
    res_raw_stats r = ∅ /\ res_status_codes r = ∅ /\
    item_scraped_count (res_summary r) = PyInt 0 /\
    finish_reason (res_summary r) = PyStr "N/A" /\
    elapsed_seconds (res_summary r) = PyFloat 0 /\
    total_requests (res_summary r) = PyInt 0 /\
    total_responses (res_summary r) = PyInt 0 /\
    avg_req_per_sec (res_summary r) = 0%Q /\
    avg_item_per_sec (res_summary r) = 0%Q /\
    http_success_rate (res_summary r) = 0%Q.
Proof.
  apply (log_without_marker_gives_defaults lib_decimal dump_head).
  repeat (constructor; [vm_compute; reflexivity|]). constructor.
Defined.

End LogAnalyzerMoreCases.

(** * Further properties of the settings advisor *)

Section SettingsAdvisorMoreProofs.

Import Py SettingsAdvisor SettingsAdvisorMore.

Context {expr : Type} (lib : astlib expr).

(** ** The warnings of a result *)

(** X23: the warnings of every result [_analyze_settings] returns.  A file
    that cannot be read or parsed gives the one warning that says so, a syntax
    error the one warning that reports it, and a source that parses gives no
    warning, or the single warning about ROBOTSTXT_OBEY when the assignment to
    it that the walk yields last has the value False.  No result holds more
    than one warning. *)
Theorem analysis_gives_at_most_one_warning read file project_name r :
  analyze_settings lib read file project_name = Ok r ->
  length (warnings r) <= 1 /\
  match read with
  | ReadError msg => warnings r = [unreadable_warning file msg]
  | ReadText content =>
      match ast_parse lib content with
      | ParseOtherError msg => warnings r = [unreadable_warning file msg]
      | ParseSyntaxError lineno msg text =>
          warnings r = [syntax_error_warning file lineno msg text]
      | Parsed tree =>
          match last_assignment "ROBOTSTXT_OBEY" (walk tree) with
          | Some (e, ln) =>
              if is_false (get_node_value lib e)
              then warnings r = [robots_warning file ln]
              else warnings r = []
          | None => warnings r = []
          end
      end
  end.
Proof.
  unfold analyze_settings.
  destruct read as [content|msg]; [|intros; by simplify_eq].
  destruct (ast_parse lib content) as [tree|lineno msg text|msg]; [| |intros; by simplify_eq].
  - intros H%perform_checks_warnings. rewrite H. unfold check_robots.
    rewrite settings_found_lookup.
    destruct (last_assignment "ROBOTSTXT_OBEY" (walk tree)) as [[e ln]|].
    + destruct (is_false (get_node_value lib e)); cbn; split; (done || lia).
    + destruct (negb (search_robots content)); cbn; split; (done || lia).
  - intros H%perform_checks_warnings. rewrite H. unfold check_robots.
    rewrite lookup_empty. destruct (negb (search_robots content)); cbn; split; (done || lia).
Qed.

(** ** A limit that is no number *)

(** X24: a CONCURRENT_REQUESTS_PER_DOMAIN whose value is no number (a
    string, a list, or an expression that is no literal, which is read as
    [None]) makes the analysis end in a TypeError whenever AutoThrottle is not
    enabled: the comparison with 8 raises, and no result is returned. *)
Theorem concurrency_without_number_raises content tree file project_name e ln :
  ast_parse lib content = Parsed tree ->
  last_assignment "CONCURRENT_REQUESTS_PER_DOMAIN" (walk tree) = Some (e, ln) ->
  is_number (get_node_value lib e) = false ->
  autothrottle_enabled lib (settings_found (walk tree)) = false ->
  regex_literal project_name = true ->
  analyze_settings lib (ReadText content) file project_name = Raise TypeError.
Proof.
  intros Hparse Hlast Hnum Hauto Hlit. unfold analyze_settings. rewrite Hparse.
  set (found := settings_found (walk tree)) in *.
  unfold perform_checks.
  destruct (check_user_agent_returns lib found content file project_name
              (check_robots lib found content file (Results [] [] [syntax_ok_info file])) Hlit)
    as (r2 & -> & _).
  cbn [mbind result_bind].
  assert (check_throttle lib found file r2 = Raise TypeError) as ->; [|done].
  unfold check_throttle. rewrite Hauto. cbn [negb].
  assert (gt (setting_value lib found "CONCURRENT_REQUESTS_PER_DOMAIN" (PyInt 16)) 8
          = Raise TypeError) as ->.
  { unfold setting_value, found. rewrite settings_found_lookup, Hlast.
    unfold gt. unfold is_number in Hnum. by destruct (number (get_node_value lib e)). }
  destruct (is_none _); cbn [mbind result_bind]; [done|].
  unfold lt. by destruct (number _).
Qed.

(** ** AutoThrottle *)

(** X25: with AUTOTHROTTLE_ENABLED = True the delay and the concurrency
    limits are not looked at.  Whatever they are set to, numbers or not, the
    analysis returns (for a project name that is literal text in the
    user-agent pattern), it holds the info entry about AutoThrottle at the
    line of the assignment, and none of its recommendations is about the
    delay or the concurrency. *)
Theorem autothrottle_skips_throttle_checks content tree file project_name e ln :
  ast_parse lib content = Parsed tree ->
  last_assignment "AUTOTHROTTLE_ENABLED" (walk tree) = Some (e, ln) ->
  literal_eval lib e = Some (PyBool true) ->
  regex_literal project_name = true ->
  exists r x, analyze_settings lib (ReadText content) file project_name = Ok r /\
    x ∈ info r /\ message x = "`AUTOTHROTTLE_ENABLED` is True." /\ line x = Some ln /\
    Forall (fun y => message y ∉ throttle_messages) (recommendations r).
Proof.
  intros Hparse Hlast Heval Hlit. unfold analyze_settings. rewrite Hparse.
  set (found := settings_found (walk tree)) in *.
  assert (found !! "AUTOTHROTTLE_ENABLED" = Some (e, ln)) as Hfound
    by (unfold found; by rewrite settings_found_lookup).
  unfold perform_checks.
  set (r1 := check_robots lib found content file (Results [] [] [syntax_ok_info file])).
  assert (recommendations r1 = []) as Hr1.
  { unfold r1, check_robots. destruct (found !! "ROBOTSTXT_OBEY") as [[e0 ln0]|].
    - by destruct (is_false _).
    - by destruct (negb _). }
  assert (exists r2, check_user_agent lib found content file project_name r1 = Ok r2 /\
            Forall (fun y => message y ∉ throttle_messages) (recommendations r2))
    as (r2 & -> & Hr2).
  { unfold check_user_agent, search_default_ua. rewrite Hlit.
    assert (forall y, message y ∉ throttle_messages ->
              Forall (fun y => message y ∉ throttle_messages)
                (recommendations (add_recommendation y r1))) as Hadd.
    { intros y Hy. cbn. rewrite Hr1. by repeat constructor. }
    assert (Forall (fun y => message y ∉ throttle_messages) (recommendations r1)) as Hsame
      by (rewrite Hr1; constructor).
    assert (forall ln0, message (ua_default_recommendation file ln0) ∉ throttle_messages)
      as Hdefault.
    { intros ln0. apply (bool_decide_unpack _). by vm_compute. }
    assert (message (ua_missing_recommendation file) ∉ throttle_messages) as Hmissing.
    { apply (bool_decide_unpack _). by vm_compute. }
    destruct (found !! "USER_AGENT") as [[e0 ln0]|].
    - destruct (get_node_value lib e0) as [| | | |s|]; try by eexists.
      destruct (PyStr.contains project_name s); eexists; (split; [done|]); auto.
    - cbn [mbind result_bind]. destruct (_ || _); eexists; (split; [done|]); auto. }
  cbn [mbind result_bind]. unfold check_throttle, autothrottle_enabled.
  rewrite Hfound. unfold get_node_value at 1. rewrite Heval. cbn [is_true negb].
  cbn [mbind result_bind].
  set (x := autothrottle_info found file).
  exists (check_extensions content file (check_cache lib found file (add_info x r2))), x.
  split; [done|]. split_and!.
  - apply check_extensions_info. left. unfold check_cache.
    destruct (found !! "HTTPCACHE_ENABLED") as [[e0 ln0]|]; [destruct (is_false _)|];
      cbn; rewrite ?elem_of_app, ?list_elem_of_singleton; auto.
  - done.
  - unfold x, autothrottle_info, setting_line. cbn [line]. by rewrite Hfound.
  - assert (recommendations (check_extensions content file
              (check_cache lib found file (add_info x r2)))
            = recommendations (check_cache lib found file (add_info x r2))) as ->.
    { unfold check_extensions. by repeat destruct (PyStr.contains _ content). }
    assert (message (cache_disabled_recommendation found file) ∉ throttle_messages) as Hcache.
    { apply (bool_decide_unpack _). by vm_compute. }
    unfold check_cache.
    destruct (found !! "HTTPCACHE_ENABLED") as [[e0 ln0]|]; [destruct (is_false _)|];
      cbn [recommendations add_recommendation add_info]; try done;
      apply Forall_app; split; try done; by repeat constructor.
Qed.

(** ** Assignments at any depth *)

Lemma walk_queue_complete fuel (todo : list (node expr)) n t :
  list_sum (map size todo) <= fuel -> t ∈ todo -> subnode n t ->
  n ∈ walk_queue fuel todo.
Proof.
  revert todo t. induction fuel as [|fuel IH]; intros todo t Hfuel Ht Hsub.
  { destruct todo as [|t0 rest]; [by apply not_elem_of_nil in Ht|].
    rewrite map_cons, size_children in Hfuel. unfold list_sum in Hfuel.
    cbn [fold_right] in Hfuel. lia. }
  destruct todo as [|t0 rest]; [by apply not_elem_of_nil in Ht|].
  cbn [walk_queue].
  assert (list_sum (map size (rest ++ children t0)) <= fuel) as Hfuel'.
  { rewrite map_app, list_sum_app. rewrite map_cons, size_children in Hfuel.
    unfold list_sum in *. cbn [fold_right] in Hfuel. lia. }
  apply elem_of_cons in Ht as [->|Ht].
  - destruct Hsub as [|c t0 Hc Hsub]; [by left|].
    right. apply (IH _ c Hfuel'); [|done]. apply elem_of_app. by right.
  - right. apply (IH _ t Hfuel'); [|done]. apply elem_of_app. by left.
Qed.

Lemma last_omap_is_Some {A B} (f : A -> option B) (l : list A) x :
  x ∈ l -> is_Some (f x) -> is_Some (last (omap f l)).
Proof.
  intros Hx [y Hy].
  assert (y ∈ omap f l) as Hin by (apply list_elem_of_omap; eauto).
  destruct (omap f l) as [|z l'] using rev_ind; [by apply not_elem_of_nil in Hin|].
  rewrite last_snoc. eauto.
Qed.

(** X26: an assignment counts as a setting wherever it stands in the
    source: the walk reaches every node of the tree, so a name assigned in
    the body of an [if], a [try], a function or a class, at any depth, is in
    the dictionary of the settings found. *)
Theorem nested_assignment_is_recorded (tree : node expr) targets (value : expr) lineno name :
  subnode (Assign targets value lineno) tree ->
  existsb (stores name) targets = true ->
  Assign targets value lineno ∈ walk tree /\
  is_Some (settings_found (walk tree) !! name).
Proof.
  intros Hsub Hstores.
  assert (Assign targets value lineno ∈ walk tree) as Hin.
  { unfold walk. apply (walk_queue_complete _ _ _ tree); [|by left|done].
    cbn [map]. unfold list_sum. cbn [fold_right]. lia. }
  split; [done|]. rewrite settings_found_lookup. unfold last_assignment.
  apply (last_omap_is_Some _ _ _ Hin). cbn [assignment_to]. by rewrite Hstores.
Qed.

End SettingsAdvisorMoreProofs.

Section SettingsAdvisorMoreCases.

Import Py SettingsAdvisor SettingsAdvisorMore Scenarios MoreScenarios.

Lemma analysis_warnings_witness :
  exists r,
    analyze_settings (sample_lib (fun _ => Parsed robots_tree)) (ReadText robots_source)
      "settings.py" "shop" = Ok r /\
    length (warnings r) <= 1 /\ warnings r = [robots_warning "settings.py" 2].
Proof.
  assert (exists r,
            analyze_settings (sample_lib (fun _ => Parsed robots_tree)) (ReadText robots_source)
              "settings.py" "shop" = Ok r) as [r Hr] by (eexists; vm_compute; reflexivity).
  exists r. split; [exact Hr|].
  exact (analysis_gives_at_most_one_warning (sample_lib (fun _ => Parsed robots_tree))
           (ReadText robots_source) "settings.py" "shop" r Hr).
Defined.

Lemma concurrency_without_number_witness :
  analyze_settings (sample_lib (fun _ => Parsed concurrency_tree))
    (ReadText concurrency_source) "settings.py" "shop" = Raise TypeError.
Proof.
  apply (concurrency_without_number_raises (sample_lib (fun _ => Parsed concurrency_tree))
           concurrency_source concurrency_tree "settings.py" "shop"
           (Call "int(os.environ['CONC'])") 1); reflexivity.
Defined.

Lemma nested_assignment_witness :
  assign "ROBOTSTXT_OBEY" (Literal (PyBool false)) 3 ∈ walk nested_tree /\
  is_Some (settings_found (walk nested_tree) !! "ROBOTSTXT_OBEY").
Proof.
  apply (nested_assignment_is_recorded nested_tree [Name "ROBOTSTXT_OBEY" true]
           (Literal (PyBool false)) 3 "ROBOTSTXT_OBEY"); [|reflexivity].
  eapply subnode_below; [|eapply subnode_below; [|apply subnode_here]].
  - cbn [nested_tree children]. apply list_elem_of_lookup. by exists 1.
  - cbn [children]. apply list_elem_of_lookup. by exists 1.
Defined.

Lemma autothrottle_witness :
  exists r x,
    analyze_settings (sample_lib (fun _ => Parsed autothrottle_tree))
      (ReadText autothrottle_source) "settings.py" "shop" = Ok r /\
    x ∈ info r /\ message x = "`AUTOTHROTTLE_ENABLED` is True." /\ line x = Some 2 /\
    Forall (fun y => message y ∉ throttle_messages) (recommendations r).
Proof.
  apply (autothrottle_skips_throttle_checks (sample_lib (fun _ => Parsed autothrottle_tree))
           autothrottle_source autothrottle_tree "settings.py" "shop"
           (Literal (PyBool true)) 2); reflexivity.
Defined.

End SettingsAdvisorMoreCases.

(** * Further properties of the project file API *)

Section FileApiMoreProofs.

Import FileApi FileApiMore.

(** ** Strings and their prefixes *)







(** ** The pieces of a split at slashes *)












(** ** Listings *)




(** X17: for a project stored under a relative path no directory with an
    entry can be listed: the entries are absolute paths, [relative_to] of the
    first one to the relative base raises ValueError, and no handler catches
    it. *)
Theorem listing_under_relative_base_fails root cwd projects project_name sub_path
    project_dir base entries :
  projects !! project_name = Some project_dir ->
  base_project_path root cwd project_dir project_name = Some base ->
  absolute base = false ->
  PyStr.startswith (path_str (resolved_path (resolve cwd base)))
    (path_str (resolved_path (requested_path cwd base sub_path))) = true ->
  lookup root (requested_path cwd base sub_path) = Some (Dir entries) ->
  entries <> [] ->
  list_or_get_file root cwd projects project_name sub_path = Unhandled ValueError.
Proof.
  intros Hproj Hbase Hrel Hcheck Hdir Hne.
  unfold list_or_get_file. rewrite Hproj, Hbase, Hcheck, Hdir. cbn [negb].
  destruct (merge_sort _ entries) as [|[n x] sorted] eqn:Hsort.
  - exfalso. apply Hne. apply Permutation_nil_r. rewrite <-Hsort.
    symmetry. apply merge_sort_Permutation.
  - cbn [list_items]. unfold relative_to. cbn [resolved_path absolute]. by rewrite Hrel.
Qed.

End FileApiMoreProofs.

Section FileApiMoreCases.

Import FileApi FileApiMore Scenarios MoreScenarios.



Lemma listing_under_relative_base_witness :
  list_or_get_file shop_fs ["srv"] relative_projects "shop" "" = Unhandled ValueError.
Proof.
  apply (listing_under_relative_base_fails shop_fs ["srv"] relative_projects "shop" ""
           "shop" (Path false ["shop"; "shop"])
           [("settings.py", File (Some "BOT_NAME = 'shop'"));
            ("spiders", Dir [("books.py", File (Some "import scrapy"))])]).
  - by vm_compute.
  - by vm_compute.
  - reflexivity.
  - by vm_compute.
  - by vm_compute.
  - discriminate.
Defined.

End FileApiMoreCases.
